(** * Staged job submission for one subject: a shallow embedding

    This development embeds the submission logic of
    [lib/ccf/one_subject_job_submitter.py] (the abstract base class
    [OneSubjectJobSubmitter]) and of its concrete subclass in
    [lib/ccf/structural_preprocessing/one_subject_job_submitter.py], and
    proves properties of the staged submission, of the memoised working
    directory name and of the rendering of job scripts.

    Conventions of the embedding:
    - a Python [str] is a [string], [None]-able values are [option]s, and
      Python truthiness ([if x:]) is written out ([truthy], [list_truthy]);
    - the instance attributes form the record [Submitter]; the part of the
      outside world the code touches (file system, clock, external
      commands) forms the record [World];
    - methods are computations in the state-and-exception monad [M]; a
      raised Python exception is the result [Raise e], and the state reached
      at the raise is kept;
    - every external command run through [subprocess.run] is appended to the
      [trace] of the world together with its exit status and output. *)

From Stdlib Require Import ZArith String Ascii Decimal DecimalString.
From stdpp Require Import base gmap strings list sorting.

Local Open Scope Z_scope.

(** ** Python and [os] conventions *)

Module Py.

(** [if s:] for a value that is [None] or a [str]. *)
Definition truthy (o : option string) : bool :=
  match o with
  | Some (String _ _) => true
  | _ => false
  end.

(** [if l:] for a value that is [None] or a [list]. *)
Definition list_truthy {A : Type} (o : option (list A)) : bool :=
  match o with
  | Some (_ :: _) => true
  | _ => false
  end.

(** The [str] a truthy value holds. *)
Definition str_value (o : option string) : string := default EmptyString o.

(** [s.startswith(pre)], returning the rest of [s] after [pre]. *)
Fixpoint strip_prefix (pre s : string) : option string :=
  match pre, s with
  | EmptyString, _ => Some s
  | String a pre', String b s' => if Ascii.eqb a b then strip_prefix pre' s' else None
  | String _ _, EmptyString => None
  end.

(** [s.replace(old, new)]: every occurrence of [old], found from the
    left and without overlap, becomes [new].  [skip] counts the
    characters of a match still to be dropped. *)
Fixpoint replace_from (old new : string) (skip : nat) (s : string) : string :=
  match s with
  | EmptyString => EmptyString
  | String c r =>
      match skip with
      | S k => replace_from old new k r
      | O =>
          match strip_prefix old s with
          | Some _ => new +:+ replace_from old new (Nat.pred (String.length old)) r
          | None => String c (replace_from old new O r)
          end
      end
  end.

Fixpoint intersperse_str (new s : string) : string :=
  match s with
  | EmptyString => EmptyString
  | String c r => String c (new +:+ intersperse_str new r)
  end.

Definition str_replace (s old new : string) : string :=
  match old with
  | EmptyString => new +:+ intersperse_str new s
  | String _ _ => replace_from old new O s
  end.

(** [str(n)] for an [int]. *)
Definition str_of_int (n : Z) : string := NilZero.string_of_int (Z.to_int n).

(** [os.sep], [os.path.sep] and [os.linesep] on the POSIX hosts the jobs
    run on. *)
Definition os_sep : string := "/".
Definition os_linesep : string := String "010"%char "".

(** The double quote character of the quoted script arguments. *)
Definition dq : string := String "034"%char "".

(** [stat.S_IRWXU] and [stat.S_IRWXG]. *)
Definition S_IRWXU : Z := 448.
Definition S_IRWXG : Z := 56.

End Py.

(** ** Processing stages *)

Module ProcessingStage.

(** Modelled from the spec: [ccf/processing_stage.py] is not among the
    sources.  The specification describes [ProcessingStage] as the ordered
    enumeration PREPARE_SCRIPTS, GET_DATA, PROCESS_DATA, CLEAN_DATA,
    PUT_DATA, CHECK_DATA, totally ordered by declaration position. *)
Inductive t : Set :=
| PREPARE_SCRIPTS
| GET_DATA
| PROCESS_DATA
| CLEAN_DATA
| PUT_DATA
| CHECK_DATA.

Definition value (s : t) : Z :=
  match s with
  | PREPARE_SCRIPTS => 0
  | GET_DATA => 1
  | PROCESS_DATA => 2
  | CLEAN_DATA => 3
  | PUT_DATA => 4
  | CHECK_DATA => 5
  end.

(** [a >= b] and [a > b] of the ordered enumeration. *)
Definition ge (a b : t) : bool := value b <=? value a.
Definition gt (a b : t) : bool := value b <? value a.

(** The [.name] attribute of a member. *)
Definition name (s : t) : string :=
  match s with
  | PREPARE_SCRIPTS => "PREPARE_SCRIPTS"
  | GET_DATA => "GET_DATA"
  | PROCESS_DATA => "PROCESS_DATA"
  | CLEAN_DATA => "CLEAN_DATA"
  | PUT_DATA => "PUT_DATA"
  | CHECK_DATA => "CHECK_DATA"
  end.

Definition all : list t :=
  [PREPARE_SCRIPTS; GET_DATA; PROCESS_DATA; CLEAN_DATA; PUT_DATA; CHECK_DATA].

End ProcessingStage.

Abbreviation Stage := ProcessingStage.t.

(** ** The outside world *)

(** A file system entry: a regular file with its content and permission
    bits, or a directory. *)
Inductive Node : Type :=
| File (content : string) (mode : Z)
| Dir.

(** The jobs a run may hand to the scheduler, used to label trace entries
    with the method that issued them. *)
Inductive Job : Set :=
| GetDataJob
| ProcessDataJob
| CleanDataJob
| PutDataJob
| CheckDataJob
| NoLongerRunningJob.

(** Where in the code an external command is launched. *)
Inductive CallSite : Set :=
| MarkQueued
| Submit (j : Job)
| SubmitFreesurferAssessor.

(** What the run did to the outside world, oldest entry first. *)
Inductive Event : Type :=
| EvRun (site : CallSite) (cmd : string) (returncode : Z) (stdout : string)
| EvDeleteResource (server project subject session resource : string) (ok : bool).

Record World : Type := mkWorld {
  fs : gmap string Node;
  trace : list Event;
  clock : Z;          (* whole seconds since the epoch, [int(time.time())] *)
  umask : Z
}.

(** Python exceptions the modelled code can raise. *)
Inductive Exn : Type :=
| CalledProcessError (returncode : Z) (cmd : string)
| FileNotFoundError (path : string)
| FileExistsError (path : string)
| IsADirectoryError (path : string)
| NotADirectoryError (path : string)
| ResourceDeleteError (resource : string).

(** ** The submitter instance *)

(** The attributes of a [OneSubjectJobSubmitter] instance.  The attributes
    set through the property setters are taken as set (reading an unset one
    is an error of the caller); [_scan] and
    [_working_directory_name_prefix] start as [None]. *)
Record Submitter : Type := mkSubmitter {
  _build_home : string;
  _xnat_pbs_jobs_home : string;
  _log_dir : string;
  _scan : option string;
  _working_directory_name_prefix : option string;
  _username : string;
  _password : string;
  _server : string;
  _project : string;
  _subject : string;
  _session : string;
  _classifier : string;
  _clean_output_resource_first : bool;
  _put_server : string;
  _walltime_limit_hours : string;
  _vmem_limit_gbs : string;
  _output_resource_suffix : string;
  _use_prescan_normalized : bool
}.

Definition set_working_directory_name_prefix (v : option string) (s : Submitter) : Submitter :=
  {| _build_home := _build_home s;
     _xnat_pbs_jobs_home := _xnat_pbs_jobs_home s;
     _log_dir := _log_dir s;
     _scan := _scan s;
     _working_directory_name_prefix := v;
     _username := _username s;
     _password := _password s;
     _server := _server s;
     _project := _project s;
     _subject := _subject s;
     _session := _session s;
     _classifier := _classifier s;
     _clean_output_resource_first := _clean_output_resource_first s;
     _put_server := _put_server s;
     _walltime_limit_hours := _walltime_limit_hours s;
     _vmem_limit_gbs := _vmem_limit_gbs s;
     _output_resource_suffix := _output_resource_suffix s;
     _use_prescan_normalized := _use_prescan_normalized s |}.

(** The setter of the [scan] property: [self._scan = value]. *)
Definition set_scan (value : option string) (s : Submitter) : Submitter :=
  {| _build_home := _build_home s;
     _xnat_pbs_jobs_home := _xnat_pbs_jobs_home s;
     _log_dir := _log_dir s;
     _scan := value;
     _working_directory_name_prefix := _working_directory_name_prefix s;
     _username := _username s;
     _password := _password s;
     _server := _server s;
     _project := _project s;
     _subject := _subject s;
     _session := _session s;
     _classifier := _classifier s;
     _clean_output_resource_first := _clean_output_resource_first s;
     _put_server := _put_server s;
     _walltime_limit_hours := _walltime_limit_hours s;
     _vmem_limit_gbs := _vmem_limit_gbs s;
     _output_resource_suffix := _output_resource_suffix s;
     _use_prescan_normalized := _use_prescan_normalized s |}.

(** ** The monad of methods *)

Record State : Type := mkState {
  self : Submitter;
  world : World
}.

Inductive Result (A : Type) : Type :=
| Ok (a : A)
| Raise (e : Exn).
Arguments Ok {A} a.
Arguments Raise {A} e.

Definition M (A : Type) : Type := State -> Result A * State.

Definition ret {A : Type} (a : A) : M A := fun st => (Ok a, st).

Definition raise {A : Type} (e : Exn) : M A := fun st => (Raise e, st).

Definition bind {A B : Type} (m : M A) (k : A -> M B) : M B :=
  fun st =>
    match m st with
    | (Ok a, st') => k a st'
    | (Raise e, st') => (Raise e, st')
    end.

Declare Scope py_scope.
Delimit Scope py_scope with py.
Notation "x <- m ;; k" := (bind m (fun x => k))
  (at level 100, m at next level, right associativity) : py_scope.
Notation "m ;;; k" := (bind m (fun _ => k))
  (at level 100, right associativity) : py_scope.
Local Open Scope py_scope.

(** Reading and changing the two halves of the state. *)
Definition get_self : M Submitter := fun st => (Ok (self st), st).
Definition put_self (s : Submitter) : M unit :=
  fun st => (Ok tt, {| self := s; world := world st |}).
Definition get_world : M World := fun st => (Ok (world st), st).
Definition put_world (w : World) : M unit :=
  fun st => (Ok tt, {| self := self st; world := w |}).

(** [with contextlib.suppress(FileNotFoundError): body]. *)
Definition suppress_FileNotFoundError (body : M unit) : M unit :=
  fun st =>
    match body st with
    | (Raise (FileNotFoundError _), st') => (Ok tt, st')
    | r => r
    end.

Definition set_fs (f : gmap string Node) (w : World) : World :=
  {| fs := f; trace := trace w; clock := clock w; umask := umask w |}.
Definition log_event (e : Event) (w : World) : World :=
  {| fs := fs w; trace := trace w ++ [e]; clock := clock w; umask := umask w |}.
Definition set_clock (c : Z) (w : World) : World :=
  {| fs := fs w; trace := trace w; clock := c; umask := umask w |}.

(** ** [os], [os.path], [time] and file objects *)

Module Os.

(** [p[:i]] and [p[i:]] for [i = p.rfind('/') + 1]. *)
Fixpoint split_at_last_sep (p : string) : string * string :=
  match p with
  | EmptyString => (EmptyString, EmptyString)
  | String c r =>
      match split_at_last_sep r with
      | (EmptyString, _) =>
          if Ascii.eqb c "/" then (String c EmptyString, r)
          else (EmptyString, String c r)
      | (h, t) => (String c h, t)
      end
  end.

(** [s.rstrip('/')]. *)
Fixpoint rstrip_sep (s : string) : string :=
  match s with
  | EmptyString => EmptyString
  | String c r =>
      match rstrip_sep r with
      | EmptyString => if Ascii.eqb c "/" then EmptyString else String c EmptyString
      | r' => String c r'
      end
  end.

(** [posixpath.split]: the head loses its trailing slashes unless it
    consists of slashes only. *)
Definition path_split (p : string) : string * string :=
  match split_at_last_sep p with
  | (head, tail) =>
      match rstrip_sep head with
      | EmptyString => (head, tail)
      | head' => (head', tail)
      end
  end.

(** The current directory ([""] as a head) and the root always exist;
    every other path exists when the file system has an entry for it. *)
Definition is_root_or_cwd (p : string) : bool :=
  match rstrip_sep p with
  | EmptyString => true
  | _ => false
  end.

Definition path_exists (f : gmap string Node) (p : string) : bool :=
  is_root_or_cwd p || bool_decide (is_Some (f !! p)).

Definition exists_ (p : string) : M bool :=
  w <- get_world ;; ret (path_exists (fs w) p).

(** [os.remove(p)]. *)
Definition remove (p : string) : M unit :=
  w <- get_world ;;
  match fs w !! p with
  | None => raise (FileNotFoundError p)
  | Some Dir => raise (IsADirectoryError p)
  | Some (File _ _) => put_world (set_fs (delete p (fs w)) w)
  end.

(** [os.chmod(p, mode)]; the permission bits of directories are not
    tracked. *)
Definition chmod (p : string) (mode : Z) : M unit :=
  w <- get_world ;;
  match fs w !! p with
  | None => raise (FileNotFoundError p)
  | Some Dir => ret tt
  | Some (File c _) => put_world (set_fs (<[p := File c mode]> (fs w)) w)
  end.

(** [os.mkdir(p)]. *)
Definition mkdir (p : string) : M unit :=
  w <- get_world ;;
  if path_exists (fs w) p then raise (FileExistsError p)
  else
    let parent := fst (path_split p) in
    if is_root_or_cwd parent then put_world (set_fs (<[p := Dir]> (fs w)) w)
    else
      match fs w !! parent with
      | None => raise (FileNotFoundError p)
      | Some (File _ _) => raise (NotADirectoryError p)
      | Some Dir => put_world (set_fs (<[p := Dir]> (fs w)) w)
      end.

(** [os.makedirs(name)] with [exist_ok=False], after the library's
    recursion on the head of the path; [fuel] bounds the recursion and
    the length of the name is always enough. *)
Fixpoint makedirs_fuel (fuel : nat) (name : string) : M unit :=
  let '(head, tail) := path_split name in
  let '(head, tail) :=
    match tail with
    | EmptyString => path_split head
    | _ => (head, tail)
    end in
  w <- get_world ;;
  match head, tail with
  | String _ _, String _ _ =>
      if path_exists (fs w) head then mkdir name
      else
        match fuel with
        | O => mkdir name
        | S fuel' =>
            (fun st =>
               match makedirs_fuel fuel' head st with
               | (Raise (FileExistsError _), st') => (Ok tt, st')
               | r => r
               end) ;;;
            if String.eqb tail "." then ret tt else mkdir name
        end
  | _, _ => mkdir name
  end.

Definition makedirs (name : string) : M unit :=
  makedirs_fuel (String.length name) name.

End Os.

Module FileObj.

(** A file object opened for writing is identified with its path; nothing
    in the modelled code moves a script while it is open. *)

(** [open(p, 'w')]: create the file or truncate it. *)
Definition open_w (p : string) : M string :=
  w <- get_world ;;
  match fs w !! p with
  | Some Dir => raise (IsADirectoryError p)
  | Some (File _ mode) =>
      put_world (set_fs (<[p := File EmptyString mode]> (fs w)) w) ;;; ret p
  | None =>
      let parent := fst (Os.path_split p) in
      if Os.is_root_or_cwd parent then
        put_world (set_fs (<[p := File EmptyString (Z.land 438 (Z.lnot (umask w)))]> (fs w)) w) ;;; ret p
      else
        match fs w !! parent with
        | None => raise (FileNotFoundError p)
        | Some (File _ _) => raise (NotADirectoryError p)
        | Some Dir =>
            put_world (set_fs (<[p := File EmptyString (Z.land 438 (Z.lnot (umask w)))]> (fs w)) w) ;;; ret p
        end
  end.

(** [f.write(text)], as seen once the file is closed: the text is added
    at the end of the content. *)
Definition write (f : string) (text : string) : M unit :=
  w <- get_world ;;
  match fs w !! f with
  | Some (File c mode) => put_world (set_fs (<[f := File (c +:+ text) mode]> (fs w)) w)
  | _ => ret tt
  end.

Definition close (f : string) : M unit := ret tt.

End FileObj.

Module Time.

(** [int(time.time())]. *)
Definition time_int : M Z := w <- get_world ;; ret (clock w).

(** [time.sleep(seconds)]. *)
Definition sleep (seconds : Z) : M unit :=
  w <- get_world ;; put_world (set_clock (clock w + seconds) w).

End Time.

(** ** What the installation provides *)

(** The values of the required environment variables, the helper functions
    of [utils] that are not among the sources, and the behaviour of the
    external programs: [shell] answers a command line, given the commands
    run so far, with an exit status and the text written to standard
    output. *)
Record Platform : Type := mkPlatform {
  XNAT_PBS_JOBS_CONTROL : string;
  REQUESTED_XNAT_SERVER : string;
  SINGULARITY_CONTAINER_VERSION : string;
  SINGULARITY_CONTAINER_PATH : string;
  SINGULARITY_CONTAINER_XNAT_PATH : string;
  SINGULARITY_BIND_PATH : string;
  SINGULARITY_QUNEXRUN_PATH : string;
  SINGULARITY_QUNEXPARAMETER_PATH : string;
  GRADIENT_COEFFICIENT_PATH : string;
  FREESURFER_LICENSE_PATH : string;
  XNAT_PBS_JOBS_ARCHIVE_ROOT : string;
  SCRATCH_PROCESSING_DIR : string;
  (* str_utils.get_server_name, str_utils.remove_ending_new_lines *)
  get_server_name : string -> string;
  remove_ending_new_lines : string -> string;
  (* the text that file_utils.wl writes for a line *)
  wl_text : string -> string;
  (* external programs *)
  shell : list Event -> string -> Z * string;
  delete_resource_ok : list Event -> string -> string -> string -> string -> string -> bool
}.

Module Subprocess.
Section Subprocess.
Context (P : Platform).

(** [subprocess.run(cmd, shell=True, check=True, stdout=subprocess.PIPE,
    universal_newlines=True).stdout]: a non-zero exit status raises
    [CalledProcessError]. *)
Definition run_check (site : CallSite) (cmd : string) : M string :=
  w <- get_world ;;
  let rc := fst (shell P (trace w) cmd) in
  let out := snd (shell P (trace w) cmd) in
  put_world (log_event (EvRun site cmd rc out) w) ;;;
  if rc =? 0 then ret out else raise (CalledProcessError rc cmd).

(** Modelled from the spec: [utils/delete_resource.py] is not among the
    sources.  The specification gives
    [deleteResource(credentials, server, project, subject, session,
    resourceName) -> success|failure], a failure being fatal to the run. *)
Definition delete_resource (username password server project subject session resource : string) : M unit :=
  w <- get_world ;;
  let ok := delete_resource_ok P (trace w) server project subject session resource in
  put_world (log_event (EvDeleteResource server project subject session resource ok) w) ;;;
  if ok then ret tt else raise (ResourceDeleteError resource).

End Subprocess.
End Subprocess.

(** ** The base class [OneSubjectJobSubmitter] *)

Module Base.
Section Base.
Import Py.

Context (P : Platform).

(** The abstract property [PIPELINE_NAME], and the methods that are
    abstract in the base class or overridden by a subclass: the base
    class reaches them through [self], so they are the ones of the
    concrete class. *)
Context (PIPELINE_NAME : string).
Context (self_create_get_data_job_script : M unit).
Context (self_create_process_data_job_script : M unit).
Context (self_create_scripts : Stage -> M unit).
Context (self_submit_process_data_jobs :
           Stage -> option string -> M (option string * option (list string))).
Context (self_mark_running_status : Stage -> M unit).

(** *** Names *)

Definition output_resource_name (s : Submitter) : string :=
  if truthy (_scan s) then str_value (_scan s) +:+ "_" +:+ _output_resource_suffix s
  else _output_resource_suffix s.

(** Since the working directory name prefix contains a timestamp, it is
    built one time only: the first request stores it, and any subsequent
    request returns the stored name. *)
Definition working_directory_name_prefix : M string :=
  s <- get_self ;;
  match _working_directory_name_prefix s with
  | None =>
      current_seconds_since_epoch <- Time.time_int ;;
      let wdir := _build_home s in
      let wdir := wdir +:+ os_sep +:+ _project s in
      let wdir := wdir +:+ os_sep +:+ PIPELINE_NAME in
      let wdir := wdir +:+ "." +:+ _subject s in
      let wdir := wdir +:+ "_" +:+ _classifier s in
      let wdir := if truthy (_scan s) then wdir +:+ "_" +:+ str_value (_scan s) else wdir in
      let wdir := wdir +:+ "." +:+ str_of_int current_seconds_since_epoch in
      put_self (set_working_directory_name_prefix (Some wdir) s) ;;;
      ret wdir
  | Some prefix => ret prefix
  end.

Definition working_directory_name : M string :=
  prefix <- working_directory_name_prefix ;;
  ret (prefix +:+ ".XNAT_PROCESS_DATA").

Definition check_data_directory_name : M string :=
  prefix <- working_directory_name_prefix ;;
  ret (prefix +:+ ".XNAT_CHECK_DATA").

Definition mark_completion_directory_name : M string :=
  prefix <- working_directory_name_prefix ;;
  ret (prefix +:+ ".XNAT_MARK_COMPLETE_RUNNING_STATUS").

Definition scripts_start_name : M string :=
  s <- get_self ;;
  start_name <- working_directory_name ;;
  let start_name := start_name +:+ os_sep +:+ _subject s in
  let start_name := start_name +:+ "_" +:+ _classifier s in
  let start_name :=
    if truthy (_scan s) then start_name +:+ "_" +:+ str_value (_scan s) else start_name in
  let start_name := start_name +:+ "." +:+ PIPELINE_NAME in
  ret start_name.

Definition processing_info_directory_name : M string :=
  s <- get_self ;;
  processing_info_name <- working_directory_name ;;
  let processing_info_name :=
    processing_info_name +:+ os_sep +:+ _subject s +:+ "_" +:+ _classifier s in
  let processing_info_name := processing_info_name +:+ os_sep +:+ "ProcessingInfo" in
  ret processing_info_name.

Definition get_data_job_script_name : M string :=
  start <- scripts_start_name ;; ret (start +:+ ".XNAT_GET_DATA_job.sh").

Definition put_data_script_name : M string :=
  start <- scripts_start_name ;; ret (start +:+ ".XNAT_PUT_DATA_job.sh").

Definition clean_data_script_name : M string :=
  start <- scripts_start_name ;; ret (start +:+ ".CLEAN_DATA_job.sh").

Definition process_data_job_script_name : M string :=
  start <- scripts_start_name ;; ret (start +:+ ".PROCESS_DATA_job.sh").

Definition setup_file_name : M string :=
  start <- scripts_start_name ;; ret (start +:+ ".SETUP.sh").

Definition starttime_file_name : M string :=
  s <- get_self ;;
  starttime_file_name <- working_directory_name ;;
  let starttime_file_name := starttime_file_name +:+ os_sep in
  let starttime_file_name := starttime_file_name +:+ _subject s +:+ "_" +:+ _classifier s in
  let starttime_file_name := starttime_file_name +:+ os_sep in
  let starttime_file_name := starttime_file_name +:+ "ProcessingInfo" in
  let starttime_file_name := starttime_file_name +:+ os_sep in
  let starttime_file_name := starttime_file_name +:+ _subject s in
  let starttime_file_name := starttime_file_name +:+ "_" +:+ _classifier s in
  let starttime_file_name :=
    if truthy (_scan s) then starttime_file_name +:+ "_" +:+ str_value (_scan s)
    else starttime_file_name in
  let starttime_file_name := starttime_file_name +:+ "." +:+ PIPELINE_NAME in
  let starttime_file_name := starttime_file_name +:+ ".starttime" in
  ret starttime_file_name.

Definition check_data_job_script_name : M string :=
  s <- get_self ;;
  name <- check_data_directory_name ;;
  let name := name +:+ os_sep +:+ _subject s in
  let name := name +:+ "_" +:+ _classifier s in
  let name := if truthy (_scan s) then name +:+ "_" +:+ str_value (_scan s) else name in
  let name := name +:+ "." +:+ PIPELINE_NAME in
  let name := name +:+ "." +:+ "XNAT_CHECK_DATA_job.sh" in
  ret name.

Definition mark_no_longer_running_script_name : M string :=
  s <- get_self ;;
  name <- mark_completion_directory_name ;;
  let name := name +:+ os_sep +:+ _subject s in
  let name := name +:+ "_" +:+ _classifier s in
  let name := if truthy (_scan s) then name +:+ "_" +:+ str_value (_scan s) else name in
  let name := name +:+ "." +:+ PIPELINE_NAME in
  let name := name +:+ "." +:+ "MARK_COMPLETE_RUNNING_STATUS_job.sh" in
  ret name.

Definition get_data_program_path (s : Submitter) : string :=
  let name := _xnat_pbs_jobs_home s in
  let name := name +:+ os_sep +:+ PIPELINE_NAME in
  let name := name +:+ os_sep +:+ PIPELINE_NAME +:+ ".XNAT_GET" in
  name.

Definition check_data_program_path (s : Submitter) : string :=
  let name := _xnat_pbs_jobs_home s in
  let name := name +:+ os_sep +:+ PIPELINE_NAME in
  let name := name +:+ os_sep +:+ PIPELINE_NAME +:+ ".XNAT_CHECK" in
  name.

Definition mark_running_status_program_path (s : Submitter) : string :=
  let name := _xnat_pbs_jobs_home s in
  let name := name +:+ os_sep +:+ PIPELINE_NAME in
  let name := name +:+ os_sep +:+ PIPELINE_NAME +:+ ".XNAT_MARK_RUNNING_STATUS" in
  name.

(** *** Values taken from the environment *)

Definition _get_xnat_pbs_setup_script_path : string :=
  XNAT_PBS_JOBS_CONTROL P +:+ "/xnat_pbs_setup".
Definition _get_xnat_pbs_setup_script_singularity_version : string :=
  SINGULARITY_CONTAINER_VERSION P.
Definition _get_xnat_pbs_setup_script_singularity_container_path : string :=
  SINGULARITY_CONTAINER_PATH P.
Definition _get_xnat_pbs_setup_script_singularity_container_xnat_path : string :=
  SINGULARITY_CONTAINER_XNAT_PATH P.
Definition _get_xnat_pbs_setup_script_singularity_bind_path : string :=
  SINGULARITY_BIND_PATH P.
Definition _get_xnat_pbs_setup_script_singularity_qunexrun_path : string :=
  SINGULARITY_QUNEXRUN_PATH P.
Definition _get_xnat_pbs_setup_script_singularity_qunexparameter_path : string :=
  SINGULARITY_QUNEXPARAMETER_PATH P.
Definition _get_xnat_pbs_setup_script_gradient_coefficient_path : string :=
  GRADIENT_COEFFICIENT_PATH P.
Definition _get_xnat_pbs_setup_script_freesurfer_license_path : string :=
  FREESURFER_LICENSE_PATH P.
Definition _get_xnat_pbs_setup_script_archive_root : string :=
  XNAT_PBS_JOBS_ARCHIVE_ROOT P.
Definition _get_db_name : string := REQUESTED_XNAT_SERVER P.

(** *** Rendering of the job scripts *)

Definition _write_bash_header (script : string) : M unit :=
  let bash_line := "#PBS -S /bin/bash" in
  FileObj.write script (wl_text P bash_line) ;;;
  FileObj.write script (wl_text P "").

Definition create_get_data_job_script : M unit :=
  s <- get_self ;;
  script_name <- get_data_job_script_name ;;
  suppress_FileNotFoundError (Os.remove script_name) ;;;
  script <- FileObj.open_w script_name ;;
  _write_bash_header script ;;;
  FileObj.write script ("#PBS -l nodes=1:ppn=1,walltime=4:00:00,mem=4gb" +:+ os_linesep) ;;;
  wd <- working_directory_name ;;
  FileObj.write script ("#PBS -o " +:+ wd +:+ os_linesep) ;;;
  wd <- working_directory_name ;;
  FileObj.write script ("#PBS -e " +:+ wd +:+ os_linesep) ;;;
  FileObj.write script os_linesep ;;;
  FileObj.write script ("source " +:+ _get_xnat_pbs_setup_script_path +:+ " " +:+ _get_db_name +:+ os_linesep) ;;;
  FileObj.write script ("module load " +:+ _get_xnat_pbs_setup_script_singularity_version +:+ os_linesep) ;;;
  FileObj.write script os_linesep ;;;
  FileObj.write script ("singularity exec -B " +:+ _get_xnat_pbs_setup_script_archive_root +:+ "," +:+ _get_xnat_pbs_setup_script_singularity_bind_path +:+ " " +:+ _get_xnat_pbs_setup_script_singularity_container_xnat_path +:+ " " +:+ get_data_program_path s +:+ " \" +:+ os_linesep) ;;;
  FileObj.write script ("  --project=" +:+ _project s +:+ " \" +:+ os_linesep) ;;;
  FileObj.write script ("  --subject=" +:+ _subject s +:+ " \" +:+ os_linesep) ;;;
  FileObj.write script ("  --classifier=" +:+ _classifier s +:+ " \" +:+ os_linesep) ;;;
  (if truthy (_scan s)
   then FileObj.write script ("  --scan=" +:+ str_value (_scan s) +:+ " \" +:+ os_linesep)
   else ret tt) ;;;
  wd <- working_directory_name ;;
  FileObj.write script ("  --working-dir=" +:+ wd +:+ os_linesep) ;;;
  FileObj.close script ;;;
  Os.chmod script_name (Z.lor S_IRWXU S_IRWXG).

Definition create_put_data_script : M unit :=
  s <- get_self ;;
  script_name <- put_data_script_name ;;
  suppress_FileNotFoundError (Os.remove script_name) ;;;
  script <- FileObj.open_w script_name ;;
  FileObj.write script ("#PBS -l nodes=1:ppn=1,walltime=4:00:00,mem=12gb" +:+ os_linesep) ;;;
  FileObj.write script ("#PBS -o " +:+ _log_dir s +:+ os_linesep) ;;;
  FileObj.write script ("#PBS -e " +:+ _log_dir s +:+ os_linesep) ;;;
  FileObj.write script os_linesep ;;;
  FileObj.write script ("source " +:+ _get_xnat_pbs_setup_script_path +:+ " " +:+ _get_db_name +:+ os_linesep) ;;;
  FileObj.write script ("module load " +:+ _get_xnat_pbs_setup_script_singularity_version +:+ os_linesep) ;;;
  FileObj.write script os_linesep ;;;
  wd1 <- working_directory_name ;;
  wd2 <- working_directory_name ;;
  FileObj.write script ("mv " +:+ wd1 +:+ os_sep +:+ "*" +:+ PIPELINE_NAME +:+ "* " +:+ wd2 +:+ os_sep +:+ _subject s +:+ "_" +:+ _classifier s +:+ os_sep +:+ "ProcessingInfo" +:+ os_linesep) ;;;
  FileObj.write script os_linesep ;;;
  FileObj.write script ("singularity exec -B " +:+ _get_xnat_pbs_setup_script_archive_root +:+ "," +:+ _get_xnat_pbs_setup_script_singularity_bind_path +:+ " " +:+ _get_xnat_pbs_setup_script_singularity_container_xnat_path +:+ " " +:+ _xnat_pbs_jobs_home s +:+ os_sep +:+ "WorkingDirPut" +:+ os_sep +:+ "XNAT_working_dir_put.sh \" +:+ os_linesep) ;;;
  FileObj.write script ("  --leave-subject-id-level \" +:+ os_linesep) ;;;
  FileObj.write script ("  --user=" +:+ dq +:+ _username s +:+ dq +:+ " \" +:+ os_linesep) ;;;
  FileObj.write script ("  --password=" +:+ dq +:+ _password s +:+ dq +:+ " \" +:+ os_linesep) ;;;
  FileObj.write script ("  --server=" +:+ dq +:+ get_server_name P (_put_server s) +:+ dq +:+ " \" +:+ os_linesep) ;;;
  FileObj.write script ("  --project=" +:+ dq +:+ _project s +:+ dq +:+ " \" +:+ os_linesep) ;;;
  FileObj.write script ("  --subject=" +:+ dq +:+ _subject s +:+ dq +:+ " \" +:+ os_linesep) ;;;
  FileObj.write script ("  --session=" +:+ dq +:+ _session s +:+ dq +:+ " \" +:+ os_linesep) ;;;
  wd <- working_directory_name ;;
  FileObj.write script ("  --working-dir=" +:+ dq +:+ wd +:+ dq +:+ " \" +:+ os_linesep) ;;;
  (if truthy (_scan s)
   then
     FileObj.write script ("  --scan=" +:+ dq +:+ str_value (_scan s) +:+ dq +:+ " \" +:+ os_linesep) ;;;
     FileObj.write script ("  --resource-suffix=" +:+ dq +:+ _output_resource_suffix s +:+ dq +:+ " \" +:+ os_linesep)
   else
     FileObj.write script ("  --resource-suffix=" +:+ dq +:+ output_resource_name s +:+ dq +:+ " \" +:+ os_linesep)) ;;;
  FileObj.write script ("  --reason=" +:+ dq +:+ PIPELINE_NAME +:+ dq +:+ os_linesep) ;;;
  FileObj.close script ;;;
  Os.chmod script_name (Z.lor S_IRWXU S_IRWXG).

Definition create_clean_data_script : M unit :=
  s <- get_self ;;
  script_name <- clean_data_script_name ;;
  suppress_FileNotFoundError (Os.remove script_name) ;;;
  script <- FileObj.open_w script_name ;;
  _write_bash_header script ;;;
  FileObj.write script ("#PBS -l nodes=1:ppn=1,walltime=4:00:00,mem=4gb" +:+ os_linesep) ;;;
  wd <- working_directory_name ;;
  FileObj.write script ("#PBS -o " +:+ wd +:+ os_linesep) ;;;
  wd <- working_directory_name ;;
  FileObj.write script ("#PBS -e " +:+ wd +:+ os_linesep) ;;;
  FileObj.write script os_linesep ;;;
  wd <- working_directory_name ;;
  FileObj.write script ("mv " +:+ wd +:+ os_sep +:+ _subject s +:+ "_" +:+ _classifier s +:+ os_sep +:+ _subject s +:+ "_" +:+ _classifier s +:+ os_sep +:+ "MNINonLinear ") ;;;
  wd <- working_directory_name ;;
  FileObj.write script (wd +:+ os_sep +:+ _subject s +:+ "_" +:+ _classifier s +:+ os_linesep) ;;;
  wd <- working_directory_name ;;
  FileObj.write script ("mv " +:+ wd +:+ os_sep +:+ _subject s +:+ "_" +:+ _classifier s +:+ os_sep +:+ _subject s +:+ "_" +:+ _classifier s +:+ os_sep +:+ "T*w ") ;;;
  wd <- working_directory_name ;;
  FileObj.write script (wd +:+ os_sep +:+ _subject s +:+ "_" +:+ _classifier s +:+ os_linesep) ;;;
  wd <- working_directory_name ;;
  FileObj.write script ("mv " +:+ wd +:+ os_sep +:+ _subject s +:+ "_" +:+ _classifier s +:+ os_sep +:+ "subjects" +:+ os_sep +:+ "specs ") ;;;
  wd <- working_directory_name ;;
  FileObj.write script (wd +:+ os_sep +:+ _subject s +:+ "_" +:+ _classifier s +:+ os_sep +:+ "ProcessingInfo" +:+ os_linesep) ;;;
  wd <- working_directory_name ;;
  FileObj.write script ("mv " +:+ wd +:+ os_sep +:+ _subject s +:+ "_" +:+ _classifier s +:+ os_sep +:+ "processing ") ;;;
  wd <- working_directory_name ;;
  FileObj.write script (wd +:+ os_sep +:+ _subject s +:+ "_" +:+ _classifier s +:+ os_sep +:+ "ProcessingInfo" +:+ os_linesep) ;;;
  wd <- working_directory_name ;;
  FileObj.write script ("mv " +:+ wd +:+ os_sep +:+ _subject s +:+ "_" +:+ _classifier s +:+ os_sep +:+ "info" +:+ os_sep +:+ "hcpls ") ;;;
  wd <- working_directory_name ;;
  FileObj.write script (wd +:+ os_sep +:+ _subject s +:+ "_" +:+ _classifier s +:+ os_sep +:+ "ProcessingInfo" +:+ os_linesep) ;;;
  wd <- working_directory_name ;;
  FileObj.write script ("mv " +:+ wd +:+ os_sep +:+ _subject s +:+ "_" +:+ _classifier s +:+ os_sep +:+ "subjects" +:+ os_sep +:+ _subject s +:+ "_" +:+ _classifier s +:+ os_sep +:+ "subject_hcp.txt ") ;;;
  wd <- working_directory_name ;;
  FileObj.write script (wd +:+ os_sep +:+ _subject s +:+ "_" +:+ _classifier s +:+ os_sep +:+ "ProcessingInfo" +:+ os_sep +:+ "processing" +:+ os_linesep) ;;;
  wd <- working_directory_name ;;
  FileObj.write script ("mv " +:+ wd +:+ os_sep +:+ _subject s +:+ "_" +:+ _classifier s +:+ os_sep +:+ "subjects" +:+ os_sep +:+ _subject s +:+ "_" +:+ _classifier s +:+ os_sep +:+ "hcpls" +:+ os_sep +:+ "hcpls2nii.log ") ;;;
  wd <- working_directory_name ;;
  FileObj.write script (wd +:+ os_sep +:+ _subject s +:+ "_" +:+ _classifier s +:+ os_sep +:+ "ProcessingInfo" +:+ os_sep +:+ "processing" +:+ os_linesep) ;;;
  wd <- working_directory_name ;;
  FileObj.write script ("find " +:+ wd +:+ os_sep +:+ _subject s +:+ "_" +:+ _classifier s) ;;;
  wd <- working_directory_name ;;
  FileObj.write script (" -not -path " +:+ dq +:+ wd +:+ os_sep +:+ _subject s +:+ "_" +:+ _classifier s +:+ os_sep +:+ "T*w/*" +:+ dq) ;;;
  wd <- working_directory_name ;;
  FileObj.write script (" -not -path " +:+ dq +:+ wd +:+ os_sep +:+ _subject s +:+ "_" +:+ _classifier s +:+ os_sep +:+ "ProcessingInfo/*" +:+ dq) ;;;
  wd <- working_directory_name ;;
  FileObj.write script (" -not -path " +:+ dq +:+ wd +:+ os_sep +:+ _subject s +:+ "_" +:+ _classifier s +:+ os_sep +:+ "MNINonLinear/*" +:+ dq) ;;;
  FileObj.write script " -delete" ;;;
  FileObj.write script os_linesep ;;;
  FileObj.write script ("echo " +:+ dq +:+ "Removing any XNAT catalog files still around." +:+ dq +:+ os_linesep) ;;;
  wd <- working_directory_name ;;
  FileObj.write script ("find " +:+ wd +:+ " -name " +:+ dq +:+ "*_catalog.xml" +:+ dq +:+ " -delete") ;;;
  FileObj.write script os_linesep ;;;
  FileObj.write script ("echo " +:+ dq +:+ "Remaining files:" +:+ dq +:+ os_linesep) ;;;
  wd <- working_directory_name ;;
  FileObj.write script ("find " +:+ wd +:+ os_sep +:+ _subject s +:+ "_" +:+ _classifier s +:+ os_linesep) ;;;
  FileObj.close script ;;;
  Os.chmod script_name (Z.lor S_IRWXU S_IRWXG).

Definition create_check_data_job_script : M unit :=
  s <- get_self ;;
  script_name <- check_data_job_script_name ;;
  suppress_FileNotFoundError (Os.remove script_name) ;;;
  script <- FileObj.open_w script_name ;;
  _write_bash_header script ;;;
  FileObj.write script ("#PBS -l nodes=1:ppn=1,walltime=4:00:00,mem=4gb" +:+ os_linesep) ;;;
  FileObj.write script ("#PBS -o " +:+ _log_dir s +:+ os_linesep) ;;;
  FileObj.write script ("#PBS -e " +:+ _log_dir s +:+ os_linesep) ;;;
  FileObj.write script os_linesep ;;;
  FileObj.write script ("source " +:+ _get_xnat_pbs_setup_script_path +:+ " " +:+ _get_db_name +:+ os_linesep) ;;;
  FileObj.write script ("module load " +:+ _get_xnat_pbs_setup_script_singularity_version +:+ os_linesep) ;;;
  FileObj.write script os_linesep ;;;
  FileObj.write script ("singularity exec -B " +:+ _get_xnat_pbs_setup_script_archive_root +:+ "," +:+ _get_xnat_pbs_setup_script_singularity_bind_path +:+ " " +:+ _get_xnat_pbs_setup_script_singularity_container_xnat_path +:+ " " +:+ check_data_program_path s +:+ " \" +:+ os_linesep) ;;;
  FileObj.write script ("  --user=" +:+ dq +:+ _username s +:+ dq +:+ " \" +:+ os_linesep) ;;;
  FileObj.write script ("  --password=" +:+ dq +:+ _password s +:+ dq +:+ " \" +:+ os_linesep) ;;;
  FileObj.write script ("  --server=" +:+ dq +:+ get_server_name P (_put_server s) +:+ dq +:+ " \" +:+ os_linesep) ;;;
  FileObj.write script ("  --project=" +:+ _project s +:+ " \" +:+ os_linesep) ;;;
  FileObj.write script ("  --subject=" +:+ _subject s +:+ " \" +:+ os_linesep) ;;;
  FileObj.write script ("  --classifier=" +:+ _classifier s +:+ " \" +:+ os_linesep) ;;;
  (if truthy (_scan s)
   then FileObj.write script ("  --scan=" +:+ str_value (_scan s) +:+ " \" +:+ os_linesep)
   else if String.eqb PIPELINE_NAME "StructuralPreprocessing"
   then
     (* the [SubjectInfo] object the code builds here is never used *)
     let fieldmap_type_line := "  --fieldmap=" +:+ "NONE" in
     FileObj.write script (fieldmap_type_line +:+ " \" +:+ os_linesep)
   else ret tt) ;;;
  cd <- check_data_directory_name ;;
  FileObj.write script ("  --working-dir=" +:+ cd +:+ os_linesep) ;;;
  FileObj.close script ;;;
  Os.chmod script_name (Z.lor S_IRWXU S_IRWXG).

Definition create_mark_no_longer_running_script : M unit :=
  s <- get_self ;;
  script_name <- mark_no_longer_running_script_name ;;
  suppress_FileNotFoundError (Os.remove script_name) ;;;
  script <- FileObj.open_w script_name ;;
  _write_bash_header script ;;;
  FileObj.write script ("#PBS -l nodes=1:ppn=1,walltime=4:00:00,mem=4gb" +:+ os_linesep) ;;;
  FileObj.write script ("#PBS -o " +:+ _log_dir s +:+ os_linesep) ;;;
  FileObj.write script ("#PBS -e " +:+ _log_dir s +:+ os_linesep) ;;;
  FileObj.write script os_linesep ;;;
  FileObj.write script ("source " +:+ _get_xnat_pbs_setup_script_path +:+ " " +:+ _get_db_name +:+ os_linesep) ;;;
  FileObj.write script ("module load " +:+ _get_xnat_pbs_setup_script_singularity_version +:+ os_linesep) ;;;
  FileObj.write script os_linesep ;;;
  FileObj.write script ("singularity exec -B " +:+ _get_xnat_pbs_setup_script_archive_root +:+ "," +:+ _get_xnat_pbs_setup_script_singularity_bind_path +:+ " " +:+ _get_xnat_pbs_setup_script_singularity_container_xnat_path +:+ " " +:+ mark_running_status_program_path s +:+ " \" +:+ os_linesep) ;;;
  FileObj.write script ("  --user=" +:+ dq +:+ _username s +:+ dq +:+ " \" +:+ os_linesep) ;;;
  FileObj.write script ("  --password=" +:+ dq +:+ _password s +:+ dq +:+ " \" +:+ os_linesep) ;;;
  FileObj.write script ("  --server=" +:+ dq +:+ get_server_name P (_put_server s) +:+ dq +:+ " \" +:+ os_linesep) ;;;
  FileObj.write script ("  --project=" +:+ dq +:+ _project s +:+ dq +:+ " \" +:+ os_linesep) ;;;
  FileObj.write script ("  --subject=" +:+ dq +:+ _subject s +:+ dq +:+ " \" +:+ os_linesep) ;;;
  FileObj.write script ("  --classifier=" +:+ dq +:+ _classifier s +:+ dq +:+ " \" +:+ os_linesep) ;;;
  (if truthy (_scan s)
   then FileObj.write script ("  --scan=" +:+ dq +:+ str_value (_scan s) +:+ dq +:+ " \" +:+ os_linesep)
   else ret tt) ;;;
  FileObj.write script ("  --resource=" +:+ dq +:+ "RunningStatus" +:+ dq +:+ " \" +:+ os_linesep) ;;;
  FileObj.write script ("  --done" +:+ os_linesep) ;;;
  FileObj.write script os_linesep ;;;
  mc <- mark_completion_directory_name ;;
  FileObj.write script ("rm -rf " +:+ mc) ;;;
  FileObj.close script ;;;
  Os.chmod script_name (Z.lor S_IRWXU S_IRWXG).

(** *** Submission of the jobs *)

Definition submit_get_data_jobs (stage : Stage) (prior_job : option string)
  : M (option string * option (list string)) :=
  if ProcessingStage.ge stage ProcessingStage.GET_DATA then
    script_name <- get_data_job_script_name ;;
    let get_data_submit_cmd :=
      if truthy prior_job
      then "qsub -W depend=afterok:" +:+ str_value prior_job +:+ " " +:+ script_name
      else "qsub " +:+ script_name in
    stdout <- Subprocess.run_check P (Submit GetDataJob) get_data_submit_cmd ;;
    let get_data_job_no := remove_ending_new_lines P stdout in
    ret (Some get_data_job_no, Some [get_data_job_no])
  else ret (None, None).

Definition submit_process_data_jobs (stage : Stage) (prior_job : option string)
  : M (option string * option (list string)) :=
  if ProcessingStage.ge stage ProcessingStage.PROCESS_DATA then
    script_name <- process_data_job_script_name ;;
    let work_submit_cmd :=
      if truthy prior_job
      then "qsub -W depend=afterok:" +:+ str_value prior_job +:+ " " +:+ script_name
      else "qsub " +:+ script_name in
    stdout <- Subprocess.run_check P (Submit ProcessDataJob) work_submit_cmd ;;
    let work_job_no := remove_ending_new_lines P stdout in
    ret (Some work_job_no, Some [work_job_no])
  else ret (None, None).

Definition submit_clean_data_jobs (stage : Stage) (prior_job : option string)
  : M (option string * option (list string)) :=
  if ProcessingStage.ge stage ProcessingStage.CLEAN_DATA then
    script_name <- clean_data_script_name ;;
    let clean_submit_cmd :=
      if truthy prior_job
      then "qsub -W depend=afterok:" +:+ str_value prior_job +:+ " " +:+ script_name
      else "qsub " +:+ script_name in
    stdout <- Subprocess.run_check P (Submit CleanDataJob) clean_submit_cmd ;;
    let clean_job_no := remove_ending_new_lines P stdout in
    ret (Some clean_job_no, Some [clean_job_no])
  else ret (None, None).

Definition submit_put_data_jobs (stage : Stage) (prior_job : option string)
  : M (option string * option (list string)) :=
  if ProcessingStage.ge stage ProcessingStage.PUT_DATA then
    script_name <- put_data_script_name ;;
    let put_submit_cmd :=
      if truthy prior_job
      then "qsub -W depend=afterok:" +:+ str_value prior_job +:+ " " +:+ script_name
      else "qsub " +:+ script_name in
    stdout <- Subprocess.run_check P (Submit PutDataJob) put_submit_cmd ;;
    let put_job_no := remove_ending_new_lines P stdout in
    ret (Some put_job_no, Some [put_job_no])
  else ret (None, None).

Definition submit_check_jobs (stage : Stage) (prior_job : option string)
  : M (option string * option (list string)) :=
  if ProcessingStage.ge stage ProcessingStage.CHECK_DATA then
    script_name <- check_data_job_script_name ;;
    let check_submit_cmd :=
      if truthy prior_job
      then "qsub -W depend=afterok:" +:+ str_value prior_job +:+ " " +:+ script_name
      else "qsub " +:+ script_name in
    stdout <- Subprocess.run_check P (Submit CheckDataJob) check_submit_cmd ;;
    let check_job_no := remove_ending_new_lines P stdout in
    ret (Some check_job_no, Some [check_job_no])
  else ret (None, None).

Definition submit_no_longer_running_jobs (stage : Stage) (prior_job : option string)
  : M (option string * option (list string)) :=
  script_name <- mark_no_longer_running_script_name ;;
  let cmd :=
    if truthy prior_job
    then "qsub -W depend=afterany:" +:+ str_value prior_job +:+ " " +:+ script_name
    else "qsub " +:+ script_name in
  stdout <- Subprocess.run_check P (Submit NoLongerRunningJob) cmd ;;
  let job_no := remove_ending_new_lines P stdout in
  ret (Some job_no, Some [job_no]).

(** The six submission methods by the job they submit, with the stage
    that gates each one ([None] for the unconditional last one) and the
    property that names its script. *)
Definition job_stage (j : Job) : option Stage :=
  match j with
  | GetDataJob => Some ProcessingStage.GET_DATA
  | ProcessDataJob => Some ProcessingStage.PROCESS_DATA
  | CleanDataJob => Some ProcessingStage.CLEAN_DATA
  | PutDataJob => Some ProcessingStage.PUT_DATA
  | CheckDataJob => Some ProcessingStage.CHECK_DATA
  | NoLongerRunningJob => None
  end.

Definition job_script_name (j : Job) : M string :=
  match j with
  | GetDataJob => get_data_job_script_name
  | ProcessDataJob => process_data_job_script_name
  | CleanDataJob => clean_data_script_name
  | PutDataJob => put_data_script_name
  | CheckDataJob => check_data_job_script_name
  | NoLongerRunningJob => mark_no_longer_running_script_name
  end.

Definition submit_method (j : Job)
  : Stage -> option string -> M (option string * option (list string)) :=
  match j with
  | GetDataJob => submit_get_data_jobs
  | ProcessDataJob => submit_process_data_jobs
  | CleanDataJob => submit_clean_data_jobs
  | PutDataJob => submit_put_data_jobs
  | CheckDataJob => submit_check_jobs
  | NoLongerRunningJob => submit_no_longer_running_jobs
  end.

Definition create_scripts (stage : Stage) : M unit :=
  if ProcessingStage.ge stage ProcessingStage.PREPARE_SCRIPTS then
    self_create_get_data_job_script ;;;
    self_create_process_data_job_script ;;;
    create_clean_data_script ;;;
    create_put_data_script ;;;
    create_check_data_job_script ;;;
    create_mark_no_longer_running_script
  else ret tt.

(** The list of submitted jobs: pairs of a label and the job numbers
    recorded under it (a [list], or [None]). *)
Definition Manifest : Type := list (string * option (list string)).

Definition do_job_submissions (processing_stage : Stage) : M Manifest :=
  let submitted_jobs_list : Manifest := [] in
  let prior : option string := None in
  (* create scripts *)
  self_create_scripts processing_stage ;;;
  (* create running status marker file to indicate that jobs are queued *)
  self_mark_running_status processing_stage ;;;
  (* Submit job(s) to get the data *)
  r <- submit_get_data_jobs processing_stage prior ;;
  let last_get_data_job_no := fst r in
  let all_get_data_job_nos := snd r in
  let submitted_jobs_list :=
    if list_truthy all_get_data_job_nos
    then submitted_jobs_list ++ [(ProcessingStage.name ProcessingStage.GET_DATA, all_get_data_job_nos)]
    else submitted_jobs_list in
  let prior := if truthy last_get_data_job_no then last_get_data_job_no else prior in
  (* Submit job(s) to process the data *)
  r <- self_submit_process_data_jobs processing_stage prior ;;
  let last_process_job_no := fst r in
  let all_process_data_job_nos := snd r in
  let submitted_jobs_list :=
    if list_truthy all_process_data_job_nos
    then submitted_jobs_list ++ [(ProcessingStage.name ProcessingStage.PROCESS_DATA, all_process_data_job_nos)]
    else submitted_jobs_list in
  let prior := if truthy last_process_job_no then last_process_job_no else prior in
  (* Submit job(s) to clean the data *)
  r <- submit_clean_data_jobs processing_stage prior ;;
  let last_clean_job_no := fst r in
  let all_clean_data_job_nos := snd r in
  let submitted_jobs_list :=
    if list_truthy all_process_data_job_nos
    then submitted_jobs_list ++ [(ProcessingStage.name ProcessingStage.CLEAN_DATA, all_clean_data_job_nos)]
    else submitted_jobs_list in
  let prior := if truthy last_clean_job_no then last_clean_job_no else prior in
  (* Submit job(s) to put the resulting data in the DB *)
  r <- submit_put_data_jobs processing_stage prior ;;
  let last_put_job_no := fst r in
  let all_put_job_nos := snd r in
  let submitted_jobs_list :=
    if list_truthy all_put_job_nos
    then submitted_jobs_list ++ [(ProcessingStage.name ProcessingStage.PUT_DATA, all_put_job_nos)]
    else submitted_jobs_list in
  let prior := if truthy last_put_job_no then last_put_job_no else prior in
  (* Submit job(s) to perform completeness check *)
  r <- submit_check_jobs processing_stage prior ;;
  let last_check_job_no := fst r in
  let all_check_job_nos := snd r in
  let submitted_jobs_list :=
    if list_truthy all_check_job_nos
    then submitted_jobs_list ++ [(ProcessingStage.name ProcessingStage.CHECK_DATA, all_check_job_nos)]
    else submitted_jobs_list in
  let prior := if truthy last_check_job_no then last_check_job_no else prior in
  (* Submit job(s) to change running status marker file *)
  r <- submit_no_longer_running_jobs processing_stage prior ;;
  let last_running_status_job_no := fst r in
  let all_running_status_job_nos := snd r in
  let submitted_jobs_list :=
    if list_truthy all_running_status_job_nos
    then submitted_jobs_list ++ [("Complete Running Status", all_running_status_job_nos)]
    else submitted_jobs_list in
  let prior := if truthy last_running_status_job_no then last_running_status_job_no else prior in
  ret submitted_jobs_list.

Definition submit_jobs (processing_stage : Stage) : M Manifest :=
  s <- get_self ;;
  (* make sure working directories do not have the same name based on
     the same start time by sleeping a few seconds *)
  Time.sleep 5 ;;;
  (* build the working directory name *)
  wd <- working_directory_name ;;
  Os.makedirs wd ;;;
  cd <- check_data_directory_name ;;
  Os.makedirs cd ;;;
  mc <- mark_completion_directory_name ;;
  Os.makedirs mc ;;;
  (* clean output resource if requested *)
  (if _clean_output_resource_first s
   then
     Subprocess.delete_resource P
       (_username s) (_password s)
       (get_server_name P (_server s))
       (_project s) (_subject s) (_session s)
       (output_resource_name s)
   else ret tt) ;;;
  do_job_submissions processing_stage.

End Base.
End Base.

(** ** [shutil] *)

Module Shutil.

(** [shutil.copy(src, dst)]: the content and the permission bits of [src]
    go to [dst], or to the entry named like [src] inside [dst] when [dst]
    is a directory. *)
Definition copy (src dst : string) : M unit :=
  w <- get_world ;;
  match fs w !! src with
  | None => raise (FileNotFoundError src)
  | Some Dir => raise (IsADirectoryError src)
  | Some (File content mode) =>
      let target :=
        match fs w !! dst with
        | Some Dir => dst +:+ Py.os_sep +:+ snd (Os.path_split src)
        | _ => dst
        end in
      f <- FileObj.open_w target ;;
      FileObj.write f content ;;;
      FileObj.close f ;;;
      Os.chmod target mode
  end.

End Shutil.

(** ** The subclass for structural preprocessing *)

Module Structural.
Section Structural.
Import Py.

Context (P : Platform).

Definition PIPELINE_NAME : string := "StructuralPreprocessing".

Definition _SCRATCH_PROCESSING_DIR : string := SCRATCH_PROCESSING_DIR P.
Definition _SUPPRESS_FREESURFER_ASSESSOR_JOB : bool := true.

Definition WORK_NODE_COUNT : Z := 1.
Definition WORK_PPN : Z := 1.

(** The names are the ones of the base class, for this pipeline. *)
Definition working_directory_name : M string := Base.working_directory_name PIPELINE_NAME.
Definition scripts_start_name : M string := Base.scripts_start_name PIPELINE_NAME.
Definition get_data_job_script_name : M string := Base.get_data_job_script_name PIPELINE_NAME.
Definition process_data_job_script_name : M string :=
  Base.process_data_job_script_name PIPELINE_NAME.

Definition freesurfer_assessor_script_name : M string :=
  start <- scripts_start_name ;; ret (start +:+ ".XNAT_CREATE_FREESURFER_ASSESSOR_job.sh").

Definition create_get_data_job_script : M unit :=
  s <- get_self ;;
  script_name <- get_data_job_script_name ;;
  suppress_FileNotFoundError (Os.remove script_name) ;;;
  script <- FileObj.open_w script_name ;;
  Base._write_bash_header P script ;;;
  FileObj.write script ("#PBS -l nodes=1:ppn=1,walltime=4:00:00,mem=4gb" +:+ os_linesep) ;;;
  wd <- working_directory_name ;;
  FileObj.write script ("#PBS -o " +:+ wd +:+ os_linesep) ;;;
  wd <- working_directory_name ;;
  FileObj.write script ("#PBS -e " +:+ wd +:+ os_linesep) ;;;
  FileObj.write script os_linesep ;;;
  FileObj.write script ("source " +:+ Base._get_xnat_pbs_setup_script_path P +:+ " " +:+ Base._get_db_name P +:+ os_linesep) ;;;
  FileObj.write script ("module load " +:+ Base._get_xnat_pbs_setup_script_singularity_version P +:+ os_linesep) ;;;
  FileObj.write script os_linesep ;;;
  FileObj.write script ("singularity exec -B " +:+ Base._get_xnat_pbs_setup_script_archive_root P +:+ "," +:+ Base._get_xnat_pbs_setup_script_singularity_bind_path P +:+ " " +:+ Base._get_xnat_pbs_setup_script_singularity_container_xnat_path P +:+ " " +:+ Base.get_data_program_path PIPELINE_NAME s +:+ " \" +:+ os_linesep) ;;;
  FileObj.write script ("  --project=" +:+ _project s +:+ " \" +:+ os_linesep) ;;;
  FileObj.write script ("  --subject=" +:+ _subject s +:+ " \" +:+ os_linesep) ;;;
  FileObj.write script ("  --classifier=" +:+ _classifier s +:+ " \" +:+ os_linesep) ;;;
  (if truthy (_scan s)
   then FileObj.write script ("  --scan=" +:+ str_value (_scan s) +:+ " \" +:+ os_linesep)
   else ret tt) ;;;
  wd <- working_directory_name ;;
  FileObj.write script ("  --working-dir=" +:+ wd +:+ " \" +:+ os_linesep) ;;;
  (if _use_prescan_normalized s
   then FileObj.write script ("  --use-prescan-normalized" +:+ " \" +:+ os_linesep)
   else ret tt) ;;;
  FileObj.write script ("  --delay-seconds=120" +:+ os_linesep) ;;;
  FileObj.write script os_linesep ;;;
  wd <- working_directory_name ;;
  FileObj.write script ("rm -rf " +:+ wd +:+ os_sep +:+ _subject s +:+ "_" +:+ _classifier s +:+ "/unprocessed/T1w_MPR_vNav_4e_RMS" +:+ os_linesep) ;;;
  FileObj.close script ;;;
  Os.chmod script_name (Z.lor S_IRWXU S_IRWXG).

Definition create_process_data_job_script : M unit :=
  s <- get_self ;;
  let project_build_dir := _build_home s +:+ os_sep +:+ _project s in
  wd <- working_directory_name ;;
  let pipeline_processing_dir := str_replace wd (project_build_dir +:+ os_sep) "" in
  let scratch_processing_dir := _SCRATCH_PROCESSING_DIR +:+ os_sep +:+ _project s in
  present <- Os.exists_ scratch_processing_dir ;;
  (if negb present then Os.mkdir scratch_processing_dir else ret tt) ;;;
  script_name <- process_data_job_script_name ;;
  suppress_FileNotFoundError (Os.remove script_name) ;;;
  let walltime_limit_str := _walltime_limit_hours s +:+ ":00:00" in
  let vmem_limit_str := _vmem_limit_gbs s +:+ "gb" in
  let resources_line := "#PBS -l nodes=" +:+ str_of_int WORK_NODE_COUNT in
  let resources_line := resources_line +:+ ":ppn=" +:+ str_of_int WORK_PPN +:+ ":haswell" in
  let resources_line := resources_line +:+ ",walltime=" +:+ walltime_limit_str in
  let resources_line := resources_line +:+ ",mem=" +:+ vmem_limit_str in
  wd <- working_directory_name ;;
  let stdout_line := "#PBS -o " +:+ wd in
  wd <- working_directory_name ;;
  let stderr_line := "#PBS -e " +:+ wd in
  let xnat_pbs_setup_singularity_load :=
    "module load " +:+ Base._get_xnat_pbs_setup_script_singularity_version P in
  let xnat_pbs_setup_singularity_process :=
    "singularity exec -B "
    +:+ Base._get_xnat_pbs_setup_script_archive_root P +:+ "," +:+ Base._get_xnat_pbs_setup_script_singularity_bind_path P
    +:+ "," +:+ Base._get_xnat_pbs_setup_script_gradient_coefficient_path P +:+ ":/export/HCP/gradient_coefficient_files"
    +:+ " " +:+ Base._get_xnat_pbs_setup_script_singularity_container_path P +:+ " " +:+ Base._get_xnat_pbs_setup_script_singularity_qunexrun_path P in
  let parameter_line :=
    "  --parameterfolder=" +:+ Base._get_xnat_pbs_setup_script_singularity_qunexparameter_path P in
  let studyfolder_line :=
    "  --studyfolder=" +:+ scratch_processing_dir +:+ os_sep +:+ pipeline_processing_dir +:+ os_sep +:+ _subject s +:+ "_" +:+ _classifier s in
  let subject_line := "  --subjects=" +:+ _subject s +:+ "_" +:+ _classifier s in
  let overwrite_line := "  --overwrite=yes" in
  let hcppipelineprocess_line := "  --hcppipelineprocess=StructuralPreprocessing" in
  script <- FileObj.open_w script_name ;;
  FileObj.write script (resources_line +:+ os_linesep) ;;;
  FileObj.write script (stdout_line +:+ os_linesep) ;;;
  FileObj.write script (stderr_line +:+ os_linesep) ;;;
  FileObj.write script os_linesep ;;;
  FileObj.write script (xnat_pbs_setup_singularity_load +:+ os_linesep) ;;;
  FileObj.write script os_linesep ;;;
  FileObj.write script ("# TEMPORARILY MOVE PROCESSING DIRECTORY TO SCRATCH SPACE DUE TO " +:+ dq +:+ "Cannot allocate memory" +:+ dq +:+ " ERRORS IN BUILD SPACE" +:+ os_linesep) ;;;
  wd <- working_directory_name ;;
  FileObj.write script ("mv " +:+ wd +:+ " " +:+ scratch_processing_dir +:+ os_linesep) ;;;
  FileObj.write script os_linesep ;;;
  FileObj.write script (xnat_pbs_setup_singularity_process +:+ " \" +:+ os_linesep) ;;;
  FileObj.write script (parameter_line +:+ " \" +:+ os_linesep) ;;;
  FileObj.write script (studyfolder_line +:+ " \" +:+ os_linesep) ;;;
  FileObj.write script (subject_line +:+ " \" +:+ os_linesep) ;;;
  FileObj.write script (overwrite_line +:+ " \" +:+ os_linesep) ;;;
  FileObj.write script (hcppipelineprocess_line +:+ os_linesep) ;;;
  FileObj.write script os_linesep ;;;
  FileObj.write script ("# MOVE PROCESSING BACK" +:+ os_linesep) ;;;
  FileObj.write script ("mv " +:+ scratch_processing_dir +:+ os_sep +:+ pipeline_processing_dir +:+ " " +:+ project_build_dir +:+ os_linesep) ;;;
  FileObj.write script os_linesep ;;;
  Os.chmod script_name (Z.lor S_IRWXU S_IRWXG) ;;;
  FileObj.close script.

Definition create_freesurfer_assessor_script : M unit :=
  s <- get_self ;;
  (* copy the .XNAT_CREATE_FREESURFER_ASSESSOR script to the working directory *)
  let freesurfer_assessor_source_path := _xnat_pbs_jobs_home s in
  let freesurfer_assessor_source_path := freesurfer_assessor_source_path +:+ os_sep +:+ PIPELINE_NAME in
  let freesurfer_assessor_source_path := freesurfer_assessor_source_path +:+ os_sep +:+ PIPELINE_NAME in
  let freesurfer_assessor_source_path := freesurfer_assessor_source_path +:+ ".XNAT_CREATE_FREESURFER_ASSESSOR" in
  freesurfer_assessor_dest_path <- working_directory_name ;;
  let freesurfer_assessor_dest_path := freesurfer_assessor_dest_path +:+ os_sep +:+ PIPELINE_NAME in
  let freesurfer_assessor_dest_path := freesurfer_assessor_dest_path +:+ ".XNAT_CREATE_FREESURFER_ASSESSOR" in
  Shutil.copy freesurfer_assessor_source_path freesurfer_assessor_dest_path ;;;
  Os.chmod freesurfer_assessor_dest_path (Z.lor S_IRWXU S_IRWXG) ;;;
  (* write the freesurfer assessor submission script *)
  script_name <- freesurfer_assessor_script_name ;;
  suppress_FileNotFoundError (Os.remove script_name) ;;;
  script <- FileObj.open_w script_name ;;
  Base._write_bash_header P script ;;;
  FileObj.write script ("#PBS -l nodes=1:ppn=1,walltime=4:00:00,mem=4gb" +:+ os_linesep) ;;;
  wd <- working_directory_name ;;
  FileObj.write script ("#PBS -o " +:+ wd +:+ os_linesep) ;;;
  wd <- working_directory_name ;;
  FileObj.write script ("#PBS -e " +:+ wd +:+ os_linesep) ;;;
  FileObj.write script os_linesep ;;;
  FileObj.write script ("source " +:+ Base._get_xnat_pbs_setup_script_path P +:+ " " +:+ Base._get_db_name P +:+ os_linesep) ;;;
  FileObj.write script os_linesep ;;;
  let script_line := freesurfer_assessor_dest_path in
  let user_line := "  --user=" +:+ _username s in
  let password_line := "  --password=" +:+ _password s in
  let server_line := "  --server=" +:+ get_server_name P (_server s) in
  let project_line := "  --project=" +:+ _project s in
  let subject_line := "  --subject=" +:+ _subject s in
  let session_line := "  --session=" +:+ _session s in
  let session_classifier_line := "  --session-classifier=" +:+ _classifier s in
  wd <- working_directory_name ;;
  let wdir_line := "  --working-dir=" +:+ wd in
  FileObj.write script (script_line +:+ " \" +:+ os_linesep) ;;;
  FileObj.write script (user_line +:+ " \" +:+ os_linesep) ;;;
  FileObj.write script (password_line +:+ " \" +:+ os_linesep) ;;;
  FileObj.write script (server_line +:+ " \" +:+ os_linesep) ;;;
  FileObj.write script (project_line +:+ " \" +:+ os_linesep) ;;;
  FileObj.write script (subject_line +:+ " \" +:+ os_linesep) ;;;
  FileObj.write script (session_line +:+ " \" +:+ os_linesep) ;;;
  FileObj.write script (session_classifier_line +:+ " \" +:+ os_linesep) ;;;
  FileObj.write script (wdir_line +:+ os_linesep) ;;;
  FileObj.close script ;;;
  Os.chmod script_name (Z.lor S_IRWXU S_IRWXG).

Definition create_scripts (stage : Stage) : M unit :=
  Base.create_scripts P PIPELINE_NAME
    create_get_data_job_script create_process_data_job_script stage ;;;
  if _SUPPRESS_FREESURFER_ASSESSOR_JOB then ret tt
  else if ProcessingStage.ge stage ProcessingStage.PREPARE_SCRIPTS
  then create_freesurfer_assessor_script
  else ret tt.

Definition submit_process_data_jobs (stage : Stage) (prior_job : option string)
  : M (option string * option (list string)) :=
  (* go ahead and submit the standard process data job and then
     submit an additional freesurfer assessor job *)
  r <- Base.submit_process_data_jobs P PIPELINE_NAME stage prior_job ;;
  let standard_process_data_jobno := fst r in
  let all_process_data_jobs := snd r in
  if _SUPPRESS_FREESURFER_ASSESSOR_JOB
  then ret (standard_process_data_jobno, all_process_data_jobs)
  else if ProcessingStage.ge stage ProcessingStage.PROCESS_DATA then
    script_name <- freesurfer_assessor_script_name ;;
    let fs_submit_cmd :=
      if truthy standard_process_data_jobno
      then "qsub -W depend=afterok:" +:+ str_value standard_process_data_jobno +:+ " " +:+ script_name
      else "qsub " +:+ script_name in
    stdout <- Subprocess.run_check P SubmitFreesurferAssessor fs_submit_cmd ;;
    let fs_job_no := remove_ending_new_lines P stdout in
    ret (Some fs_job_no, option_map (fun l => l ++ [fs_job_no]) all_process_data_jobs)
  else ret (standard_process_data_jobno, all_process_data_jobs).

Definition mark_running_status (stage : Stage) : M unit :=
  s <- get_self ;;
  if ProcessingStage.gt stage ProcessingStage.PREPARE_SCRIPTS then
    let mark_cmd := _xnat_pbs_jobs_home s in
    let mark_cmd := mark_cmd +:+ os_sep +:+ PIPELINE_NAME in
    let mark_cmd := mark_cmd +:+ os_sep +:+ PIPELINE_NAME in
    let mark_cmd := mark_cmd +:+ ".XNAT_MARK_RUNNING_STATUS" in
    let mark_cmd := mark_cmd +:+ " --user=" +:+ _username s in
    let mark_cmd := mark_cmd +:+ " --password=" +:+ _password s in
    let mark_cmd := mark_cmd +:+ " --server=" +:+ get_server_name P (_put_server s) in
    let mark_cmd := mark_cmd +:+ " --project=" +:+ _project s in
    let mark_cmd := mark_cmd +:+ " --subject=" +:+ _subject s in
    let mark_cmd := mark_cmd +:+ " --classifier=" +:+ _classifier s in
    let mark_cmd := mark_cmd +:+ " --resource=RunningStatus" in
    let mark_cmd := mark_cmd +:+ " --queued" in
    stdout <- Subprocess.run_check P MarkQueued mark_cmd ;;
    ret tt
  else ret tt.

(** The inherited entry points, with the methods of this class behind
    [self]. *)
Definition do_job_submissions (processing_stage : Stage) : M Base.Manifest :=
  Base.do_job_submissions P PIPELINE_NAME
    create_scripts submit_process_data_jobs mark_running_status processing_stage.

Definition submit_jobs (processing_stage : Stage) : M Base.Manifest :=
  Base.submit_jobs P PIPELINE_NAME
    create_scripts submit_process_data_jobs mark_running_status processing_stage.

End Structural.
End Structural.

(** ** The names of the first scans

    The structural submitter names the first T1w and T2w scans of a session
    and their prescan normalized versions, with [str.find] and slices. *)

Module PyStr.

(** A [str] is held as the bytes of its UTF-8 encoding, and [str.find] and
    the slices count characters (code points), not bytes. *)

(** A byte [10xxxxxx], which continues a character. *)
Definition is_continuation (c : ascii) : bool :=
  (128 <=? nat_of_ascii c)%nat && (nat_of_ascii c <? 192)%nat.

(** The first [k] bytes of [s] are there and continue a character. *)
Fixpoint continued (k : nat) (s : string) : bool :=
  match k, s with
  | O, _ => true
  | S k', String c r => is_continuation c && continued k' r
  | S _, EmptyString => false
  end.

(** The number of bytes that follow [c] in the character it begins, [r]
    being what comes after [c]: one, two or three continuation bytes after
    a byte [110xxxxx], [1110xxxx] or [11110xxx]; any other byte, and a
    leading byte that lacks its continuation bytes, stands alone. *)
Definition following (c : ascii) (r : string) : nat :=
  let n := nat_of_ascii c in
  let k :=
    if (n <? 192)%nat then 0%nat
    else if (n <? 224)%nat then 1%nat
    else if (n <? 240)%nat then 2%nat
    else if (n <? 248)%nat then 3%nat
    else 0%nat in
  if continued k r then k else 0%nat.

(** The characters of [s], each with its bytes: [pending] bytes of [s]
    still belong to the character begun before, and they come first in the
    result. *)
Fixpoint chars_from (pending : nat) (s : string) : string * list string :=
  match s with
  | EmptyString => (EmptyString, [])
  | String c r =>
      match pending with
      | S p => let '(u, us) := chars_from p r in (String c u, us)
      | O => let '(u, us) := chars_from (following c r) r in (EmptyString, String c u :: us)
      end
  end.

Definition chars (s : string) : list string := snd (chars_from 0 s).

(** [''.join(us)]. *)
Fixpoint join (us : list string) : string :=
  match us with
  | [] => EmptyString
  | u :: rest => u +:+ join rest
  end.

(** [s.find(sub)] on the characters [us] of [s], counted from [i] on: the
    index of the first character from which [s] reads [sub], or -1. *)
Fixpoint find_chars (sub : string) (us : list string) (i : Z) : Z :=
  match Py.strip_prefix sub (join us) with
  | Some _ => i
  | None =>
      match us with
      | [] => -1
      | _ :: rest => find_chars sub rest (i + 1)
      end
  end.

Definition find (s sub : string) : Z := find_chars sub (chars s) 0.

(** The position a slice bound [i] stands for in a [str] of [len]
    characters: a negative bound counts from the end, and bounds outside of
    the [str] are clipped. *)
Definition bound (len : nat) (i : Z) : nat :=
  if i <? 0 then Z.to_nat (Z.max 0 (i + Z.of_nat len)) else Z.to_nat (Z.min i (Z.of_nat len)).

(** [s[:i]] and [s[i:]]. *)
Definition slice_to (s : string) (i : Z) : string :=
  join (take (bound (length (chars s)) i) (chars s)).
Definition slice_from (s : string) (i : Z) : string :=
  join (drop (bound (length (chars s)) i) (chars s)).

End PyStr.

(** [ccf/archive.py] is not among the sources: the scans it reports for a
    session are taken as given. *)
Record Archive (SubjectInfo : Type) : Type := {
  available_t1w_unproc_names : SubjectInfo -> list string;
  available_t2w_unproc_names : SubjectInfo -> list string
}.
Arguments available_t1w_unproc_names {SubjectInfo}.
Arguments available_t2w_unproc_names {SubjectInfo}.

Inductive ScanError : Type :=
| RuntimeError (msg : string).

Module StructuralScans.
Section StructuralScans.
Context {SubjectInfo : Type} (archive : Archive SubjectInfo).

Definition _get_first_t1w_name (subject_info : SubjectInfo) : ScanError + string :=
  let t1w_unproc_names := available_t1w_unproc_names archive subject_info in
  match t1w_unproc_names with
  | first_t1w_name :: _ => inr first_t1w_name
  | [] => inl (RuntimeError "Session has no available T1w scans")
  end.

Definition _get_first_t1w_norm_name (subject_info : SubjectInfo) : ScanError + string :=
  match _get_first_t1w_name subject_info with
  | inl e => inl e
  | inr non_norm_name =>
      let vNav_loc := PyStr.find non_norm_name "vNav" in
      let norm_name :=
        ((PyStr.slice_to non_norm_name vNav_loc +:+ "vNav") +:+ "_Norm")
          +:+ PyStr.slice_from non_norm_name (vNav_loc + 4) in
      inr norm_name
  end.

Definition _get_first_t2w_name (subject_info : SubjectInfo) : ScanError + string :=
  let t2w_unproc_names := available_t2w_unproc_names archive subject_info in
  match t2w_unproc_names with
  | first_t2w_name :: _ => inr first_t2w_name
  | [] => inl (RuntimeError "Session has no available T2w scans")
  end.

Definition _get_first_t2w_norm_name (subject_info : SubjectInfo) : ScanError + string :=
  match _get_first_t2w_name subject_info with
  | inl e => inl e
  | inr non_norm_name =>
      let vNav_loc := PyStr.find non_norm_name "vNav" in
      let norm_name :=
        ((PyStr.slice_to non_norm_name vNav_loc +:+ "vNav") +:+ "_Norm")
          +:+ PyStr.slice_from non_norm_name (vNav_loc + 4) in
      inr norm_name
  end.

End StructuralScans.
End StructuralScans.

(** * Reasoning about methods *)

Section MonadFacts.
Context {A B : Type}.
Implicit Types (m : M A) (k : A -> M B).

Lemma bind_Ok m k st a st1 : m st = (Ok a, st1) -> bind m k st = k a st1.
Proof. intros H. unfold bind. now rewrite H. Qed.

Lemma bind_Raise m k st e st1 : m st = (Raise e, st1) -> bind m k st = (Raise e, st1).
Proof. intros H. unfold bind. now rewrite H. Qed.

Lemma bind_inv m k st r st' :
  bind m k st = (r, st') ->
  (exists e, m st = (Raise e, st') /\ r = Raise e) \/
  (exists a st1, m st = (Ok a, st1) /\ k a st1 = (r, st')).
Proof.
  unfold bind. destruct (m st) as [[a|e] st1]; intros H.
  - right. eauto.
  - left. inversion H; subst. eauto.
Qed.
End MonadFacts.

(** ** The memoised prefix *)

Definition is_pinned (s : Submitter) : Prop := is_Some (_working_directory_name_prefix s).

(** [keeps s s']: the instance is unchanged, except that a prefix that was
    not built yet may have been stored. *)
Definition keeps (s s' : Submitter) : Prop :=
  s' = s \/
  (_working_directory_name_prefix s = None /\
   exists p, s' = set_working_directory_name_prefix (Some p) s).

Lemma keeps_refl s : keeps s s.
Proof. now left. Qed.

Lemma keeps_trans s1 s2 s3 : keeps s1 s2 -> keeps s2 s3 -> keeps s1 s3.
Proof.
  intros [-> | [Hn [p ->]]] H23; [exact H23|].
  destruct H23 as [-> | [Hn' _]].
  - right. eauto.
  - discriminate Hn'.
Qed.

Lemma keeps_pinned s s' : keeps s s' -> is_pinned s -> s' = s.
Proof.
  intros [-> | [Hn _]] [p Hp]; [reflexivity|]. rewrite Hn in Hp. discriminate.
Qed.

Lemma keeps_is_pinned s s' : keeps s s' -> is_pinned s -> is_pinned s'.
Proof. intros K Hp. now rewrite (keeps_pinned _ _ K Hp). Qed.

Lemma state_eta st s w : self st = s -> world st = w -> st = {| self := s; world := w |}.
Proof. destruct st; simpl; congruence. Qed.

Lemma state_ext st st' : self st' = self st -> world st' = world st -> st' = st.
Proof. destruct st, st'; simpl; congruence. Qed.

(** ** Methods that only read names and touch files *)

(** A quiet method runs no external command and keeps the instance. *)
Definition quiet {A : Type} (m : M A) : Prop :=
  forall st,
    trace (world (snd (m st))) = trace (world st) /\
    keeps (self st) (self (snd (m st))).

Section Quiet.
Context {A B : Type}.

Lemma quiet_ret (a : A) : quiet (ret a).
Proof. intros st. split; [reflexivity | apply keeps_refl]. Qed.

Lemma quiet_raise (e : Exn) : quiet (@raise A e).
Proof. intros st. split; [reflexivity | apply keeps_refl]. Qed.

Lemma quiet_bind (m : M A) (k : A -> M B) :
  quiet m -> (forall a, quiet (k a)) -> quiet (bind m k).
Proof.
  intros Hm Hk st. specialize (Hm st). unfold bind.
  destruct (m st) as [[a|e] st1]; simpl in *.
  - specialize (Hk a st1). destruct Hm as [T1 K1], Hk as [T2 K2].
    split; [congruence | eapply keeps_trans; eassumption].
  - exact Hm.
Qed.

Lemma quiet_if (b : bool) (m1 m2 : M A) : quiet m1 -> quiet m2 -> quiet (if b then m1 else m2).
Proof. now destruct b. Qed.
End Quiet.

Lemma quiet_get_self : quiet get_self.
Proof. intros st. split; [reflexivity | apply keeps_refl]. Qed.

Lemma quiet_get_world : quiet get_world.
Proof. intros st. split; [reflexivity | apply keeps_refl]. Qed.

Lemma quiet_suppress (m : M unit) : quiet m -> quiet (suppress_FileNotFoundError m).
Proof.
  intros Hm st. specialize (Hm st). unfold suppress_FileNotFoundError.
  destruct (m st) as [[a|[]] st1]; exact Hm.
Qed.

Ltac quiet_prim :=
  let st := fresh "st" in
  intros st; cbv beta delta [bind get_world put_world ret raise] iota; simpl;
  repeat (case_match; simpl);
  (split; [reflexivity | apply keeps_refl]).

Lemma quiet_exists p : quiet (Os.exists_ p).
Proof. unfold Os.exists_. quiet_prim. Qed.

Lemma quiet_remove p : quiet (Os.remove p).
Proof. unfold Os.remove. quiet_prim. Qed.

Lemma quiet_chmod p mode : quiet (Os.chmod p mode).
Proof. unfold Os.chmod. quiet_prim. Qed.

Lemma quiet_mkdir p : quiet (Os.mkdir p).
Proof. unfold Os.mkdir. quiet_prim. Qed.

Lemma quiet_open_w p : quiet (FileObj.open_w p).
Proof. unfold FileObj.open_w. quiet_prim. Qed.

Lemma quiet_write f text : quiet (FileObj.write f text).
Proof. unfold FileObj.write. quiet_prim. Qed.

Lemma quiet_close f : quiet (FileObj.close f).
Proof. apply quiet_ret. Qed.

Lemma quiet_time_int : quiet Time.time_int.
Proof. unfold Time.time_int. quiet_prim. Qed.

Lemma quiet_sleep n : quiet (Time.sleep n).
Proof. unfold Time.sleep. quiet_prim. Qed.

Lemma quiet_makedirs_fuel fuel : forall name, quiet (Os.makedirs_fuel fuel name).
Proof.
  induction fuel as [|fuel IH]; intros name; simpl.
  - destruct (Os.path_split name) as [h t].
    destruct (match t with EmptyString => _ | _ => _ end) as [h' t'].
    apply quiet_bind; [apply quiet_get_world|]. intros w.
    destruct h', t'; try apply quiet_mkdir.
    apply quiet_if; apply quiet_mkdir.
  - destruct (Os.path_split name) as [h t].
    destruct (match t with EmptyString => _ | _ => _ end) as [h' t'].
    apply quiet_bind; [apply quiet_get_world|]. intros w.
    destruct h', t'; try apply quiet_mkdir.
    apply quiet_if; [apply quiet_mkdir|].
    apply quiet_bind.
    + intros st. specialize (IH (String a h') st).
      destruct (Os.makedirs_fuel fuel (String a h') st) as [[u|[]] st1]; exact IH.
    + intros _. apply quiet_if; [apply quiet_ret | apply quiet_mkdir].
Qed.

Lemma quiet_makedirs name : quiet (Os.makedirs name).
Proof. apply quiet_makedirs_fuel. Qed.

Ltac quiet_step :=
  lazymatch goal with
  | |- quiet (bind _ _) => apply quiet_bind; [|intros ?]
  | |- quiet (if _ then _ else _) => apply quiet_if
  | |- quiet (ret _) => apply quiet_ret
  | |- quiet (raise _) => apply quiet_raise
  | |- quiet get_self => apply quiet_get_self
  | |- quiet get_world => apply quiet_get_world
  | |- quiet (FileObj.write _ _) => apply quiet_write
  | |- quiet (FileObj.open_w _) => apply quiet_open_w
  | |- quiet (FileObj.close _) => apply quiet_close
  | |- quiet (Os.exists_ _) => apply quiet_exists
  | |- quiet (Os.remove _) => apply quiet_remove
  | |- quiet (Os.chmod _ _) => apply quiet_chmod
  | |- quiet (Os.mkdir _) => apply quiet_mkdir
  | |- quiet (Os.makedirs _) => apply quiet_makedirs
  | |- quiet Time.time_int => apply quiet_time_int
  | |- quiet (Time.sleep _) => apply quiet_sleep
  | |- quiet (suppress_FileNotFoundError _) => apply quiet_suppress
  end.

Lemma quiet_copy src dst : quiet (Shutil.copy src dst).
Proof.
  unfold Shutil.copy. apply quiet_bind; [apply quiet_get_world|]. intros w.
  destruct (fs w !! src) as [[c mode|]|]; repeat quiet_step.
Qed.

(** ** The names *)

Section Names.
Context (PN : string).

(** The state once the prefix has been requested. *)
Definition pin (st : State) : State := snd (Base.working_directory_name_prefix PN st).

Lemma quiet_working_directory_name_prefix : quiet (Base.working_directory_name_prefix PN).
Proof.
  intros st. unfold Base.working_directory_name_prefix.
  cbv beta delta [bind get_self Time.time_int get_world put_self ret] iota. simpl.
  destruct (_working_directory_name_prefix (self st)) eqn:E; simpl.
  - split; [reflexivity | apply keeps_refl].
  - split; [reflexivity|]. right. eauto.
Qed.

Lemma world_pin st : world (pin st) = world st.
Proof.
  unfold pin, Base.working_directory_name_prefix.
  cbv beta delta [bind get_self Time.time_int get_world put_self ret] iota. simpl.
  now destruct (_working_directory_name_prefix (self st)).
Qed.

Lemma keeps_pin st : keeps (self st) (self (pin st)).
Proof. apply quiet_working_directory_name_prefix. Qed.

Lemma is_pinned_pin st : is_pinned (self (pin st)).
Proof.
  unfold pin, Base.working_directory_name_prefix, is_pinned.
  cbv beta delta [bind get_self Time.time_int get_world put_self ret] iota. simpl.
  destruct (_working_directory_name_prefix (self st)) eqn:E; simpl; [rewrite E|]; eauto.
Qed.

Lemma pin_pinned st : is_pinned (self st) -> pin st = st.
Proof.
  intros Hp. apply state_ext; [|apply world_pin].
  apply keeps_pinned; [apply keeps_pin | exact Hp].
Qed.

Lemma pin_idem st : pin (pin st) = pin st.
Proof. apply pin_pinned, is_pinned_pin. Qed.

(** The name a property yields on an instance that holds its prefix. *)
Definition name_in (m : M string) (s : Submitter) : string :=
  match fst (m {| self := s; world := mkWorld ∅ [] 0 0 |}) with
  | Ok n => n
  | Raise _ => EmptyString
  end.

(** A name property requests the prefix, and yields a name that only
    depends on the instance. *)
Definition is_name (m : M string) : Prop :=
  forall st, m st = (Ok (name_in m (self (pin st))), pin st).

Ltac is_name_tac :=
  let st := fresh "st" in
  intros st; destruct st as [[bh jh ld sc [p|] un pw sv pj sj ss cl cf ps wl vm ors upn] w];
  reflexivity.

Lemma is_name_working_directory_name_prefix : is_name (Base.working_directory_name_prefix PN).
Proof. is_name_tac. Qed.
Lemma is_name_working_directory_name : is_name (Base.working_directory_name PN).
Proof. is_name_tac. Qed.
Lemma is_name_check_data_directory_name : is_name (Base.check_data_directory_name PN).
Proof. is_name_tac. Qed.
Lemma is_name_mark_completion_directory_name : is_name (Base.mark_completion_directory_name PN).
Proof. is_name_tac. Qed.
Lemma is_name_scripts_start_name : is_name (Base.scripts_start_name PN).
Proof. is_name_tac. Qed.
Lemma is_name_job_script_name j : is_name (Base.job_script_name PN j).
Proof. destruct j; is_name_tac. Qed.

Lemma name_in_keeps m s s' :
  is_name m -> keeps s s' -> is_pinned s -> name_in m s' = name_in m s.
Proof. intros _ K Hp. now rewrite (keeps_pinned _ _ K Hp). Qed.
End Names.

(** ** The submissions of a run *)

Section Submissions.
Context (P : Platform) (PN : string).

Definition depend_mode (j : Job) : string :=
  match j with
  | NoLongerRunningJob => "afterany"
  | _ => "afterok"
  end.

Definition gate (j : Job) (stage : Stage) : bool :=
  match Base.job_stage j with
  | Some x => ProcessingStage.ge stage x
  | None => true
  end.

Definition submit_command (j : Job) (prior : option string) (script : string) : string :=
  if Py.truthy prior
  then "qsub -W depend=" +:+ depend_mode j +:+ ":" +:+ Py.str_value prior +:+ " " +:+ script
  else "qsub " +:+ script.

Definition script_in (s : Submitter) (j : Job) : string :=
  name_in (Base.job_script_name PN j) s.

Lemma run_check_eq site cmd st :
  Subprocess.run_check P site cmd st =
    (if fst (shell P (trace (world st)) cmd) =? 0
     then Ok (snd (shell P (trace (world st)) cmd))
     else Raise (CalledProcessError (fst (shell P (trace (world st)) cmd)) cmd),
     {| self := self st;
        world := log_event (EvRun site cmd (fst (shell P (trace (world st)) cmd))
                              (snd (shell P (trace (world st)) cmd))) (world st) |}).
Proof.
  unfold Subprocess.run_check, bind, get_world, put_world, ret, raise. simpl.
  destruct (_ =? 0); reflexivity.
Qed.

(** What a submission method does once its gate is open. *)
Definition submitted (j : Job) (prior : option string) (st : State)
  : Result (option string * option (list string)) * State :=
  let cmd := submit_command j prior (script_in (self (pin PN st)) j) in
  let rc := fst (shell P (trace (world st)) cmd) in
  let out := snd (shell P (trace (world st)) cmd) in
  let job_no := remove_ending_new_lines P out in
  (if rc =? 0 then Ok (Some job_no, Some [job_no]) else Raise (CalledProcessError rc cmd),
   {| self := self (pin PN st);
      world := log_event (EvRun (Submit j) cmd rc out) (world st) |}).

Lemma submit_method_eq j stage prior st :
  Base.submit_method P PN j stage prior st =
    if gate j stage then submitted j prior st else (Ok (None, None), st).
Proof.
  pose proof (is_name_job_script_name PN j st) as Hn.
  unfold submitted, script_in, gate.
  destruct j; simpl in *;
    unfold Base.submit_get_data_jobs, Base.submit_process_data_jobs,
      Base.submit_clean_data_jobs, Base.submit_put_data_jobs, Base.submit_check_jobs,
      Base.submit_no_longer_running_jobs;
    try (destruct (ProcessingStage.ge stage _); [|reflexivity]);
    rewrite (bind_Ok _ _ _ _ _ Hn);
    unfold submit_command, depend_mode;
    unfold bind; rewrite run_check_eq, !world_pin;
    destruct (_ =? 0); reflexivity.
Qed.

Lemma bind_submit j stage prior {B : Type} (k : _ -> M B) s w :
  is_pinned s ->
  bind (Base.submit_method P PN j stage prior) k {| self := s; world := w |} =
    if gate j stage then
      let cmd := submit_command j prior (script_in s j) in
      let rc := fst (shell P (trace w) cmd) in
      let out := snd (shell P (trace w) cmd) in
      let job_no := remove_ending_new_lines P out in
      let w1 := log_event (EvRun (Submit j) cmd rc out) w in
      if rc =? 0
      then k (Some job_no, Some [job_no]) {| self := s; world := w1 |}
      else (Raise (CalledProcessError rc cmd), {| self := s; world := w1 |})
    else k (None, None) {| self := s; world := w |}.
Proof.
  intros Hp. unfold bind at 1. rewrite submit_method_eq.
  destruct (gate j stage); [|reflexivity].
  unfold submitted. rewrite (pin_pinned PN {| self := s; world := w |} Hp). simpl.
  destruct (_ =? 0); reflexivity.
Qed.

(** The submissions of a run as a loop over the jobs to submit: each
    command names the job recorded as prior, and a command that fails ends
    the loop. *)
Fixpoint chain (s : Submitter) (jobs : list Job) (prior : option string) (tr : list Event)
  : list Event * option Exn :=
  match jobs with
  | [] => ([], None)
  | j :: rest =>
      let cmd := submit_command j prior (script_in s j) in
      let rc := fst (shell P tr cmd) in
      let out := snd (shell P tr cmd) in
      let ev := EvRun (Submit j) cmd rc out in
      if rc =? 0 then
        let last := Some (remove_ending_new_lines P out) in
        let next := chain s rest (if Py.truthy last then last else prior) (tr ++ [ev]) in
        (ev :: fst next, snd next)
      else ([ev], Some (CalledProcessError rc cmd))
  end.

Definition all_jobs : list Job :=
  [GetDataJob; ProcessDataJob; CleanDataJob; PutDataJob; CheckDataJob; NoLongerRunningJob].

Definition plan (stage : Stage) : list Job :=
  List.filter (fun j => gate j stage) all_jobs.

(** The part of [do_job_submissions] after the scripts are created and
    the running status is marked. *)
Definition submissions (stage : Stage) : M Base.Manifest :=
  Base.do_job_submissions P PN (fun _ => ret tt) (Base.submit_process_data_jobs P PN)
    (fun _ => ret tt) stage.

Definition exn_of {A : Type} (r : Result A) : option Exn :=
  match r with
  | Ok _ => None
  | Raise e => Some e
  end.

Lemma bind_ret {A B : Type} (a : A) (k : A -> M B) st : bind (ret a) k st = k a st.
Proof. reflexivity. Qed.

Lemma chain_cons s j rest prior tr :
  chain s (j :: rest) prior tr =
    let cmd := submit_command j prior (script_in s j) in
    let rc := fst (shell P tr cmd) in
    let out := snd (shell P tr cmd) in
    let ev := EvRun (Submit j) cmd rc out in
    if rc =? 0 then
      let last := Some (remove_ending_new_lines P out) in
      let next := chain s rest (if Py.truthy last then last else prior) (tr ++ [ev]) in
      (ev :: fst next, snd next)
    else ([ev], Some (CalledProcessError rc cmd)).
Proof. reflexivity. Qed.

(** The labels of the list a run returns, as the code appends them: the
    entry for CLEAN_DATA is appended under the test of the job numbers of
    PROCESS_DATA. *)
Definition code_labels (stage : Stage) : list string :=
  (if ProcessingStage.ge stage ProcessingStage.GET_DATA then ["GET_DATA"] else []) ++
  (if ProcessingStage.ge stage ProcessingStage.PROCESS_DATA then ["PROCESS_DATA"] else []) ++
  (if ProcessingStage.ge stage ProcessingStage.PROCESS_DATA then ["CLEAN_DATA"] else []) ++
  (if ProcessingStage.ge stage ProcessingStage.PUT_DATA then ["PUT_DATA"] else []) ++
  (if ProcessingStage.ge stage ProcessingStage.CHECK_DATA then ["CHECK_DATA"] else []) ++
  ["Complete Running Status"].

Definition agrees (stage : Stage) (s : Submitter) (w : World)
  (res : Result Base.Manifest * State) (c : list Event * option Exn) : Prop :=
  trace (world (snd res)) = trace w ++ fst c /\
  self (snd res) = s /\
  fs (world (snd res)) = fs w /\
  exn_of (fst res) = snd c /\
  forall m, fst res = Ok m ->
    map fst m = code_labels stage /\
    (stage = ProcessingStage.PROCESS_DATA -> In ("CLEAN_DATA", None) m).

Ltac gate_simpl :=
  cbn [gate Base.job_stage ProcessingStage.ge ProcessingStage.value Z.leb Z.compare
         Pos.compare Pos.compare_cont].

Ltac fold_methods :=
  change (Base.submit_get_data_jobs P PN) with (Base.submit_method P PN GetDataJob);
  change (Base.submit_process_data_jobs P PN) with (Base.submit_method P PN ProcessDataJob);
  change (Base.submit_clean_data_jobs P PN) with (Base.submit_method P PN CleanDataJob);
  change (Base.submit_put_data_jobs P PN) with (Base.submit_method P PN PutDataJob);
  change (Base.submit_check_jobs P PN) with (Base.submit_method P PN CheckDataJob);
  change (Base.submit_no_longer_running_jobs P PN) with (Base.submit_method P PN NoLongerRunningJob).

Ltac leaf :=
  unfold agrees; cbn [fst snd world self trace fs log_event exn_of chain ret];
  split; [rewrite <- ?app_assoc; reflexivity|];
  split; [reflexivity|];
  split; [reflexivity|];
  split; [reflexivity|];
  let m := fresh "m" in
  let H := fresh "H" in
  intros m H;
  first
    [ discriminate H
    | inversion H; subst;
      split; [reflexivity | intros; first [discriminate | simpl; tauto]] ].

(* one job: its gate is closed, or its command is run and succeeds or fails *)
Ltac submit_step Hp :=
  rewrite (bind_submit _ _ _ _ _ _ Hp);
  lazymatch goal with
  | |- context [if gate ?j ?stage then _ else _] =>
      let b := eval cbv in (gate j stage) in
      lazymatch b with
      | false => gate_simpl; cbn [fst snd Py.truthy Py.list_truthy]
      | true =>
          gate_simpl; rewrite chain_cons; cbv zeta; cbn [trace log_event];
          let rc := fresh "rc" in
          let out := fresh "out" in
          destruct (shell P _ _) as [rc out];
          cbn [fst snd Py.list_truthy app];
          destruct (rc =? 0); [ | leaf ]
      end
  end.

Lemma submissions_pinned stage s w :
  is_pinned s ->
  agrees stage s w (submissions stage {| self := s; world := w |})
    (chain s (plan stage) None (trace w)).
Proof.
  intros Hp. unfold submissions, Base.do_job_submissions.
  fold_methods. cbv zeta.
  do 2 (unfold bind at 1; cbn [ret]).
  destruct stage; cbn [plan all_jobs List.filter]; gate_simpl;
    do 6 submit_step Hp; leaf.
Qed.
End Submissions.

Section Shape.
Context (P : Platform).
Let PN := Structural.PIPELINE_NAME.

Lemma bind_ext {A B : Type} (m m' : M A) (k k' : A -> M B) st :
  m st = m' st -> (forall a st1, k a st1 = k' a st1) -> bind m k st = bind m' k' st.
Proof.
  intros Hm Hk. unfold bind. rewrite Hm. destruct (m' st) as [[a|e] st1]; [apply Hk | reflexivity].
Qed.

Lemma structural_submit_process_data_jobs stage prior st :
  Structural.submit_process_data_jobs P stage prior st =
  Base.submit_process_data_jobs P PN stage prior st.
Proof.
  unfold Structural.submit_process_data_jobs, Structural._SUPPRESS_FREESURFER_ASSESSOR_JOB.
  unfold bind, ret. fold PN.
  destruct (Base.submit_process_data_jobs P PN stage prior st) as [[[a b]|e] st1]; reflexivity.
Qed.

Lemma do_job_submissions_split stage st :
  Structural.do_job_submissions P stage st =
  bind (Structural.create_scripts P stage)
    (fun _ => bind (Structural.mark_running_status P stage)
                (fun _ => submissions P PN stage)) st.
Proof.
  unfold Structural.do_job_submissions, submissions, Base.do_job_submissions.
  apply bind_ext; [reflexivity|]. intros _ st1.
  apply bind_ext; [reflexivity|]. intros _ st2.
  rewrite !bind_ret.
  apply bind_ext; [reflexivity|]. intros r st3.
  apply bind_ext; [apply structural_submit_process_data_jobs|]. reflexivity.
Qed.
End Shape.

Section General.
Context (P : Platform) (PN : string).

Lemma submitted_pin j prior st : submitted P PN j prior (pin PN st) = submitted P PN j prior st.
Proof. unfold submitted. now rewrite pin_idem, world_pin. Qed.

Lemma bind_submit_pin j stage prior {B : Type} (k : _ -> M B) st :
  gate j stage = true ->
  bind (Base.submit_method P PN j stage prior) k st =
  bind (Base.submit_method P PN j stage prior) k (pin PN st).
Proof.
  intros G. unfold bind. rewrite !submit_method_eq, G, submitted_pin. reflexivity.
Qed.

Lemma bind_submit_closed j stage prior {B : Type} (k : _ -> M B) st :
  gate j stage = false ->
  bind (Base.submit_method P PN j stage prior) k st = k (None, None) st.
Proof. intros G. unfold bind. now rewrite submit_method_eq, G. Qed.

Lemma submissions_pin stage st :
  submissions P PN stage st = submissions P PN stage (pin PN st).
Proof.
  unfold submissions, Base.do_job_submissions.
  change (Base.submit_get_data_jobs P PN) with (Base.submit_method P PN GetDataJob).
  change (Base.submit_process_data_jobs P PN) with (Base.submit_method P PN ProcessDataJob).
  change (Base.submit_clean_data_jobs P PN) with (Base.submit_method P PN CleanDataJob).
  change (Base.submit_put_data_jobs P PN) with (Base.submit_method P PN PutDataJob).
  change (Base.submit_check_jobs P PN) with (Base.submit_method P PN CheckDataJob).
  change (Base.submit_no_longer_running_jobs P PN) with (Base.submit_method P PN NoLongerRunningJob).
  cbv zeta. rewrite !bind_ret.
  destruct stage; try (apply bind_submit_pin; reflexivity).
  rewrite !(bind_submit_closed GetDataJob) by reflexivity.
  rewrite !(bind_submit_closed ProcessDataJob) by reflexivity.
  rewrite !(bind_submit_closed CleanDataJob) by reflexivity.
  rewrite !(bind_submit_closed PutDataJob) by reflexivity.
  rewrite !(bind_submit_closed CheckDataJob) by reflexivity.
  apply bind_submit_pin; reflexivity.
Qed.

Lemma submissions_chain stage st :
  agrees stage (self (pin PN st)) (world st) (submissions P PN stage st)
    (chain P PN (self (pin PN st)) (plan stage) None (trace (world st))).
Proof.
  rewrite submissions_pin.
  rewrite (state_eta (pin PN st) (self (pin PN st)) (world st) eq_refl (world_pin PN st)) at 2.
  apply submissions_pinned, is_pinned_pin.
Qed.
End General.

(** ** Script creation runs no command *)

Section QuietScripts.
Context (P : Platform) (PN : string).

Lemma quiet_of_is_name (m : M string) : is_name PN m -> quiet m.
Proof.
  intros Hn st. rewrite Hn. simpl. rewrite world_pin. split; [reflexivity | apply keeps_pin].
Qed.

Lemma quiet_write_bash_header script : quiet (Base._write_bash_header P script).
Proof. unfold Base._write_bash_header. repeat quiet_step. Qed.

Ltac quiet_script :=
  repeat
    lazymatch goal with
    | |- quiet (Base._write_bash_header _ _) => apply quiet_write_bash_header
    | |- quiet (Base.working_directory_name_prefix _) =>
        apply quiet_of_is_name, is_name_working_directory_name_prefix
    | |- quiet (Base.working_directory_name _) =>
        apply quiet_of_is_name, is_name_working_directory_name
    | |- quiet (Base.check_data_directory_name _) =>
        apply quiet_of_is_name, is_name_check_data_directory_name
    | |- quiet (Base.mark_completion_directory_name _) =>
        apply quiet_of_is_name, is_name_mark_completion_directory_name
    | |- quiet (Base.scripts_start_name _) =>
        apply quiet_of_is_name, is_name_scripts_start_name
    | |- quiet (Base.get_data_job_script_name _) =>
        apply quiet_of_is_name, (is_name_job_script_name PN GetDataJob)
    | |- quiet (Base.process_data_job_script_name _) =>
        apply quiet_of_is_name, (is_name_job_script_name PN ProcessDataJob)
    | |- quiet (Base.clean_data_script_name _) =>
        apply quiet_of_is_name, (is_name_job_script_name PN CleanDataJob)
    | |- quiet (Base.put_data_script_name _) =>
        apply quiet_of_is_name, (is_name_job_script_name PN PutDataJob)
    | |- quiet (Base.check_data_job_script_name _) =>
        apply quiet_of_is_name, (is_name_job_script_name PN CheckDataJob)
    | |- quiet (Base.mark_no_longer_running_script_name _) =>
        apply quiet_of_is_name, (is_name_job_script_name PN NoLongerRunningJob)
    | |- _ => quiet_step
    end.

Lemma quiet_create_get_data_job_script : quiet (Base.create_get_data_job_script P PN).
Proof. unfold Base.create_get_data_job_script. quiet_script. Qed.

Lemma quiet_create_put_data_script : quiet (Base.create_put_data_script P PN).
Proof. unfold Base.create_put_data_script. quiet_script. Qed.

Lemma quiet_create_clean_data_script : quiet (Base.create_clean_data_script P PN).
Proof. unfold Base.create_clean_data_script. quiet_script. Qed.

Lemma quiet_create_check_data_job_script : quiet (Base.create_check_data_job_script P PN).
Proof. unfold Base.create_check_data_job_script. quiet_script. Qed.

Lemma quiet_create_mark_no_longer_running_script :
  quiet (Base.create_mark_no_longer_running_script P PN).
Proof. unfold Base.create_mark_no_longer_running_script. quiet_script. Qed.

Lemma quiet_base_create_scripts (cg cp : M unit) stage :
  quiet cg -> quiet cp -> quiet (Base.create_scripts P PN cg cp stage).
Proof.
  intros Hg Hp. unfold Base.create_scripts.
  apply quiet_if; [|apply quiet_ret].
  apply quiet_bind; [exact Hg|intros _].
  apply quiet_bind; [exact Hp|intros _].
  apply quiet_bind; [exact quiet_create_clean_data_script|intros _].
  apply quiet_bind; [exact quiet_create_put_data_script|intros _].
  apply quiet_bind; [exact quiet_create_check_data_job_script|intros _].
  exact quiet_create_mark_no_longer_running_script.
Qed.
End QuietScripts.

(** ** The shape of a run of the structural submitter *)

Section Outcome.
Context (P : Platform).
Let PN := Structural.PIPELINE_NAME.

Ltac quiet_script :=
  repeat
    lazymatch goal with
    | |- quiet (Base._write_bash_header _ _) => apply quiet_write_bash_header
    | |- quiet (Structural.working_directory_name) =>
        apply (quiet_of_is_name PN), is_name_working_directory_name
    | |- quiet (Structural.get_data_job_script_name) =>
        apply (quiet_of_is_name PN), (is_name_job_script_name PN GetDataJob)
    | |- quiet (Structural.process_data_job_script_name) =>
        apply (quiet_of_is_name PN), (is_name_job_script_name PN ProcessDataJob)
    | |- _ => quiet_step
    end.

Lemma quiet_structural_create_get_data_job_script :
  quiet (Structural.create_get_data_job_script P).
Proof. unfold Structural.create_get_data_job_script. quiet_script. Qed.

Lemma quiet_structural_create_process_data_job_script :
  quiet (Structural.create_process_data_job_script P).
Proof. unfold Structural.create_process_data_job_script. quiet_script. Qed.

Lemma quiet_structural_create_scripts stage : quiet (Structural.create_scripts P stage).
Proof.
  unfold Structural.create_scripts, Structural._SUPPRESS_FREESURFER_ASSESSOR_JOB.
  apply quiet_bind; [|intros _; apply quiet_ret].
  apply quiet_base_create_scripts.
  - apply quiet_structural_create_get_data_job_script.
  - apply quiet_structural_create_process_data_job_script.
Qed.

(** The command line that marks the running status as queued. *)
Definition mark_command (s : Submitter) : string :=
  (((((((((((_xnat_pbs_jobs_home s
    +:+ Py.os_sep +:+ Structural.PIPELINE_NAME)
    +:+ Py.os_sep +:+ Structural.PIPELINE_NAME)
    +:+ ".XNAT_MARK_RUNNING_STATUS")
    +:+ " --user=" +:+ _username s)
    +:+ " --password=" +:+ _password s)
    +:+ " --server=" +:+ get_server_name P (_put_server s))
    +:+ " --project=" +:+ _project s)
    +:+ " --subject=" +:+ _subject s)
    +:+ " --classifier=" +:+ _classifier s)
    +:+ " --resource=RunningStatus")
    +:+ " --queued").

Lemma mark_running_status_eq stage st :
  Structural.mark_running_status P stage st =
    if ProcessingStage.gt stage ProcessingStage.PREPARE_SCRIPTS then
      let cmd := mark_command (self st) in
      let rc := fst (shell P (trace (world st)) cmd) in
      let out := snd (shell P (trace (world st)) cmd) in
      (if rc =? 0 then Ok tt else Raise (CalledProcessError rc cmd),
       {| self := self st; world := log_event (EvRun MarkQueued cmd rc out) (world st) |})
    else (Ok tt, st).
Proof.
  unfold Structural.mark_running_status. unfold bind at 1. cbn [get_self].
  destruct (ProcessingStage.gt stage _); [|reflexivity].
  unfold bind. rewrite run_check_eq. fold (mark_command (self st)).
  cbv zeta. destruct (_ =? 0); reflexivity.
Qed.

Lemma mark_command_keeps s s' : keeps s s' -> mark_command s' = mark_command s.
Proof. intros [-> | [_ [p ->]]]; reflexivity. Qed.

Definition is_delete (e : Event) : Prop :=
  match e with
  | EvDeleteResource _ _ _ _ _ _ => True
  | EvRun _ _ _ _ => False
  end.

Definition succeeded (e : Event) : Prop :=
  match e with
  | EvRun _ _ rc _ => rc = 0
  | EvDeleteResource _ _ _ _ _ ok => ok = true
  end.

(** The running status is marked as queued exactly when the stage is
    above PREPARE_SCRIPTS. *)
Definition marked (stage : Stage) (s : Submitter) (marks : list Event) : Prop :=
  if ProcessingStage.gt stage ProcessingStage.PREPARE_SCRIPTS
  then exists out, marks = [EvRun MarkQueued (mark_command s) 0 out]
  else marks = [].

(** The three ways a run ends: before the status is marked, with the
    failure of the command that marks it, or in the submissions. *)
Inductive outcome (stage : Stage) (tr0 : list Event)
  (res : Result Base.Manifest * State) : Prop :=
| setup_failed dels e :
    trace (world (snd res)) = tr0 ++ dels ->
    Forall is_delete dels ->
    fst res = Raise e ->
    outcome stage tr0 res
| mark_failed dels rc out :
    ProcessingStage.gt stage ProcessingStage.PREPARE_SCRIPTS = true ->
    trace (world (snd res)) =
      tr0 ++ dels ++ [EvRun MarkQueued (mark_command (self (snd res))) rc out] ->
    Forall is_delete dels ->
    rc <> 0 ->
    fst res = Raise (CalledProcessError rc (mark_command (self (snd res)))) ->
    outcome stage tr0 res
| submitting dels marks :
    trace (world (snd res)) =
      tr0 ++ dels ++ marks ++
      fst (chain P PN (self (snd res)) (plan stage) None (tr0 ++ dels ++ marks)) ->
    Forall is_delete dels ->
    Forall succeeded dels ->
    is_pinned (self (snd res)) ->
    marked stage (self (snd res)) marks ->
    exn_of (fst res) =
      snd (chain P PN (self (snd res)) (plan stage) None (tr0 ++ dels ++ marks)) ->
    (forall m, fst res = Ok m ->
       map fst m = code_labels stage /\
       (stage = ProcessingStage.PROCESS_DATA -> In ("CLEAN_DATA", None) m)) ->
    outcome stage tr0 res.

Lemma do_job_submissions_outcome stage st tr0 dels :
  trace (world st) = tr0 ++ dels ->
  Forall is_delete dels ->
  Forall succeeded dels ->
  outcome stage tr0 (Structural.do_job_submissions P stage st).
Proof.
  intros Htr Hd Hs. rewrite do_job_submissions_split.
  destruct (quiet_structural_create_scripts stage st) as [T K].
  destruct (Structural.create_scripts P stage st) as [[u|e] st1] eqn:E1; simpl in T, K.
  2:{ rewrite (bind_Raise _ _ _ _ _ E1). simpl.
      eapply setup_failed with (dels := dels); simpl; [congruence | assumption | reflexivity]. }
  rewrite (bind_Ok _ _ _ _ _ E1). unfold bind at 1. rewrite mark_running_status_eq.
  destruct (ProcessingStage.gt stage ProcessingStage.PREPARE_SCRIPTS) eqn:G.
  - cbv zeta.
    destruct (shell P (trace (world st1)) (mark_command (self st1))) as [rc out].
    cbn [fst snd]. destruct (rc =? 0) eqn:Erc.
    + apply Z.eqb_eq in Erc. subst rc.
      match goal with |- outcome _ _ (submissions _ _ _ ?st2) => set (s2 := st2) end.
      destruct (submissions_chain P PN stage s2) as (A1 & A2 & A3 & A4 & A5).
      unfold PN in *.
      assert (Hk : keeps (self st1) (self (pin Structural.PIPELINE_NAME s2)))
        by apply (keeps_pin Structural.PIPELINE_NAME s2).
      eapply submitting with (dels := dels) (marks := [EvRun MarkQueued (mark_command (self st1)) 0 out]).
      * rewrite A1, A2. subst s2. cbn [world trace log_event]. rewrite T, Htr.
        rewrite <- !app_assoc. reflexivity.
      * assumption.
      * assumption.
      * rewrite A2. apply is_pinned_pin.
      * unfold marked. rewrite G. exists out. rewrite A2. now rewrite (mark_command_keeps _ _ Hk).
      * rewrite A4, A2. subst s2. cbn [world trace log_event]. rewrite T, Htr.
        rewrite <- !app_assoc. reflexivity.
      * exact A5.
    + apply Z.eqb_neq in Erc.
      eapply mark_failed with (dels := dels); cbn [fst snd world self trace log_event];
        [exact G | rewrite T, Htr, <- app_assoc; reflexivity | assumption | exact Erc
        | reflexivity].
  - destruct (submissions_chain P PN stage st1) as (A1 & A2 & A3 & A4 & A5).
    unfold PN in *.
    eapply submitting with (dels := dels) (marks := []).
    + rewrite A1, A2, T, Htr. rewrite <- !app_assoc, !app_nil_r. reflexivity.
    + assumption.
    + assumption.
    + rewrite A2. apply is_pinned_pin.
    + unfold marked. rewrite G. reflexivity.
    + rewrite A4, A2, T, Htr. rewrite <- ?app_assoc, !app_nil_r. reflexivity.
    + exact A5.
Qed.

Lemma outcome_quiet_bind {A : Type} (m : M A) (k : A -> M Base.Manifest) stage tr0 dels st :
  quiet m ->
  trace (world st) = tr0 ++ dels ->
  Forall is_delete dels ->
  (forall a st1, trace (world st1) = tr0 ++ dels -> outcome stage tr0 (k a st1)) ->
  outcome stage tr0 (bind m k st).
Proof.
  intros Hq Htr Hd Hk. destruct (Hq st) as [T _]. unfold bind.
  destruct (m st) as [[a|e] st1]; simpl in T.
  - apply Hk. congruence.
  - eapply setup_failed with (dels := dels); simpl; [congruence | assumption | reflexivity].
Qed.

Lemma delete_resource_eq username password server project subject session resource st :
  Subprocess.delete_resource P username password server project subject session resource st =
    let ok := delete_resource_ok P (trace (world st)) server project subject session resource in
    (if ok then Ok tt else Raise (ResourceDeleteError resource),
     {| self := self st;
        world := log_event (EvDeleteResource server project subject session resource ok)
                   (world st) |}).
Proof.
  unfold Subprocess.delete_resource, bind, get_world, put_world, ret, raise. simpl.
  destruct (delete_resource_ok _ _ _ _ _ _ _); reflexivity.
Qed.

Lemma submit_jobs_outcome stage st :
  outcome stage (trace (world st)) (Structural.submit_jobs P stage st).
Proof.
  unfold Structural.submit_jobs, Base.submit_jobs.
  apply outcome_quiet_bind with (dels := []);
    [apply quiet_get_self | now rewrite app_nil_r | constructor |]. intros s st1 T1.
  apply outcome_quiet_bind with (dels := []);
    [apply quiet_sleep | assumption | constructor |]. intros _ st2 T2.
  apply outcome_quiet_bind with (dels := []);
    [apply (quiet_of_is_name PN), is_name_working_directory_name | assumption | constructor |].
  intros wd st3 T3.
  apply outcome_quiet_bind with (dels := []);
    [apply quiet_makedirs | assumption | constructor |]. intros _ st4 T4.
  apply outcome_quiet_bind with (dels := []);
    [apply (quiet_of_is_name PN), is_name_check_data_directory_name | assumption | constructor |].
  intros cd st5 T5.
  apply outcome_quiet_bind with (dels := []);
    [apply quiet_makedirs | assumption | constructor |]. intros _ st6 T6.
  apply outcome_quiet_bind with (dels := []);
    [apply (quiet_of_is_name PN), is_name_mark_completion_directory_name | assumption | constructor |].
  intros mc st7 T7.
  apply outcome_quiet_bind with (dels := []);
    [apply quiet_makedirs | assumption | constructor |]. intros _ st8 T8.
  rewrite app_nil_r in T8.
  destruct (_clean_output_resource_first s).
  - unfold bind at 1. rewrite delete_resource_eq. cbv zeta.
    destruct (delete_resource_ok P _ _ _ _ _ _) eqn:Eok.
    + eapply do_job_submissions_outcome; cbn [world trace log_event].
      * rewrite T8. reflexivity.
      * repeat constructor.
      * repeat constructor.
    + eapply setup_failed; cbn [fst snd world trace log_event].
      * rewrite T8. reflexivity.
      * repeat constructor.
      * reflexivity.
  - rewrite bind_ret. eapply do_job_submissions_outcome with (dels := []).
    + now rewrite app_nil_r.
    + constructor.
    + constructor.
Qed.
End Outcome.

(** ** Reading a trace *)

(** The events a run added to the trace. *)
Definition new_events (st st' : State) : list Event :=
  drop (length (trace (world st))) (trace (world st')).

Lemma new_events_app st st' evs :
  trace (world st') = trace (world st) ++ evs -> new_events st st' = evs.
Proof. intros H. unfold new_events. rewrite H. apply drop_app_length. Qed.

Definition is_submit (e : Event) : bool :=
  match e with
  | EvRun (Submit _) _ _ _ => true
  | _ => false
  end.

(** The jobs handed to the scheduler, in order. *)
Fixpoint submitted_jobs (evs : list Event) : list Job :=
  match evs with
  | [] => []
  | EvRun (Submit j) _ _ _ :: rest => j :: submitted_jobs rest
  | _ :: rest => submitted_jobs rest
  end.

Lemma submitted_jobs_app l1 l2 : submitted_jobs (l1 ++ l2) = submitted_jobs l1 ++ submitted_jobs l2.
Proof.
  induction l1 as [|e l1 IH]; [reflexivity|].
  destruct e as [[| j |] cmd rc out | ]; simpl; now rewrite ?IH.
Qed.

Lemma submitted_jobs_none l : Forall (fun e => is_submit e = false) l -> submitted_jobs l = [].
Proof.
  induction 1 as [|e l He _ IH]; [reflexivity|].
  destruct e as [[| j |] cmd rc out | ]; simpl in *; try assumption. discriminate.
Qed.

Lemma filter_submit_none l :
  Forall (fun e => is_submit e = false) l -> List.filter is_submit l = [].
Proof. induction 1 as [|e l He _ IH]; [reflexivity|]. simpl. now rewrite He. Qed.

Lemma filter_submit_all l :
  Forall (fun e => is_submit e = true) l -> List.filter is_submit l = l.
Proof. induction 1 as [|e l He _ IH]; [reflexivity|]. simpl. now rewrite He, IH. Qed.

Lemma Forall_In {A : Type} (Q : A -> Prop) (l : list A) (x : A) :
  Forall Q l -> In x l -> Q x.
Proof. intros H Hin. rewrite Forall_forall in H. apply H, list_elem_of_In, Hin. Qed.

(** Splitting a list at an element that its first part cannot hold. *)
Lemma split_after {A : Type} (Q : A -> Prop) (l1 l2 pre post : list A) (e : A) :
  Forall Q l1 -> ~ Q e -> l1 ++ l2 = pre ++ e :: post ->
  exists pre', pre = l1 ++ pre' /\ l2 = pre' ++ e :: post.
Proof.
  intros H. revert pre. induction H as [|x l1 Hx _ IH]; intros pre Hn Heq.
  - exists pre. split; [reflexivity | exact Heq].
  - destruct pre as [|y pre]; simpl in Heq; inversion Heq; subst.
    + contradiction.
    + destruct (IH pre Hn H1) as (pre' & -> & ->). exists pre'. split; reflexivity.
Qed.

Section Chain.
Context (P : Platform) (PN : string).

Lemma chain_submits s jobs : forall prior tr,
  Forall (fun e => is_submit e = true) (fst (chain P PN s jobs prior tr)).
Proof.
  induction jobs as [|j jobs IH]; intros prior tr; simpl; [constructor|].
  destruct (_ =? 0); simpl; repeat constructor. apply IH.
Qed.

(** A command that fails is the last one, and its failure is the result. *)
Lemma chain_failure s jobs : forall prior tr pre site cmd rc out post,
  fst (chain P PN s jobs prior tr) = pre ++ EvRun site cmd rc out :: post ->
  rc <> 0 ->
  post = [] /\ snd (chain P PN s jobs prior tr) = Some (CalledProcessError rc cmd).
Proof.
  induction jobs as [|j jobs IH]; intros prior tr pre site cmd rc out post; simpl.
  - intros H. destruct pre; discriminate H.
  - destruct (_ =? 0) eqn:E; simpl; intros H Hrc.
    + destruct pre as [|e pre]; simpl in H; inversion H; subst.
      * apply Z.eqb_eq in E. contradiction.
      * eapply IH; eassumption.
    + destruct pre as [|e pre]; simpl in H; inversion H; subst.
      * split; reflexivity.
      * destruct pre; discriminate.
Qed.

(** The jobs are submitted in the order of the plan; all of them when no
    command fails. *)
Lemma chain_jobs s jobs : forall prior tr,
  exists later,
    jobs = submitted_jobs (fst (chain P PN s jobs prior tr)) ++ later /\
    (snd (chain P PN s jobs prior tr) = None -> later = []).
Proof.
  induction jobs as [|j jobs IH]; intros prior tr; simpl.
  - exists []. split; reflexivity.
  - destruct (_ =? 0); simpl.
    + match goal with
      | |- context [chain P PN s jobs ?p ?t] => destruct (IH p t) as (later & H1 & H2)
      end.
      exists later. split; [f_equal; exact H1 | exact H2].
    + exists jobs. split; [reflexivity | discriminate].
Qed.
End Chain.

Section RunFacts.
Context (P : Platform).

Lemma delete_not_submit l : Forall is_delete l -> Forall (fun e => is_submit e = false) l.
Proof.
  intros H. eapply Forall_impl; [exact H|].
  intros [site cmd rc out | ]; simpl; [contradiction | reflexivity].
Qed.

Lemma marked_not_submit stage s marks :
  marked P stage s marks -> Forall (fun e => is_submit e = false) marks.
Proof.
  unfold marked. destruct (ProcessingStage.gt _ _).
  - intros [out ->]. repeat constructor.
  - intros ->. constructor.
Qed.

Lemma exn_of_Some {A : Type} (r : Result A) e : exn_of r = Some e -> r = Raise e.
Proof. destruct r; simpl; congruence. Qed.

Lemma exn_of_Ok {A : Type} (r : Result A) a : r = Ok a -> exn_of r = None.
Proof. now intros ->. Qed.

(** What the events of a run look like, whatever way it ends: some
    deletions and marks that are no submissions, then the submissions of
    the loop. *)
Lemma run_events stage st :
  exists before subs,
    new_events st (snd (Structural.submit_jobs P stage st)) = before ++ subs /\
    Forall (fun e => is_submit e = false) before /\
    Forall (fun e => is_submit e = true) subs /\
    (subs <> [] ->
     exists tr,
       subs = fst (chain P Structural.PIPELINE_NAME
                     (self (snd (Structural.submit_jobs P stage st))) (plan stage) None tr) /\
       exn_of (fst (Structural.submit_jobs P stage st)) =
         snd (chain P Structural.PIPELINE_NAME
                (self (snd (Structural.submit_jobs P stage st))) (plan stage) None tr)).
Proof.
  destruct (submit_jobs_outcome P stage st)
    as [dels e T D R | dels mrc mout G T D N R | dels marks T D S Hpin Mk X L].
  - exists dels, []. rewrite (new_events_app _ _ _ T), app_nil_r.
    repeat split; [now apply delete_not_submit | constructor | congruence ].
  - exists (dels ++ [EvRun MarkQueued
                      (mark_command P (self (snd (Structural.submit_jobs P stage st)))) mrc mout]), [].
    rewrite (new_events_app _ _ _ T), app_nil_r.
    repeat split; [ | constructor | congruence ].
    apply Forall_app. split; [now apply delete_not_submit | repeat constructor].
  - eexists (dels ++ marks), _. rewrite (new_events_app _ _ _ T), app_assoc.
    split; [reflexivity|]. split.
    { apply Forall_app. split; [now apply delete_not_submit | eapply marked_not_submit; eassumption]. }
    split; [apply chain_submits|].
    intros _. eexists. split; [reflexivity | exact X].
Qed.

(** A submission among the events of a run is one of the loop: the events
    before the loop hold none. *)
Lemma locate_submission stage st pre j cmd rc out post :
  new_events st (snd (Structural.submit_jobs P stage st))
    = pre ++ EvRun (Submit j) cmd rc out :: post ->
  exists before pre' tr,
    pre = before ++ pre' /\
    Forall (fun e => is_submit e = false) before /\
    fst (chain P Structural.PIPELINE_NAME
           (self (snd (Structural.submit_jobs P stage st))) (plan stage) None tr)
      = pre' ++ EvRun (Submit j) cmd rc out :: post /\
    exn_of (fst (Structural.submit_jobs P stage st)) =
      snd (chain P Structural.PIPELINE_NAME
             (self (snd (Structural.submit_jobs P stage st))) (plan stage) None tr).
Proof.
  intros Hev.
  destruct (run_events stage st) as (before & subs & E & Hb & _ & Hc).
  rewrite E in Hev.
  destruct (split_after _ before subs pre post (EvRun (Submit j) cmd rc out) Hb
              (fun H => diff_false_true (eq_sym H)) Hev) as (pre' & Hpre & H).
  destruct Hc as (tr & Hs & Hx); [rewrite H; now destruct pre'|].
  exists before, pre', tr. rewrite <- Hs. auto.
Qed.

(** C3.  If a submission to the scheduler fails (the [qsub] command of a
    job exits with a non-zero status), the run stops there: nothing is run
    after the failed command, neither a later submission nor the same one
    again, and [submit_jobs] raises the error of the command instead of
    returning a list of submitted jobs. *)
Theorem failed_submission_aborts_run stage st pre j cmd rc out post :
  new_events st (snd (Structural.submit_jobs P stage st))
    = pre ++ EvRun (Submit j) cmd rc out :: post ->
  rc <> 0 ->
  post = [] /\
  fst (Structural.submit_jobs P stage st) = Raise (CalledProcessError rc cmd).
Proof.
  intros Hev Hrc.
  destruct (locate_submission stage st pre j cmd rc out post Hev)
    as (before & pre' & tr & _ & _ & Hc & Hx).
  destruct (chain_failure P _ _ _ _ _ _ _ _ _ _ _ Hc Hrc) as [-> Hf].
  split; [reflexivity|]. apply exn_of_Some. rewrite Hx. exact Hf.
Qed.

(** The place of a job in the fixed sequence of submissions. *)
Definition job_rank (j : Job) : nat :=
  match j with
  | GetDataJob => 0
  | ProcessDataJob => 1
  | CleanDataJob => 2
  | PutDataJob => 3
  | CheckDataJob => 4
  | NoLongerRunningJob => 5
  end.

Lemma plan_sorted stage : StronglySorted (fun a b => (job_rank a < job_rank b)%nat) (plan stage).
Proof.
  destruct stage; cbv [plan all_jobs List.filter gate Base.job_stage ProcessingStage.ge
    ProcessingStage.value Z.leb Z.compare Pos.compare Pos.compare_cont];
    repeat constructor.
Qed.

(** C4, as the code has it.  If the submission of the PROCESS_DATA job fails
    with exit status 1, the run raises the error of that command; the jobs
    for CLEAN_DATA, PUT_DATA and CHECK_DATA are not submitted, and neither
    is the job that marks the run as no longer running. *)
Theorem failed_process_submission_submits_nothing_more stage st cmd out :
  In (EvRun (Submit ProcessDataJob) cmd 1 out)
     (new_events st (snd (Structural.submit_jobs P stage st))) ->
  fst (Structural.submit_jobs P stage st) = Raise (CalledProcessError 1 cmd) /\
  ~ In CleanDataJob (submitted_jobs (new_events st (snd (Structural.submit_jobs P stage st)))) /\
  ~ In PutDataJob (submitted_jobs (new_events st (snd (Structural.submit_jobs P stage st)))) /\
  ~ In CheckDataJob (submitted_jobs (new_events st (snd (Structural.submit_jobs P stage st)))) /\
  ~ In NoLongerRunningJob
      (submitted_jobs (new_events st (snd (Structural.submit_jobs P stage st)))).
Proof.
  intros Hin. destruct (in_split _ _ Hin) as (pre & post & Hev).
  destruct (locate_submission stage st pre ProcessDataJob cmd 1 out post Hev)
    as (before & pre' & tr & Hpre & Hb & Hc & Hx).
  assert (Hrc : 1 <> 0) by discriminate.
  destruct (chain_failure P _ _ _ _ _ _ _ _ _ _ _ Hc Hrc) as [-> Hf].
  split; [apply exn_of_Some; rewrite Hx; exact Hf|].
  assert (Hjobs : forall j,
            In j (submitted_jobs (new_events st (snd (Structural.submit_jobs P stage st)))) ->
            (job_rank j <= 1)%nat).
  { intros j Hj. rewrite Hev, Hpre, <- app_assoc, !submitted_jobs_app in Hj.
    rewrite (submitted_jobs_none _ Hb) in Hj. simpl in Hj.
    destruct (chain_jobs P Structural.PIPELINE_NAME
                (self (snd (Structural.submit_jobs P stage st))) (plan stage) None tr)
      as (later & Hplan & _).
    rewrite Hc, submitted_jobs_app in Hplan. simpl in Hplan.
    pose proof (plan_sorted stage) as Hs. rewrite Hplan, <- app_assoc in Hs.
    apply in_app_or in Hj as [Hj | [<- | []]]; [|simpl; lia].
    apply Nat.lt_le_incl.
    change 1%nat with (job_rank ProcessDataJob).
    eapply (StronglySorted_app_1_elem_of _ _ _ _ _ Hs).
    - apply list_elem_of_In. exact Hj.
    - simpl. left. }
  repeat split; intros Hj; apply Hjobs in Hj; simpl in Hj; lia.
Qed.
End RunFacts.

(** ** Marking the running status *)

Section Marking.
Context (P : Platform).

(** Every submission of [evs] comes after a successful call of the command
    [cmd] that marks the running status as queued. *)
Definition marked_queued_first (cmd : string) (evs : list Event) : Prop :=
  forall pre j c rc out post,
    evs = pre ++ EvRun (Submit j) c rc out :: post ->
    exists mout, In (EvRun MarkQueued cmd 0 mout) pre.

(** C7, as the code has it.  For a requested stage above PREPARE_SCRIPTS,
    [submit_jobs] of the structural submitter marks the running status as
    queued, through the XNAT_MARK_RUNNING_STATUS command, before any job is
    submitted, and a run that returns has made that call.  For the stage
    PREPARE_SCRIPTS the command is not run at all. *)
Theorem running_status_marked_above_prepare_scripts stage st :
  (ProcessingStage.gt stage ProcessingStage.PREPARE_SCRIPTS = true ->
   marked_queued_first
     (mark_command P (self (snd (Structural.submit_jobs P stage st))))
     (new_events st (snd (Structural.submit_jobs P stage st))) /\
   forall m, fst (Structural.submit_jobs P stage st) = Ok m ->
     exists mout,
       In (EvRun MarkQueued
             (mark_command P (self (snd (Structural.submit_jobs P stage st)))) 0 mout)
          (new_events st (snd (Structural.submit_jobs P stage st)))) /\
  (ProcessingStage.gt stage ProcessingStage.PREPARE_SCRIPTS = false ->
   forall cmd rc out,
     ~ In (EvRun MarkQueued cmd rc out)
          (new_events st (snd (Structural.submit_jobs P stage st)))).
Proof.
  destruct (submit_jobs_outcome P stage st)
    as [dels e T D R | dels mrc mout G T D N R | dels marks T D S Hpin Mk X L];
    rewrite (new_events_app _ _ _ T).
  - split.
    + intros _. split.
      * intros pre j c rc out post Hev. rewrite Hev in D.
        apply Forall_app in D as [_ D]. apply Forall_cons in D as [D _]. contradiction.
      * intros m Hm. congruence.
    + intros _ cmd rc out Hin.
      exact (Forall_In _ _ _ D Hin).
  - split.
    + intros _. split.
      * intros pre j c rc out post Hev.
        destruct (split_after is_delete dels _ pre post (EvRun (Submit j) c rc out) D
                    (fun H => H) Hev) as (pre' & _ & H).
        destruct pre' as [|x pre']; simpl in H; [discriminate H|].
        inversion H. destruct pre'; discriminate.
      * intros m Hm. congruence.
    + intros G'. congruence.
  - unfold marked in Mk. split.
    + intros G. rewrite G in Mk. destruct Mk as [mout ->]. split.
      * intros pre j c rc out post Hev. rewrite app_assoc in Hev.
        assert (Hns : Forall (fun e => is_submit e = false)
                        (dels ++ [EvRun MarkQueued
                           (mark_command P (self (snd (Structural.submit_jobs P stage st)))) 0 mout])).
        { apply Forall_app. split; [now apply delete_not_submit | repeat constructor]. }
        destruct (split_after _ _ _ pre post (EvRun (Submit j) c rc out) Hns
                    (fun H => diff_false_true (eq_sym H)) Hev) as (pre' & -> & _).
        exists mout. apply in_or_app. left. apply in_or_app. right. left. reflexivity.
      * intros m _. exists mout. apply in_or_app. right. left. reflexivity.
    + intros G cmd rc out Hin. rewrite G in Mk. subst marks. simpl in Hin.
      apply in_app_or in Hin as [Hin | Hin].
      * exact (Forall_In _ _ _ D Hin).
      * pose proof (chain_submits P Structural.PIPELINE_NAME
                      (self (snd (Structural.submit_jobs P stage st))) (plan stage) None
                      (trace (world st) ++ dels ++ [])) as Hs.
        pose proof (Forall_In _ _ _ Hs Hin) as Hf. discriminate Hf.
Qed.
End Marking.

(** ** Dependencies between the submitted jobs *)

Section Wiring.
Context (P : Platform) (PN : string).

(** The name of the script of a job, as the instance of [st] gives it. *)
Definition script_at (st : State) (j : Job) : string :=
  match fst (Base.job_script_name PN j st) with
  | Ok name => name
  | Raise _ => EmptyString
  end.

Lemma script_at_eq st j : script_at st j = script_in PN (self (pin PN st)) j.
Proof. unfold script_at. now rewrite is_name_job_script_name. Qed.

Lemma script_at_pinned st j : is_pinned (self st) -> script_at st j = script_in PN (self st) j.
Proof. intros Hp. now rewrite script_at_eq, (pin_pinned PN st Hp). Qed.

(** The job number read from the output of a submission is not empty. *)
Definition job_id_nonempty (e : Event) : bool :=
  match e with
  | EvRun (Submit _) _ rc out =>
      negb (rc =? 0) || negb (String.eqb (remove_ending_new_lines P out) EmptyString)
  | _ => true
  end.

(** [wired script prior evs]: each submission of [evs] declares as its
    dependency the job number returned by the submission before it, the
    first one the job [prior], and no dependency at all when there is none. *)
Inductive wired (script : Job -> string) : option string -> list Event -> Prop :=
| wired_nil prior : wired script prior []
| wired_first j cmd rc out evs :
    cmd = "qsub " +:+ script j ->
    wired script (Some (remove_ending_new_lines P out)) evs ->
    wired script None (EvRun (Submit j) cmd rc out :: evs)
| wired_next id j cmd rc out evs :
    cmd = "qsub -W depend=" +:+ depend_mode j +:+ ":" +:+ id +:+ " " +:+ script j ->
    wired script (Some (remove_ending_new_lines P out)) evs ->
    wired script (Some id) (EvRun (Submit j) cmd rc out :: evs).

Lemma wired_ext script script' prior evs :
  (forall j, script j = script' j) -> wired script prior evs -> wired script' prior evs.
Proof.
  intros Hs H. induction H as [prior | j cmd rc out evs -> _ IH | id j cmd rc out evs -> _ IH].
  - constructor.
  - apply wired_first; [now rewrite Hs | exact IH].
  - apply wired_next; [now rewrite Hs | exact IH].
Qed.

Lemma truthy_nonempty id : id <> EmptyString -> Py.truthy (Some id) = true.
Proof. destruct id; [contradiction | reflexivity]. Qed.

Lemma wired_one script prior j rc out evs :
  (forall id, prior = Some id -> id <> EmptyString) ->
  wired script (Some (remove_ending_new_lines P out)) evs ->
  wired script prior (EvRun (Submit j) (submit_command j prior (script j)) rc out :: evs).
Proof.
  intros Hprior H. unfold submit_command. destruct prior as [id|].
  - rewrite (truthy_nonempty id (Hprior id eq_refl)). now apply wired_next.
  - now apply wired_first.
Qed.

Lemma chain_wired s jobs : forall prior tr,
  (forall id, prior = Some id -> id <> EmptyString) ->
  forallb job_id_nonempty (fst (chain P PN s jobs prior tr)) = true ->
  wired (script_in PN s) prior (fst (chain P PN s jobs prior tr)).
Proof.
  induction jobs as [|j jobs IH]; intros prior tr Hprior; [constructor|].
  rewrite chain_cons. cbv zeta.
  destruct (_ =? 0) eqn:E; cbn [fst forallb job_id_nonempty]; rewrite E; cbn [negb orb].
  - intros H. apply andb_prop in H as [Hid H].
    apply negb_true_iff, String.eqb_neq in Hid.
    apply wired_one; [exact Hprior|].
    rewrite (truthy_nonempty _ Hid) in *.
    apply IH; [|exact H]. intros id [= <-]. exact Hid.
  - intros _. apply wired_one; [exact Hprior | constructor].
Qed.
End Wiring.

Section WiringOfRuns.
Context (P : Platform).

Lemma forallb_app_true {A : Type} (f : A -> bool) (l1 l2 : list A) :
  forallb f (l1 ++ l2) = true -> forallb f l1 = true /\ forallb f l2 = true.
Proof. rewrite forallb_app. apply andb_prop. Qed.

Lemma filter_submit_app l1 l2 :
  List.filter is_submit (l1 ++ l2) = List.filter is_submit l1 ++ List.filter is_submit l2.
Proof. apply List.filter_app. Qed.

(** C2, as the code has it.  Provided every job number read from the output
    of a successful submission is not empty, the submissions of one run of
    [do_job_submissions] are wired in sequence: the first one declares no
    dependency, and each later one declares the job number returned by the
    submission before it; a run that returns has submitted the jobs of the
    requested stage and the one that marks the run as no longer running, so
    that a job after skipped stages depends on the last job submitted. *)
Theorem dependencies_follow_submissions stage st :
  forallb (job_id_nonempty P)
    (new_events st (snd (Structural.do_job_submissions P stage st))) = true ->
  wired P (script_at Structural.PIPELINE_NAME (snd (Structural.do_job_submissions P stage st)))
    None
    (List.filter is_submit (new_events st (snd (Structural.do_job_submissions P stage st)))) /\
  forall m,
    fst (Structural.do_job_submissions P stage st) = Ok m ->
    submitted_jobs (new_events st (snd (Structural.do_job_submissions P stage st)))
      = plan stage.
Proof.
  intros Hids.
  destruct (do_job_submissions_outcome P stage st (trace (world st)) [])
    as [dels e T D R | dels mrc mout G T D N R | dels marks T D S Hpin Mk X L];
    [now rewrite app_nil_r | constructor | constructor | | | ];
    rewrite (new_events_app _ _ _ T) in *.
  - rewrite (filter_submit_none _ (delete_not_submit _ D)).
    split; [constructor | congruence].
  - rewrite filter_submit_app, (filter_submit_none _ (delete_not_submit _ D)).
    split; [constructor | congruence].
  - assert (Hm : Forall (fun e => is_submit e = false) marks)
      by (eapply marked_not_submit; eassumption).
    rewrite !filter_submit_app, (filter_submit_none _ (delete_not_submit _ D)),
      (filter_submit_none _ Hm), (filter_submit_all _ (chain_submits _ _ _ _ _ _)).
    simpl. split.
    + apply (wired_ext P (script_in Structural.PIPELINE_NAME
               (self (snd (Structural.do_job_submissions P stage st))))).
      * intros j. symmetry. now apply script_at_pinned.
      * apply chain_wired; [discriminate|].
        apply forallb_app_true in Hids as [_ Hids].
        apply forallb_app_true in Hids as [_ Hids]. exact Hids.
    + intros m Hm'. rewrite !submitted_jobs_app,
        (submitted_jobs_none _ (delete_not_submit _ D)), (submitted_jobs_none _ Hm). simpl.
      destruct (chain_jobs P Structural.PIPELINE_NAME
                  (self (snd (Structural.do_job_submissions P stage st))) (plan stage) None
                  (trace (world st) ++ dels ++ marks)) as (later & Hplan & Hl).
      rewrite (exn_of_Ok _ _ Hm') in X. rewrite (Hl (eq_sym X)), app_nil_r in Hplan.
      now symmetry.
Qed.
End WiringOfRuns.

(** ** The list of submitted jobs a run returns *)

Section Manifest.
Context (P : Platform).

Lemma code_labels_spec stage x :
  x <> ProcessingStage.PREPARE_SCRIPTS ->
  (In (ProcessingStage.name x) (code_labels stage) <->
   ProcessingStage.ge stage x = true \/
   (stage = ProcessingStage.PROCESS_DATA /\ x = ProcessingStage.CLEAN_DATA)).
Proof.
  intros Hx.
  destruct stage, x; try contradiction; cbv; split; intros H;
    repeat match goal with
      | H : _ \/ _ |- _ => destruct H
      | H : _ /\ _ |- _ => destruct H
      | H : False |- _ => destruct H
      | H : _ = _ |- _ => discriminate H
      end;
    tauto.
Qed.

(** C1, as the code has it.  The list returned by [do_job_submissions] has
    an entry labelled with a stage above PREPARE_SCRIPTS exactly when the
    requested stage is at or above that stage, except that a request for
    PROCESS_DATA also yields an entry labelled CLEAN_DATA, which holds no
    job numbers; the entry of the job that marks the run as no longer
    running is always there. *)
Theorem manifest_labels stage st m st' :
  Structural.do_job_submissions P stage st = (Ok m, st') ->
  (forall x, x <> ProcessingStage.PREPARE_SCRIPTS ->
     (In (ProcessingStage.name x) (map fst m) <->
      ProcessingStage.ge stage x = true \/
      (stage = ProcessingStage.PROCESS_DATA /\ x = ProcessingStage.CLEAN_DATA))) /\
  In "Complete Running Status" (map fst m) /\
  (stage = ProcessingStage.PROCESS_DATA -> In ("CLEAN_DATA", None) m).
Proof.
  intros Hrun.
  destruct (do_job_submissions_outcome P stage st (trace (world st)) [])
    as [dels e T D R | dels mrc mout G T D N R | dels marks T D S Hpin Mk X L];
    [now rewrite app_nil_r | constructor | constructor | | | ];
    rewrite Hrun in *; simpl in *; try discriminate.
  destruct (L m eq_refl) as [Hl Hc]. rewrite Hl.
  split; [intros x Hx; now apply code_labels_spec|].
  split; [|exact Hc].
  unfold code_labels. rewrite !in_app_iff. do 5 right. now left.
Qed.
End Manifest.

(** ** The submission methods of the base class *)

Section SubmitMethods.
Context (P : Platform) (PN : string).

(** C5.  A submission method whose gate is open runs one [qsub] command.
    With a prior job, the five gated methods declare the dependency as
    [afterok], and the method that submits the job marking the run as no
    longer running declares it as [afterany]; without a prior job the
    command declares no dependency.  This holds for every requested stage
    and every value of the prior job. *)
Theorem dependency_modes j stage prior st :
  gate j stage = true ->
  exists rc out,
    new_events st (snd (Base.submit_method P PN j stage prior st)) =
      [EvRun (Submit j)
         (if Py.truthy prior
          then
            match j with
            | NoLongerRunningJob => "qsub -W depend=afterany:"
            | _ => "qsub -W depend=afterok:"
            end +:+ Py.str_value prior +:+ " " +:+ script_at PN st j
          else "qsub " +:+ script_at PN st j)
         rc out].
Proof.
  intros G. rewrite submit_method_eq, G. unfold submitted. cbn [snd].
  eexists _, _. apply new_events_app. cbn [world trace log_event]. f_equal. f_equal.
  f_equal. rewrite script_at_eq. unfold submit_command.
  destruct (Py.truthy prior); [|reflexivity]. destruct j; reflexivity.
Qed.

(** C10.  A submission method of the base class returns the pair
    [(None, None)] when its gate is closed; when its gate is open it runs
    its command, and returns a pair [(j, [j])] of the job number and the
    list that holds just it when the command exits with status 0, and raises
    otherwise.  A returned pair has no other shape. *)
Theorem submission_result_shape j stage prior st :
  let r := fst (Base.submit_method P PN j stage prior st) in
  (gate j stage = false -> r = Ok (None, None)) /\
  (gate j stage = true ->
   exists cmd,
     let rc := fst (shell P (trace (world st)) cmd) in
     let job_no := remove_ending_new_lines P (snd (shell P (trace (world st)) cmd)) in
     (rc = 0 /\ r = Ok (Some job_no, Some [job_no])) \/
     (rc <> 0 /\ r = Raise (CalledProcessError rc cmd))) /\
  (forall last all,
     r = Ok (last, all) ->
     (last = None /\ all = None /\ gate j stage = false) \/
     (exists job_no, last = Some job_no /\ all = Some [job_no] /\ gate j stage = true)).
Proof.
  cbv zeta. rewrite submit_method_eq. unfold submitted.
  destruct (gate j stage); cbn [fst].
  - split; [discriminate|]. split.
    + intros _. exists (submit_command j prior (script_in PN (self (pin PN st)) j)).
      destruct (_ =? 0) eqn:E.
      * left. split; [apply Z.eqb_eq; exact E | reflexivity].
      * right. split; [apply Z.eqb_neq; exact E | reflexivity].
    + intros last all. destruct (_ =? 0); [|discriminate].
      intros [= <- <-]. right. eauto.
  - split; [reflexivity|]. split; [discriminate|].
    intros last all [= <- <-]. left. auto.
Qed.
End SubmitMethods.

(** ** The working directory name is built once *)

Section Memo.
Context (PN : string).

(** C6.  The prefix of the working directory name is built by the first
    read and stored in the instance.  Whatever state [st] the first read of
    [working_directory_name] starts from, it yields a name made of a prefix
    and leaves that prefix in the instance; every later read by that
    instance, in any world (so whatever the clock shows by then), returns
    the same string and changes nothing, and the names of the check-data
    and mark-completion directories are built from the same prefix. *)
Theorem working_directory_name_is_memoised (st : State) (later_world : World) :
  let first := Base.working_directory_name PN st in
  let later := {| self := self (snd first); world := later_world |} in
  exists prefix,
    fst first = Ok (prefix +:+ ".XNAT_PROCESS_DATA") /\
    _working_directory_name_prefix (self (snd first)) = Some prefix /\
    Base.working_directory_name_prefix PN later = (Ok prefix, later) /\
    Base.working_directory_name PN later = (Ok (prefix +:+ ".XNAT_PROCESS_DATA"), later) /\
    Base.check_data_directory_name PN later = (Ok (prefix +:+ ".XNAT_CHECK_DATA"), later) /\
    Base.mark_completion_directory_name PN later =
      (Ok (prefix +:+ ".XNAT_MARK_COMPLETE_RUNNING_STATUS"), later).
Proof.
  destruct st as [[bh jh ld sc [p|] un pw sv pj sj ss cl cf ps wl vm ors upn] w];
    eexists; repeat split; reflexivity.
Qed.
End Memo.

(** ** Rendering of the job scripts *)

Lemma str_app_empty_r (s : string) : s +:+ EmptyString = s.
Proof.
  induction s as [|c s IH]; [reflexivity|].
  change (String c (s +:+ EmptyString) = String c s). now rewrite IH.
Qed.

Lemma str_app_assoc (a b c : string) : (a +:+ b) +:+ c = a +:+ b +:+ c.
Proof.
  induction a as [|x a IH]; [reflexivity|].
  change (String x ((a +:+ b) +:+ c) = String x (a +:+ b +:+ c)). now rewrite IH.
Qed.

Lemma set_fs_same w : set_fs (fs w) w = w.
Proof. now destruct w. Qed.

(** [emits f s m a t]: run by the instance [s] while the file [f] is being
    written, the method [m] returns [a] and adds the text [t] at the end of
    [f]; it changes nothing else. *)
Definition emits {A : Type} (f : string) (s : Submitter) (m : M A) (a : A) (t : string) : Prop :=
  forall w c mode,
    fs w !! f = Some (File c mode) ->
    m {| self := s; world := w |} =
      (Ok a, {| self := s; world := set_fs (<[f := File (c +:+ t) mode]> (fs w)) w |}).

(** [seals f s m t mode']: the same, for the end of a rendering, which
    leaves [f] with the permission bits [mode']. *)
Definition seals (f : string) (s : Submitter) (m : M unit) (t : string) (mode' : Z) : Prop :=
  forall w c mode,
    fs w !! f = Some (File c mode) ->
    m {| self := s; world := w |} =
      (Ok tt, {| self := s; world := set_fs (<[f := File (c +:+ t) mode']> (fs w)) w |}).

Section Emit.
Context (P : Platform) (PN : string) (f : string) (s : Submitter).

Lemma unchanged w c mode :
  fs w !! f = Some (File c mode) ->
  {| self := s; world := set_fs (<[f := File (c +:+ EmptyString) mode]> (fs w)) w |}
  = {| self := s; world := w |}.
Proof. intros H. now rewrite str_app_empty_r, (insert_id _ _ _ H), set_fs_same. Qed.

Lemma emits_ret {A : Type} (a : A) : emits f s (ret a) a EmptyString.
Proof. intros w c mode H. now rewrite (unchanged _ _ _ H). Qed.

Lemma emits_close : emits f s (FileObj.close f) tt EmptyString.
Proof. apply emits_ret. Qed.

Lemma emits_write text : emits f s (FileObj.write f text) tt text.
Proof.
  intros w c mode H. unfold FileObj.write, bind, get_world, put_world. cbn [world self].
  now rewrite H.
Qed.

Lemma emits_bind {A B : Type} (m : M A) (k : A -> M B) a b t1 t2 :
  emits f s m a t1 -> emits f s (k a) b t2 -> emits f s (bind m k) b (t1 +:+ t2).
Proof.
  intros Hm Hk w c mode H. unfold bind. rewrite (Hm w c mode H).
  rewrite (Hk _ (c +:+ t1) mode) by (cbn [fs set_fs]; apply lookup_insert_eq).
  cbn [fs set_fs trace clock umask]. now rewrite insert_insert_eq, str_app_assoc.
Qed.

Lemma emits_if {A : Type} (b : bool) (m1 m2 : M A) a t1 t2 :
  emits f s m1 a t1 -> emits f s m2 a t2 ->
  emits f s (if b then m1 else m2) a (if b then t1 else t2).
Proof. now destruct b. Qed.

Lemma emits_name (m : M string) :
  is_pinned s -> is_name PN m -> emits f s m (name_in m s) EmptyString.
Proof.
  intros Hp Hn w c mode H. rewrite Hn, (pin_pinned PN {| self := s; world := w |} Hp).
  cbn [self]. now rewrite (unchanged _ _ _ H).
Qed.

Lemma emits_header :
  emits f s (Base._write_bash_header P f) tt
    (wl_text P "#PBS -S /bin/bash" +:+ wl_text P EmptyString).
Proof. unfold Base._write_bash_header. eapply emits_bind; apply emits_write. Qed.

Lemma seals_chmod mode' : seals f s (Os.chmod f mode') EmptyString mode'.
Proof.
  intros w c mode H. unfold Os.chmod, bind, get_world, put_world. cbn [world self].
  now rewrite H, str_app_empty_r.
Qed.

Lemma seals_chmod_close mode' :
  seals f s (Os.chmod f mode' ;;; FileObj.close f) EmptyString mode'.
Proof.
  intros w c mode H. unfold bind. now rewrite (seals_chmod mode' w c mode H).
Qed.

Lemma seals_bind {A : Type} (m : M A) (k : A -> M unit) a t1 t2 mode' :
  emits f s m a t1 -> seals f s (k a) t2 mode' -> seals f s (bind m k) (t1 +:+ t2) mode'.
Proof.
  intros Hm Hk w c mode H. unfold bind. rewrite (Hm w c mode H).
  rewrite (Hk _ (c +:+ t1) mode) by (cbn [fs set_fs]; apply lookup_insert_eq).
  cbn [fs set_fs trace clock umask]. now rewrite insert_insert_eq, str_app_assoc.
Qed.

Lemma seals_eq m t t' mode' : seals f s m t mode' -> t = t' -> seals f s m t' mode'.
Proof. now intros H <-. Qed.
End Emit.

(** What rendering the text [text] into the file [n] does to the world
    [w]: a directory of that name makes [os.remove] fail; otherwise any
    file of that name is removed, and the new file can be opened when the
    directory it goes to is there. *)
Definition render_result (n text : string) (mode' : Z) (s : Submitter) (w : World)
  : Result unit * State :=
  match fs w !! n with
  | Some Dir => (Raise (IsADirectoryError n), {| self := s; world := w |})
  | _ =>
      let rendered :=
        (Ok tt, {| self := s; world := set_fs (<[n := File text mode']> (fs w)) w |}) in
      let removed := {| self := s; world := set_fs (delete n (fs w)) w |} in
      let parent := fst (Os.path_split n) in
      if Os.is_root_or_cwd parent then rendered
      else
        match delete n (fs w) !! parent with
        | Some Dir => rendered
        | Some (File _ _) => (Raise (NotADirectoryError n), removed)
        | None => (Raise (FileNotFoundError n), removed)
        end
  end.

Section Render.
Context (PN : string) (s : Submitter).

Lemma remove_suppressed n w :
  suppress_FileNotFoundError (Os.remove n) {| self := s; world := w |} =
    match fs w !! n with
    | Some Dir => (Raise (IsADirectoryError n), {| self := s; world := w |})
    | _ => (Ok tt, {| self := s; world := set_fs (delete n (fs w)) w |})
    end.
Proof.
  unfold suppress_FileNotFoundError, Os.remove, bind, get_world, put_world, raise.
  cbn [world self]. destruct (fs w !! n) as [[c mode|]|] eqn:E; try reflexivity.
  now rewrite (delete_id _ _ E), set_fs_same.
Qed.

Lemma open_then_seal n (k : string -> M unit) text mode' w :
  seals n s (k n) text mode' ->
  fs w !! n = None ->
  (script <- FileObj.open_w n ;; k script) {| self := s; world := w |} =
    let rendered :=
      (Ok tt, {| self := s; world := set_fs (<[n := File text mode']> (fs w)) w |}) in
    let parent := fst (Os.path_split n) in
    if Os.is_root_or_cwd parent then rendered
    else
      match fs w !! parent with
      | Some Dir => rendered
      | Some (File _ _) => (Raise (NotADirectoryError n), {| self := s; world := w |})
      | None => (Raise (FileNotFoundError n), {| self := s; world := w |})
      end.
Proof.
  intros Hk E. cbv zeta.
  assert (Hopen : forall mode0,
    k n {| self := s; world := set_fs (<[n := File EmptyString mode0]> (fs w)) w |} =
      (Ok tt, {| self := s; world := set_fs (<[n := File text mode']> (fs w)) w |})).
  { intros mode0. rewrite (Hk _ EmptyString mode0) by (cbn [fs set_fs]; apply lookup_insert_eq).
    cbn [fs set_fs trace clock umask]. now rewrite insert_insert_eq. }
  unfold bind at 1, FileObj.open_w, bind, get_world, put_world, raise, ret.
  cbn [world self]. rewrite E.
  destruct (Os.is_root_or_cwd (Os.path_split n).1); [apply Hopen|].
  destruct (fs w !! (Os.path_split n).1) as [[c mode|]|]; try reflexivity. apply Hopen.
Qed.

Lemma render_shape n (k : string -> M unit) text mode' :
  seals n s (k n) text mode' ->
  forall w,
    (suppress_FileNotFoundError (Os.remove n) ;;; script <- FileObj.open_w n ;; k script)
      {| self := s; world := w |} = render_result n text mode' s w.
Proof.
  intros Hk w. unfold bind at 1. rewrite remove_suppressed. unfold render_result.
  destruct (fs w !! n) as [[c mode|]|] eqn:E; try reflexivity.
  - rewrite (open_then_seal n k text mode' _ Hk) by (cbn [fs set_fs]; apply lookup_delete_eq).
    cbn [fs set_fs trace clock umask]. rewrite insert_delete_eq.
    destruct (Os.is_root_or_cwd _); [reflexivity|].
    destruct (delete n (fs w) !! _) as [[c' mode1|]|]; reflexivity.
  - rewrite (open_then_seal n k text mode' _ Hk) by (cbn [fs set_fs]; apply lookup_delete_eq).
    cbn [fs set_fs trace clock umask]. rewrite insert_delete_eq.
    destruct (Os.is_root_or_cwd _); [reflexivity|].
    destruct (delete n (fs w) !! _) as [[c' mode1|]|]; reflexivity.
Qed.

(** The shape the rendering methods share. *)
Lemma script_shape (nm : M string) (B : Submitter -> string -> string -> M unit) text mode' :
  is_pinned s -> is_name PN nm ->
  seals (name_in nm s) s (B s (name_in nm s) (name_in nm s)) text mode' ->
  forall w,
    (s0 <- get_self ;; n <- nm ;;
     suppress_FileNotFoundError (Os.remove n) ;;; script <- FileObj.open_w n ;; B s0 n script)
      {| self := s; world := w |} = render_result (name_in nm s) text mode' s w.
Proof.
  intros Hp Hn Hk w. unfold bind at 1, get_self. cbn [self].
  unfold bind at 1. rewrite Hn, (pin_pinned PN {| self := s; world := w |} Hp). cbn [self].
  apply (render_shape _ (B s (name_in nm s))). exact Hk.
Qed.

Lemma bind_name {A : Type} (nm : M string) (k : string -> M A) w :
  is_pinned s -> is_name PN nm ->
  bind nm k {| self := s; world := w |} = k (name_in nm s) {| self := s; world := w |}.
Proof.
  intros Hp Hn. unfold bind. now rewrite Hn, (pin_pinned PN {| self := s; world := w |} Hp).
Qed.
End Render.

(** The text a sequence of writes adds to the script, read off the code. *)
Ltac emit Hp :=
  lazymatch goal with
  | |- emits _ _ (FileObj.write _ _) _ _ => apply emits_write
  | |- emits _ _ (Base._write_bash_header _ _) _ _ => apply emits_header
  | |- emits _ _ (FileObj.close _) _ _ => apply emits_close
  | |- emits _ _ (ret _) _ _ => apply emits_ret
  | |- emits _ _ (if _ then _ else _) _ _ => apply emits_if; emit Hp
  | |- emits _ _ (bind _ _) _ _ => eapply emits_bind; [emit Hp | cbv beta; emit Hp]
  | |- emits _ _ (Base.working_directory_name ?PN) _ _ =>
      apply (emits_name PN); [exact Hp | apply is_name_working_directory_name]
  | |- emits _ _ (Structural.working_directory_name) _ _ =>
      apply (emits_name Structural.PIPELINE_NAME);
      [exact Hp | apply is_name_working_directory_name]
  | |- emits _ _ (Base.check_data_directory_name ?PN) _ _ =>
      apply (emits_name PN); [exact Hp | apply is_name_check_data_directory_name]
  | |- emits _ _ (Base.mark_completion_directory_name ?PN) _ _ =>
      apply (emits_name PN); [exact Hp | apply is_name_mark_completion_directory_name]
  end.

Ltac seal Hp :=
  lazymatch goal with
  | |- seals _ _ (Os.chmod _ _) _ _ => apply seals_chmod
  | |- seals _ _ (bind (Os.chmod _ _) (fun _ => FileObj.close _)) _ _ => apply seals_chmod_close
  | |- seals _ _ (bind _ _) _ _ => eapply seals_bind; [emit Hp | cbv beta; seal Hp]
  end.

(** A method that reads the instance, then a name, and goes on without
    looking at the stored prefix behaves the same once the prefix is
    stored. *)
Lemma script_pin_gen PN (nm : M string) {A : Type} (K : Submitter -> string -> M A) :
  is_name PN nm ->
  (forall s0 v n, K (set_working_directory_name_prefix v s0) n = K s0 n) ->
  forall st,
    (s0 <- get_self ;; n <- nm ;; K s0 n) st = (s0 <- get_self ;; n <- nm ;; K s0 n) (pin PN st).
Proof.
  intros Hn HK st. unfold bind at 1 3, get_self. cbn [self].
  unfold bind. rewrite !Hn, pin_idem.
  destruct (keeps_pin PN st) as [-> | [_ [p ->]]]; [reflexivity|].
  now rewrite HK.
Qed.

Lemma render_result_ok n text mode' s w :
  fst (render_result n text mode' s w) = Ok tt ->
  fs w !! n <> Some Dir /\
  render_result n text mode' s w =
    (Ok tt, {| self := s; world := set_fs (<[n := File text mode']> (fs w)) w |}).
Proof.
  unfold render_result.
  destruct (fs w !! n) as [[c mode|]|]; cbv zeta;
    destruct (Os.is_root_or_cwd (Os.path_split n).1);
    destruct (delete n (fs w) !! (Os.path_split n).1) as [[c1 mode1|]|];
    cbn [fst]; intros H; try discriminate H; split; congruence.
Qed.

(** Rendering does not look at the file it replaces. *)
Lemma render_over_file n text mode' s w c0 mode0 :
  fs w !! n <> Some Dir ->
  render_result n text mode' s (set_fs (<[n := File c0 mode0]> (fs w)) w) =
  render_result n text mode' s w.
Proof.
  intros Hn. unfold render_result. cbn [fs set_fs].
  rewrite lookup_insert_eq, delete_insert_eq, insert_insert_eq.
  destruct (fs w !! n) as [[c mode|]|]; [reflexivity | contradiction | reflexivity].
Qed.

Lemma pin_set_fs PN s w f :
  pin PN {| self := s; world := set_fs f w |} =
    {| self := self (pin PN {| self := s; world := w |}); world := set_fs f w |}.
Proof.
  destruct s as [bh jh ld sc [p|] un pw sv pj sj ss cl cf ps wl vm ors upn]; reflexivity.
Qed.

Lemma pin_eta PN st : pin PN st = {| self := self (pin PN st); world := world st |}.
Proof. apply state_eta; [reflexivity | apply world_pin]. Qed.

(** [replaces_file m path]: a run of [m] that returns leaves a file at
    [path] with the permission bits of a script; the run does not depend
    on what that file held before, and a second run changes nothing. *)
Definition replaces_file (m : M unit) (path : State -> string) : Prop :=
  forall st,
    fst (m st) = Ok tt ->
    (exists text,
       fs (world (snd (m st))) !! path st = Some (File text (Z.lor Py.S_IRWXU Py.S_IRWXG))) /\
    (forall c0 mode0,
       m {| self := self st;
            world := set_fs (<[path st := File c0 mode0]> (fs (world st))) (world st) |} = m st) /\
    m (snd (m st)) = m st.

Lemma replaces_file_ext (m : M unit) (path path' : State -> string) :
  (forall st, path' st = path st) -> replaces_file m path -> replaces_file m path'.
Proof. intros E H st. rewrite E. apply H. Qed.

Lemma simple_script_replaces PN (m : M unit) (nm : M string) :
  is_name PN nm ->
  (forall st, m st = m (pin PN st)) ->
  (forall s, is_pinned s -> exists text, forall w,
      m {| self := s; world := w |} =
        render_result (name_in nm s) text (Z.lor Py.S_IRWXU Py.S_IRWXG) s w) ->
  replaces_file m (fun st => name_in nm (self (pin PN st))).
Proof.
  intros Hn Hpin Hren st. cbv beta.
  destruct (Hren (self (pin PN st)) (is_pinned_pin PN st)) as [text Ht].
  assert (Hm : m st = render_result (name_in nm (self (pin PN st))) text
                        (Z.lor Py.S_IRWXU Py.S_IRWXG) (self (pin PN st)) (world st)).
  { rewrite Hpin, (pin_eta PN st) at 1. apply Ht. }
  rewrite Hm. intros Hok. apply render_result_ok in Hok as [Hdir Hr].
  rewrite Hr. cbn [snd world fs set_fs]. split; [|split].
  - eexists. apply lookup_insert_eq.
  - intros c0 mode0. rewrite Hpin.
    rewrite (state_eta st _ _ eq_refl eq_refl) at 1. cbn [self world].
    rewrite pin_set_fs. rewrite <- (state_eta st _ _ eq_refl eq_refl).
    rewrite Ht, render_over_file by exact Hdir. exact Hr.
  - rewrite Ht, render_over_file by exact Hdir. exact Hr.
Qed.

(** The rendering methods of the base class, and the one the structural
    submitter overrides, have that shape. *)
Section SimpleScripts.
Context (P : Platform) (PN : string).

Ltac pin_script nm Hn :=
  apply (script_pin_gen _ nm); [exact Hn | intros s0 v n; reflexivity].

Ltac render_script nm Hn Hp :=
  eexists; eapply (script_shape _ _ nm); [exact Hp | exact Hn | cbv beta; seal Hp].

Lemma get_data_job_script_replaces :
  replaces_file (Base.create_get_data_job_script P PN)
    (fun st => name_in (Base.get_data_job_script_name PN) (self (pin PN st))).
Proof.
  apply simple_script_replaces.
  - exact (is_name_job_script_name PN GetDataJob).
  - intros st. unfold Base.create_get_data_job_script.
    pin_script (Base.get_data_job_script_name PN) (is_name_job_script_name PN GetDataJob).
  - intros s Hp. unfold Base.create_get_data_job_script.
    render_script (Base.get_data_job_script_name PN) (is_name_job_script_name PN GetDataJob) Hp.
Qed.

Lemma put_data_script_replaces :
  replaces_file (Base.create_put_data_script P PN)
    (fun st => name_in (Base.put_data_script_name PN) (self (pin PN st))).
Proof.
  apply simple_script_replaces.
  - exact (is_name_job_script_name PN PutDataJob).
  - intros st. unfold Base.create_put_data_script.
    pin_script (Base.put_data_script_name PN) (is_name_job_script_name PN PutDataJob).
  - intros s Hp. unfold Base.create_put_data_script.
    render_script (Base.put_data_script_name PN) (is_name_job_script_name PN PutDataJob) Hp.
Qed.

Lemma clean_data_script_replaces :
  replaces_file (Base.create_clean_data_script P PN)
    (fun st => name_in (Base.clean_data_script_name PN) (self (pin PN st))).
Proof.
  apply simple_script_replaces.
  - exact (is_name_job_script_name PN CleanDataJob).
  - intros st. unfold Base.create_clean_data_script.
    pin_script (Base.clean_data_script_name PN) (is_name_job_script_name PN CleanDataJob).
  - intros s Hp. unfold Base.create_clean_data_script.
    render_script (Base.clean_data_script_name PN) (is_name_job_script_name PN CleanDataJob) Hp.
Qed.

Lemma check_data_job_script_replaces :
  replaces_file (Base.create_check_data_job_script P PN)
    (fun st => name_in (Base.check_data_job_script_name PN) (self (pin PN st))).
Proof.
  apply simple_script_replaces.
  - exact (is_name_job_script_name PN CheckDataJob).
  - intros st. unfold Base.create_check_data_job_script.
    pin_script (Base.check_data_job_script_name PN) (is_name_job_script_name PN CheckDataJob).
  - intros s Hp. unfold Base.create_check_data_job_script.
    render_script (Base.check_data_job_script_name PN) (is_name_job_script_name PN CheckDataJob) Hp.
Qed.

Lemma mark_no_longer_running_script_replaces :
  replaces_file (Base.create_mark_no_longer_running_script P PN)
    (fun st => name_in (Base.mark_no_longer_running_script_name PN) (self (pin PN st))).
Proof.
  apply simple_script_replaces.
  - exact (is_name_job_script_name PN NoLongerRunningJob).
  - intros st. unfold Base.create_mark_no_longer_running_script.
    pin_script (Base.mark_no_longer_running_script_name PN)
      (is_name_job_script_name PN NoLongerRunningJob).
  - intros s Hp. unfold Base.create_mark_no_longer_running_script.
    render_script (Base.mark_no_longer_running_script_name PN)
      (is_name_job_script_name PN NoLongerRunningJob) Hp.
Qed.

Lemma structural_get_data_job_script_replaces :
  replaces_file (Structural.create_get_data_job_script P)
    (fun st => name_in Structural.get_data_job_script_name
                 (self (pin Structural.PIPELINE_NAME st))).
Proof.
  apply simple_script_replaces.
  - exact (is_name_job_script_name Structural.PIPELINE_NAME GetDataJob).
  - intros st. unfold Structural.create_get_data_job_script.
    pin_script Structural.get_data_job_script_name
      (is_name_job_script_name Structural.PIPELINE_NAME GetDataJob).
  - intros s Hp. unfold Structural.create_get_data_job_script.
    render_script Structural.get_data_job_script_name
      (is_name_job_script_name Structural.PIPELINE_NAME GetDataJob) Hp.
Qed.
End SimpleScripts.

(** *** The script that processes the data *)

(** The world once the directory [p] has been made if it was not there,
    as [os.path.exists] and [os.mkdir] do it. *)
Definition prepared (p : string) (w : World) : Result unit * World :=
  if Os.path_exists (fs w) p then (Ok tt, w)
  else
    let made := (Ok tt, set_fs (<[p := Dir]> (fs w)) w) in
    let parent := fst (Os.path_split p) in
    if Os.is_root_or_cwd parent then made
    else
      match fs w !! parent with
      | Some Dir => made
      | Some (File _ _) => (Raise (NotADirectoryError p), w)
      | None => (Raise (FileNotFoundError p), w)
      end.

Lemma path_exists_insert f p n x :
  Os.path_exists f p = true -> Os.path_exists (<[n := x]> f) p = true.
Proof.
  unfold Os.path_exists. intros H. apply orb_true_iff in H as [H | H].
  - now rewrite H.
  - apply orb_true_iff. right. apply bool_decide_eq_true in H. apply bool_decide_eq_true.
    destruct (decide (n = p)) as [-> | Hne].
    + rewrite lookup_insert_eq. eauto.
    + now rewrite lookup_insert_ne.
Qed.

Lemma path_exists_insert_ne f p n x :
  n <> p -> Os.path_exists (<[n := x]> f) p = Os.path_exists f p.
Proof. intros Hne. unfold Os.path_exists. now rewrite lookup_insert_ne. Qed.

Lemma path_exists_insert_eq f p x : Os.path_exists (<[p := x]> f) p = true.
Proof.
  unfold Os.path_exists. apply orb_true_iff. right. apply bool_decide_eq_true.
  rewrite lookup_insert_eq. eauto.
Qed.

Section Prepared.
Context (PN : string) (s : Submitter) (Hp : is_pinned s).

Lemma prepare_then {A : Type} (p : string) (k : M A) w :
  (present <- Os.exists_ p ;; (if negb present then Os.mkdir p else ret tt) ;;; k)
    {| self := s; world := w |} =
    match prepared p w with
    | (Ok _, w') => k {| self := s; world := w' |}
    | (Raise e, w') => (Raise e, {| self := s; world := w' |})
    end.
Proof.
  unfold prepared, bind at 1, Os.exists_, bind at 1, get_world, ret. cbn [world self].
  destruct (Os.path_exists (fs w) p) eqn:E; cbn [negb]; [reflexivity|].
  unfold bind, Os.mkdir, bind, get_world, put_world, raise. cbn [world self]. rewrite E.
  destruct (Os.is_root_or_cwd (Os.path_split p).1); [reflexivity|].
  destruct (fs w !! (Os.path_split p).1) as [[c mode|]|]; reflexivity.
Qed.

Lemma render_after_names n (wdn : M string) (k : string -> string -> string -> M unit)
    text mode' :
  is_name PN wdn ->
  seals n s (k (name_in wdn s) (name_in wdn s) n) text mode' ->
  forall w,
    (suppress_FileNotFoundError (Os.remove n) ;;;
     wd1 <- wdn ;; wd2 <- wdn ;; script <- FileObj.open_w n ;; k wd1 wd2 script)
      {| self := s; world := w |} = render_result n text mode' s w.
Proof.
  intros Hn Hk w.
  rewrite <- (render_shape s n (k (name_in wdn s) (name_in wdn s)) text mode' Hk).
  unfold bind at 1 5. rewrite remove_suppressed.
  destruct (fs w !! n) as [[c mode|]|]; try reflexivity;
    now do 2 rewrite (bind_name PN s wdn) by assumption.
Qed.

(** The shape of the rendering of the script that processes the data. *)
Lemma process_shape (wdn nm : M string) (scr : Submitter -> string)
    (B : Submitter -> string -> string -> string -> string -> string -> M unit) text mode' :
  is_name PN wdn -> is_name PN nm ->
  seals (name_in nm s) s
    (B s (name_in wdn s) (name_in nm s) (name_in wdn s) (name_in wdn s) (name_in nm s))
    text mode' ->
  forall w,
    (s0 <- get_self ;; wd <- wdn ;; present <- Os.exists_ (scr s0) ;;
     (if negb present then Os.mkdir (scr s0) else ret tt) ;;;
     n <- nm ;; suppress_FileNotFoundError (Os.remove n) ;;;
     wd1 <- wdn ;; wd2 <- wdn ;; script <- FileObj.open_w n ;; B s0 wd n wd1 wd2 script)
      {| self := s; world := w |} =
    match prepared (scr s) w with
    | (Ok _, w') => render_result (name_in nm s) text mode' s w'
    | (Raise e, w') => (Raise e, {| self := s; world := w' |})
    end.
Proof.
  intros Hw Hn Hk w. unfold bind at 1, get_self. cbn [self].
  rewrite (bind_name PN s wdn _ w Hp Hw), prepare_then.
  destruct (prepared (scr s) w) as [[[]|e] w']; [|reflexivity].
  rewrite (bind_name PN s nm _ w' Hp Hn).
  apply (render_after_names _ wdn
           (fun wd1 wd2 script => B s (name_in wdn s) (name_in nm s) wd1 wd2 script));
    assumption.
Qed.
End Prepared.

Section ProcessScript.
Context (P : Platform).

Definition scratch_processing_dir (s : Submitter) : string :=
  Structural._SCRATCH_PROCESSING_DIR P +:+ Py.os_sep +:+ _project s.

Lemma process_script_pin st :
  Structural.create_process_data_job_script P st =
  Structural.create_process_data_job_script P (pin Structural.PIPELINE_NAME st).
Proof.
  unfold Structural.create_process_data_job_script.
  apply (script_pin_gen Structural.PIPELINE_NAME Structural.working_directory_name).
  - apply is_name_working_directory_name.
  - intros s0 v n; reflexivity.
Qed.

Lemma process_script_renders s :
  is_pinned s ->
  exists text, forall w,
    Structural.create_process_data_job_script P {| self := s; world := w |} =
      match prepared (scratch_processing_dir s) w with
      | (Ok _, w') =>
          render_result (name_in Structural.process_data_job_script_name s) text
            (Z.lor Py.S_IRWXU Py.S_IRWXG) s w'
      | (Raise e, w') => (Raise e, {| self := s; world := w' |})
      end.
Proof.
  intros Hp. eexists. unfold Structural.create_process_data_job_script. cbv zeta.
  eapply (process_shape Structural.PIPELINE_NAME s Hp Structural.working_directory_name
            Structural.process_data_job_script_name scratch_processing_dir).
  - apply is_name_working_directory_name.
  - exact (is_name_job_script_name Structural.PIPELINE_NAME ProcessDataJob).
  - cbv beta. seal Hp.
Qed.
End ProcessScript.

(** How the directory [p] came to be there. *)
Lemma prepared_ok p w w' :
  prepared p w = (Ok tt, w') ->
  (Os.path_exists (fs w) p = true /\ w' = w) \/
  (Os.path_exists (fs w) p = false /\
   w' = set_fs (<[p := Dir]> (fs w)) w /\
   (Os.is_root_or_cwd (fst (Os.path_split p)) = true \/
    fs w !! fst (Os.path_split p) = Some Dir)).
Proof.
  unfold prepared. destruct (Os.path_exists (fs w) p) eqn:E.
  - intros [= <-]. auto.
  - cbv zeta. destruct (Os.is_root_or_cwd (Os.path_split p).1) eqn:R.
    + intros [= <-]. right. auto.
    + destruct (fs w !! (Os.path_split p).1) as [[c mode|]|] eqn:L; intros H;
        try discriminate H.
      injection H as <-. right. auto.
Qed.

Lemma prepared_exists p w w' :
  prepared p w = (Ok tt, w') -> Os.path_exists (fs w') p = true.
Proof.
  intros H. destruct (prepared_ok p w w' H) as [[E ->] | (_ & -> & _)]; [exact E|].
  apply path_exists_insert_eq.
Qed.

Lemma prepared_there p w : Os.path_exists (fs w) p = true -> prepared p w = (Ok tt, w).
Proof. intros E. unfold prepared. now rewrite E. Qed.

(** Making the directory does not depend on a file [n] that is replaced
    later, when [n] is no directory afterwards. *)
Lemma prepared_over_file p n c0 mode0 w w' :
  prepared p w = (Ok tt, w') ->
  fs w' !! n <> Some Dir ->
  prepared p (set_fs (<[n := File c0 mode0]> (fs w)) w) =
    (Ok tt, set_fs (<[n := File c0 mode0]> (fs w')) w').
Proof.
  intros Hprep Hdir. destruct (prepared_ok p w w' Hprep) as [[E ->] | (E & -> & Hpar)].
  - apply prepared_there. cbn [fs set_fs]. now apply path_exists_insert.
  - cbn [fs set_fs] in Hdir.
    assert (Hne : n <> p) by (intros ->; apply Hdir, lookup_insert_eq).
    rewrite lookup_insert_ne in Hdir by congruence.
    unfold prepared. cbn [fs set_fs]. rewrite (path_exists_insert_ne _ _ _ _ Hne), E.
    cbv zeta. rewrite (insert_insert_ne _ n p) by exact Hne.
    destruct Hpar as [-> | Hpar]; [reflexivity|].
    destruct (Os.is_root_or_cwd (Os.path_split p).1); [reflexivity|].
    rewrite lookup_insert_ne by (intros ->; contradiction).
    now rewrite Hpar.
Qed.

Section ProcessReplaces.
Context (P : Platform).

Lemma process_data_job_script_replaces :
  replaces_file (Structural.create_process_data_job_script P)
    (fun st => name_in Structural.process_data_job_script_name
                 (self (pin Structural.PIPELINE_NAME st))).
Proof.
  intros st. cbv beta.
  set (PN := Structural.PIPELINE_NAME).
  set (s := self (pin PN st)).
  set (n := name_in Structural.process_data_job_script_name s).
  destruct (process_script_renders P s (is_pinned_pin PN st)) as [text Ht]. fold n in Ht.
  assert (Hm : Structural.create_process_data_job_script P st =
               Structural.create_process_data_job_script P {| self := s; world := world st |}).
  { rewrite process_script_pin. fold PN. now rewrite (pin_eta PN st) at 1. }
  rewrite Hm, Ht.
  destruct (prepared (scratch_processing_dir P s) (world st)) as [[[]|e] w'] eqn:Hprep;
    [|discriminate].
  intros Hok. apply render_result_ok in Hok as [Hdir Hr].
  rewrite Hr. cbn [snd world fs set_fs]. split; [|split].
  - eexists. apply lookup_insert_eq.
  - intros c0 mode0. rewrite process_script_pin. fold PN.
    rewrite (state_eta st _ _ eq_refl eq_refl) at 1. cbn [self world].
    rewrite pin_set_fs. rewrite <- (state_eta st _ _ eq_refl eq_refl). fold s.
    rewrite Ht, (prepared_over_file _ _ _ _ _ _ Hprep Hdir).
    rewrite render_over_file by exact Hdir. exact Hr.
  - rewrite Ht, prepared_there.
    + rewrite render_over_file by exact Hdir. exact Hr.
    + cbn [fs set_fs]. apply path_exists_insert. eapply prepared_exists, Hprep.
Qed.
End ProcessReplaces.

(** *** Every rendering replaces its script *)

(** The rendering methods: the five of the base class, and the two the
    structural submitter defines itself. *)
Inductive Script : Set :=
| GetDataScript
| PutDataScript
| CleanDataScript
| CheckDataScript
| MarkNoLongerRunningScript
| StructuralGetDataScript
| StructuralProcessDataScript.

Definition create_script (P : Platform) (PN : string) (k : Script) : M unit :=
  match k with
  | GetDataScript => Base.create_get_data_job_script P PN
  | PutDataScript => Base.create_put_data_script P PN
  | CleanDataScript => Base.create_clean_data_script P PN
  | CheckDataScript => Base.create_check_data_job_script P PN
  | MarkNoLongerRunningScript => Base.create_mark_no_longer_running_script P PN
  | StructuralGetDataScript => Structural.create_get_data_job_script P
  | StructuralProcessDataScript => Structural.create_process_data_job_script P
  end.

(** The name of the file a rendering method writes, as the instance of
    [st] gives it. *)
Definition script_file (PN : string) (k : Script) (st : State) : string :=
  match k with
  | GetDataScript => script_at PN st GetDataJob
  | PutDataScript => script_at PN st PutDataJob
  | CleanDataScript => script_at PN st CleanDataJob
  | CheckDataScript => script_at PN st CheckDataJob
  | MarkNoLongerRunningScript => script_at PN st NoLongerRunningJob
  | StructuralGetDataScript => script_at Structural.PIPELINE_NAME st GetDataJob
  | StructuralProcessDataScript => script_at Structural.PIPELINE_NAME st ProcessDataJob
  end.

Section Replaces.
Context (P : Platform) (PN : string).

Lemma create_script_replaces k : replaces_file (create_script P PN k) (script_file PN k).
Proof.
  destruct k; cbn [create_script];
    (eapply replaces_file_ext; [intros st; cbn [script_file]; apply script_at_eq|]).
  - apply get_data_job_script_replaces.
  - apply put_data_script_replaces.
  - apply clean_data_script_replaces.
  - apply check_data_job_script_replaces.
  - apply mark_no_longer_running_script_replaces.
  - apply structural_get_data_job_script_replaces.
  - apply process_data_job_script_replaces.
Qed.

(** C8.  Rendering a script replaces the file of its name.  For each
    rendering method of the base class and of the structural submitter, and
    for every state, a rendering that returns leaves at the name of the
    script a file with the permission bits [S_IRWXU | S_IRWXG]; what the
    file of that name held before makes no difference at all to the
    outcome, so nothing of it is kept or added to; and rendering the script
    a second time gives the same result and the same state as rendering it
    once. *)
Theorem script_rendering_replaces_the_file (k : Script) (st : State) :
  let render := create_script P PN k in
  let path := script_file PN k st in
  fst (render st) = Ok tt ->
  (exists text,
     fs (world (snd (render st))) !! path = Some (File text (Z.lor Py.S_IRWXU Py.S_IRWXG))) /\
  (forall c0 mode0,
     render {| self := self st;
               world := set_fs (<[path := File c0 mode0]> (fs (world st))) (world st) |}
     = render st) /\
  render (snd (render st)) = render st.
Proof. cbv zeta. apply (create_script_replaces k). Qed.
End Replaces.

(** *** The lines of the PUT script that depend on the scan *)

(** Cutting a text in front of one of its parts. *)
(** The text of a script written piece by piece. *)
Fixpoint script_text (pieces : list string) : string :=
  match pieces with
  | [] => EmptyString
  | piece :: rest => piece +:+ script_text rest
  end.

(** [piece.startswith(pre)]. *)
Definition starts_with (pre piece : string) : bool :=
  match Py.strip_prefix pre piece with
  | Some _ => true
  | None => false
  end.

Section PutScript.
Context (P : Platform) (PN : string).

(** The pieces [create_put_data_script] writes before it looks at the
    scan, one for each call of [script.write]; [wd] is the working
    directory name. *)
Definition put_data_script_head (s : Submitter) (wd : string) : list string :=
  [ "#PBS -l nodes=1:ppn=1,walltime=4:00:00,mem=12gb" +:+ Py.os_linesep;
    "#PBS -o " +:+ _log_dir s +:+ Py.os_linesep;
    "#PBS -e " +:+ _log_dir s +:+ Py.os_linesep;
    Py.os_linesep;
    "source " +:+ Base._get_xnat_pbs_setup_script_path P +:+ " " +:+ Base._get_db_name P
      +:+ Py.os_linesep;
    "module load " +:+ Base._get_xnat_pbs_setup_script_singularity_version P +:+ Py.os_linesep;
    Py.os_linesep;
    "mv " +:+ wd +:+ Py.os_sep +:+ "*" +:+ PN +:+ "* " +:+ wd +:+ Py.os_sep +:+ _subject s
      +:+ "_" +:+ _classifier s +:+ Py.os_sep +:+ "ProcessingInfo" +:+ Py.os_linesep;
    Py.os_linesep;
    "singularity exec -B " +:+ Base._get_xnat_pbs_setup_script_archive_root P +:+ ","
      +:+ Base._get_xnat_pbs_setup_script_singularity_bind_path P +:+ " "
      +:+ Base._get_xnat_pbs_setup_script_singularity_container_xnat_path P +:+ " "
      +:+ _xnat_pbs_jobs_home s +:+ Py.os_sep +:+ "WorkingDirPut" +:+ Py.os_sep
      +:+ "XNAT_working_dir_put.sh \" +:+ Py.os_linesep;
    "  --leave-subject-id-level \" +:+ Py.os_linesep;
    "  --user=" +:+ Py.dq +:+ _username s +:+ Py.dq +:+ " \" +:+ Py.os_linesep;
    "  --password=" +:+ Py.dq +:+ _password s +:+ Py.dq +:+ " \" +:+ Py.os_linesep;
    "  --server=" +:+ Py.dq +:+ get_server_name P (_put_server s) +:+ Py.dq +:+ " \"
      +:+ Py.os_linesep;
    "  --project=" +:+ Py.dq +:+ _project s +:+ Py.dq +:+ " \" +:+ Py.os_linesep;
    "  --subject=" +:+ Py.dq +:+ _subject s +:+ Py.dq +:+ " \" +:+ Py.os_linesep;
    "  --session=" +:+ Py.dq +:+ _session s +:+ Py.dq +:+ " \" +:+ Py.os_linesep;
    "  --working-dir=" +:+ Py.dq +:+ wd +:+ Py.dq +:+ " \" +:+ Py.os_linesep ].

(** The piece it writes after the resource lines. *)
Definition put_data_script_tail : list string :=
  [ "  --reason=" +:+ Py.dq +:+ PN +:+ Py.dq +:+ Py.os_linesep ].

Lemma put_data_script_head_set_prefix v s wd :
  put_data_script_head (set_working_directory_name_prefix v s) wd = put_data_script_head s wd.
Proof. destruct s; reflexivity. Qed.

Lemma put_data_script_renders s :
  is_pinned s ->
  forall w,
    Base.create_put_data_script P PN {| self := s; world := w |} =
      render_result (script_in PN s PutDataJob)
        (script_text
           (put_data_script_head s (name_in (Base.working_directory_name PN) s) ++
            (if Py.truthy (_scan s)
             then
               [ "  --scan=" +:+ Py.dq +:+ Py.str_value (_scan s) +:+ Py.dq +:+ " \"
                   +:+ Py.os_linesep;
                 "  --resource-suffix=" +:+ Py.dq +:+ _output_resource_suffix s +:+ Py.dq
                   +:+ " \" +:+ Py.os_linesep ]
             else
               [ "  --resource-suffix=" +:+ Py.dq +:+ Base.output_resource_name s +:+ Py.dq
                   +:+ " \" +:+ Py.os_linesep ]) ++
            put_data_script_tail))
        (Z.lor Py.S_IRWXU Py.S_IRWXG) s w.
Proof.
  intros Hp. unfold Base.create_put_data_script.
  eapply (script_shape PN _ (Base.put_data_script_name PN)).
  - exact Hp.
  - exact (is_name_job_script_name PN PutDataJob).
  - cbv beta. eapply seals_eq; [seal Hp|].
    destruct (Py.truthy (_scan s));
      cbn [put_data_script_head put_data_script_tail script_text app];
      rewrite ?str_app_assoc; reflexivity.
Qed.

Lemma put_data_script_pin st :
  Base.create_put_data_script P PN st = Base.create_put_data_script P PN (pin PN st).
Proof.
  unfold Base.create_put_data_script.
  apply (script_pin_gen PN (Base.put_data_script_name PN)).
  - exact (is_name_job_script_name PN PutDataJob).
  - intros s0 v n; reflexivity.
Qed.

Lemma no_scan_piece_in_head_and_tail s wd :
  Forall (fun piece =>
            starts_with "  --scan=" piece = false /\
            starts_with "  --resource-suffix=" piece = false)
    (put_data_script_head s wd ++ put_data_script_tail).
Proof. repeat constructor. Qed.

(** C9.  The PUT script depends on the scan through its resource lines
    only.  Whatever the state, a rendering that returns leaves as the script
    the pieces written before the scan is looked at, then the resource lines,
    then the piece written after them, each piece being what one call of
    [script.write] writes.  With a scan (a non-empty string) the resource
    lines are a [--scan] line with its value and a [--resource-suffix] line
    with the configured output resource suffix; without one ([None] or the
    empty string) they are the single [--resource-suffix] line with the
    output resource name.  No piece before or after the resource lines
    begins a [--scan] or a [--resource-suffix] line, and the pieces before
    them read the scan in the working directory name only. *)
Theorem put_data_script_scan_lines (st : State) :
  let s := self st in
  let run := Base.create_put_data_script P PN st in
  fst run = Ok tt ->
  exists wd : string,
    fst (Base.working_directory_name PN st) = Ok wd /\
    fs (world (snd run)) !! script_at PN st PutDataJob =
      Some (File
              (script_text
                 (put_data_script_head s wd ++
                  (if Py.truthy (_scan s)
                   then
                     [ "  --scan=" +:+ Py.dq +:+ Py.str_value (_scan s) +:+ Py.dq +:+ " \"
                         +:+ Py.os_linesep;
                       "  --resource-suffix=" +:+ Py.dq +:+ _output_resource_suffix s
                         +:+ Py.dq +:+ " \" +:+ Py.os_linesep ]
                   else
                     [ "  --resource-suffix=" +:+ Py.dq +:+ Base.output_resource_name s
                         +:+ Py.dq +:+ " \" +:+ Py.os_linesep ]) ++
                  put_data_script_tail))
              (Z.lor Py.S_IRWXU Py.S_IRWXG)) /\
    Forall (fun piece =>
              starts_with "  --scan=" piece = false /\
              starts_with "  --resource-suffix=" piece = false)
      (put_data_script_head s wd ++ put_data_script_tail) /\
    (forall value, put_data_script_head (set_scan value s) wd = put_data_script_head s wd).
Proof.
  cbv zeta. rewrite put_data_script_pin, (pin_eta PN st), script_at_eq.
  rewrite (put_data_script_renders _ (is_pinned_pin PN st)).
  intros Hok. apply render_result_ok in Hok as [_ ->].
  exists (name_in (Base.working_directory_name PN) (self (pin PN st))).
  split; [now rewrite is_name_working_directory_name|].
  assert (Hs : exists v, self (pin PN st) = set_working_directory_name_prefix v (self st)).
  { destruct (keeps_pin PN st) as [-> | (_ & p & ->)].
    - exists (_working_directory_name_prefix (self st)). now destruct (self st).
    - eauto. }
  destruct Hs as [v Hs].
  split; [|split].
  - cbn [snd world fs set_fs]. rewrite lookup_insert_eq.
    generalize (name_in (Base.working_directory_name PN) (self (pin PN st))). intros wd.
    rewrite Hs. destruct (self st); reflexivity.
  - apply no_scan_piece_in_head_and_tail.
  - intros value. destruct (self st); reflexivity.
Qed.
End PutScript.

(** * Further properties of a run *)

Section RunProperties.
Context (P : Platform).

Lemma in_deletes_not_run dels site cmd rc out :
  Forall is_delete dels -> ~ In (EvRun site cmd rc out) dels.
Proof. intros D Hin. exact (Forall_In _ _ _ D Hin). Qed.

Lemma in_chain_is_submit PN s jobs prior tr e :
  In e (fst (chain P PN s jobs prior tr)) -> is_submit e = true.
Proof. intros Hin. exact (Forall_In _ _ _ (chain_submits P PN s jobs prior tr) Hin). Qed.

(** X1. When the command that marks the running status as queued exits
    with a status other than 0, [submit_jobs] of the structural submitter
    raises the error of that command, and the run has handed no job to the
    scheduler. *)
Theorem failed_marking_aborts_run stage st cmd rc out :
  In (EvRun MarkQueued cmd rc out) (new_events st (snd (Structural.submit_jobs P stage st))) ->
  rc <> 0 ->
  fst (Structural.submit_jobs P stage st) = Raise (CalledProcessError rc cmd) /\
  submitted_jobs (new_events st (snd (Structural.submit_jobs P stage st))) = [].
Proof.
  destruct (submit_jobs_outcome P stage st)
    as [dels e T D R | dels mrc mout G T D N R | dels marks T D S Hpin Mk X L];
    rewrite (new_events_app _ _ _ T); intros Hin Hrc.
  - destruct (in_deletes_not_run _ _ _ _ _ D Hin).
  - apply in_app_or in Hin as [Hin | [Heq | []]];
      [destruct (in_deletes_not_run _ _ _ _ _ D Hin)|].
    injection Heq as <- <- <-. split; [exact R|].
    rewrite submitted_jobs_app, (submitted_jobs_none _ (delete_not_submit _ D)). reflexivity.
  - apply in_app_or in Hin as [Hin | Hin];
      [destruct (in_deletes_not_run _ _ _ _ _ D Hin)|].
    apply in_app_or in Hin as [Hin | Hin].
    + unfold marked in Mk. destruct (ProcessingStage.gt _ _).
      * destruct Mk as [mout ->]. destruct Hin as [Heq | []]. injection Heq as _ <- _.
        contradiction.
      * subst marks. destruct Hin.
    + apply in_chain_is_submit in Hin. discriminate Hin.
Qed.

(** X3. The jobs a run of [submit_jobs] hands to the scheduler are, in
    order, an initial part of the jobs planned for the requested stage, and
    all of them when the run returns. *)
Theorem submitted_jobs_follow_the_plan stage st :
  exists later,
    plan stage =
      submitted_jobs (new_events st (snd (Structural.submit_jobs P stage st))) ++ later /\
    (forall m, fst (Structural.submit_jobs P stage st) = Ok m -> later = []).
Proof.
  destruct (submit_jobs_outcome P stage st)
    as [dels e T D R | dels mrc mout G T D N R | dels marks T D S Hpin Mk X L];
    rewrite (new_events_app _ _ _ T).
  - exists (plan stage).
    rewrite (submitted_jobs_none _ (delete_not_submit _ D)). split; [reflexivity | congruence].
  - exists (plan stage).
    rewrite submitted_jobs_app, (submitted_jobs_none _ (delete_not_submit _ D)).
    split; [reflexivity | congruence].
  - match type of X with
    | _ = snd (chain _ ?PN ?s ?jobs ?prior ?tr) =>
        destruct (chain_jobs P PN s jobs prior tr) as (later & Hplan & Hl)
    end.
    exists later.
    rewrite !submitted_jobs_app, (submitted_jobs_none _ (delete_not_submit _ D)),
      (submitted_jobs_none _ (marked_not_submit P _ _ _ Mk)).
    split; [exact Hplan|].
    intros m Hm. apply Hl. rewrite <- X. now rewrite Hm.
Qed.

Lemma chain_commands PN s jobs : forall prior tr e,
  In e (fst (chain P PN s jobs prior tr)) ->
  exists j p rc out,
    In j jobs /\ e = EvRun (Submit j) (submit_command j p (script_in PN s j)) rc out.
Proof.
  induction jobs as [|j jobs IH]; intros prior tr e; [intros []|].
  rewrite chain_cons. cbv zeta. destruct (_ =? 0); cbn [fst].
  - intros [<- | Hin].
    + eexists _, _, _, _. split; [left; reflexivity | reflexivity].
    + destruct (IH _ _ _ Hin) as (j' & p & rc & out & Hj & ->).
      eexists _, _, _, _. split; [right; exact Hj | reflexivity].
  - intros [<- | []]. eexists _, _, _, _. split; [left; reflexivity | reflexivity].
Qed.

Lemma submit_command_shape j p script :
  submit_command j p script = "qsub " +:+ script \/
  exists id, id <> EmptyString /\
    submit_command j p script =
      "qsub -W depend=" +:+ depend_mode j +:+ ":" +:+ id +:+ " " +:+ script.
Proof.
  unfold submit_command. destruct p as [[|c id]|]; cbn [Py.truthy]; auto.
  right. exists (String c id). split; [discriminate | reflexivity].
Qed.

(** X2. Every command a run of [submit_jobs] executes is either the
    command that marks the running status as queued, or a [qsub] of the
    script of a job the requested stage calls for, in the working
    directories of this run, with no dependency or with one dependency on a
    job number that is not empty. *)
Theorem commands_of_a_run stage st site cmd rc out :
  let run := Structural.submit_jobs P stage st in
  In (EvRun site cmd rc out) (new_events st (snd run)) ->
  (site = MarkQueued /\ cmd = mark_command P (self (snd run))) \/
  (exists j,
     site = Submit j /\ gate j stage = true /\
     (cmd = "qsub " +:+ script_at Structural.PIPELINE_NAME (snd run) j \/
      exists id, id <> EmptyString /\
        cmd = "qsub -W depend=" +:+ depend_mode j +:+ ":" +:+ id +:+ " "
                +:+ script_at Structural.PIPELINE_NAME (snd run) j)).
Proof.
  cbv zeta.
  destruct (submit_jobs_outcome P stage st)
    as [dels e T D R | dels mrc mout G T D N R | dels marks T D S Hpin Mk X L];
    rewrite (new_events_app _ _ _ T); intros Hin.
  - destruct (in_deletes_not_run _ _ _ _ _ D Hin).
  - apply in_app_or in Hin as [Hin | [Heq | []]];
      [destruct (in_deletes_not_run _ _ _ _ _ D Hin)|].
    injection Heq as <- <- <- <-. left. auto.
  - apply in_app_or in Hin as [Hin | Hin];
      [destruct (in_deletes_not_run _ _ _ _ _ D Hin)|].
    apply in_app_or in Hin as [Hin | Hin].
    + unfold marked in Mk. destruct (ProcessingStage.gt _ _).
      * destruct Mk as [mout ->]. destruct Hin as [Heq | []]. injection Heq as <- <- <- <-.
        left. auto.
      * subst marks. destruct Hin.
    + apply chain_commands in Hin as (j & p & rc' & out' & Hj & Heq).
      injection Heq as -> -> -> ->. right. exists j. split; [reflexivity|]. split.
      * unfold plan in Hj. apply filter_In in Hj. apply Hj.
      * rewrite (script_at_pinned _ _ j Hpin). apply submit_command_shape.
Qed.
End RunProperties.

(** ** What a run leaves of the submitter *)

(** [steady m]: once the prefix is stored, [m] leaves the instance as it
    is. *)
Definition steady {A : Type} (m : M A) : Prop :=
  forall st, is_pinned (self st) -> self (snd (m st)) = self st.

Lemma steady_quiet {A : Type} (m : M A) : quiet m -> steady m.
Proof. intros Hq st Hp. destruct (Hq st) as [_ K]. exact (keeps_pinned _ _ K Hp). Qed.

Lemma steady_bind {A B : Type} (m : M A) (k : A -> M B) :
  steady m -> (forall a, steady (k a)) -> steady (bind m k).
Proof.
  intros Hm Hk st Hp. specialize (Hm st Hp). unfold bind.
  destruct (m st) as [[a|e] st1]; cbn [snd] in *; [|exact Hm].
  rewrite <- Hm. apply Hk. now rewrite Hm.
Qed.

Section Frame.
Context (P : Platform).

Lemma steady_mark_running_status stage : steady (Structural.mark_running_status P stage).
Proof.
  intros st _. rewrite mark_running_status_eq.
  destruct (ProcessingStage.gt _ _); reflexivity.
Qed.

Lemma steady_delete_resource u pw sv pj sj ss r :
  steady (Subprocess.delete_resource P u pw sv pj sj ss r).
Proof. intros st _. now rewrite delete_resource_eq. Qed.

Lemma steady_submissions PN stage : steady (submissions P PN stage).
Proof.
  intros st Hp. destruct (submissions_chain P PN stage st) as (_ & A2 & _).
  now rewrite A2, (pin_pinned PN st Hp).
Qed.

Lemma steady_do_job_submissions stage : steady (Structural.do_job_submissions P stage).
Proof.
  intros st Hp. rewrite do_job_submissions_split. revert st Hp.
  apply steady_bind; [apply steady_quiet, quiet_structural_create_scripts | intros _].
  apply steady_bind; [apply steady_mark_running_status | intros _].
  apply steady_submissions.
Qed.

(** X4. Whatever happens during a run of [submit_jobs], the submitter it
    leaves is the submitter it was given with the prefix of the working
    directory names stored, as the first reading of that prefix, five
    seconds after the call, stores it: no other attribute of the submitter
    is changed, and the prefix is not changed later in the run. *)
Theorem run_keeps_the_submitter stage st :
  self (snd (Structural.submit_jobs P stage st)) =
  self (snd (Base.working_directory_name_prefix Structural.PIPELINE_NAME
               (snd (Time.sleep 5 st)))).
Proof.
  change (snd (Base.working_directory_name_prefix Structural.PIPELINE_NAME
                 (snd (Time.sleep 5 st))))
    with (pin Structural.PIPELINE_NAME (snd (Time.sleep 5 st))).
  unfold Structural.submit_jobs, Base.submit_jobs.
  unfold bind at 1, get_self. unfold bind at 1.
  set (st1 := snd (Time.sleep 5 st)).
  change (Time.sleep 5 st) with (Ok tt, st1). cbv iota.
  unfold bind at 1. rewrite (is_name_working_directory_name Structural.PIPELINE_NAME st1).
  set (wd := name_in _ _). clearbody wd.
  set (st2 := pin Structural.PIPELINE_NAME st1).
  assert (Hp : is_pinned (self st2)) by apply is_pinned_pin.
  clearbody st2. revert st2 Hp.
  apply steady_bind; [apply steady_quiet, quiet_makedirs | intros _].
  apply steady_bind;
    [apply steady_quiet, (quiet_of_is_name Structural.PIPELINE_NAME),
       is_name_check_data_directory_name | intros cd].
  apply steady_bind; [apply steady_quiet, quiet_makedirs | intros _].
  apply steady_bind;
    [apply steady_quiet, (quiet_of_is_name Structural.PIPELINE_NAME),
       is_name_mark_completion_directory_name | intros mc].
  apply steady_bind; [apply steady_quiet, quiet_makedirs | intros _].
  apply steady_bind; [|intros _; apply steady_do_job_submissions].
  destruct (_clean_output_resource_first (self st));
    [apply steady_delete_resource | apply steady_quiet, quiet_ret].
Qed.
End Frame.

(** ** The list a run returns, read off its submissions *)

Section ManifestOfRun.
Context (P : Platform).

(** The label under which the job numbers of a job are returned. *)
Definition job_label (j : Job) : string :=
  match Base.job_stage j with
  | Some x => ProcessingStage.name x
  | None => "Complete Running Status"
  end.

(** What a successful submission adds to the returned list: its label with
    the job number read from its output, and after it, for a request of
    PROCESS_DATA, the entry for CLEAN_DATA that holds no job numbers. *)
Definition entries_of (stage : Stage) (e : Event) : Base.Manifest :=
  match e with
  | EvRun (Submit j) _ rc out =>
      if rc =? 0 then
        (job_label j, Some [remove_ending_new_lines P out]) ::
        match j, stage with
        | ProcessDataJob, ProcessingStage.PROCESS_DATA => [("CLEAN_DATA", None)]
        | _, _ => []
        end
      else []
  | _ => []
  end.

Definition manifest_of (stage : Stage) (evs : list Event) : Base.Manifest :=
  flat_map (entries_of stage) evs.

Lemma manifest_of_app stage l1 l2 :
  manifest_of stage (l1 ++ l2) = manifest_of stage l1 ++ manifest_of stage l2.
Proof. apply flat_map_app. Qed.

Lemma manifest_of_none stage l :
  Forall (fun e => is_submit e = false) l -> manifest_of stage l = [].
Proof.
  induction 1 as [|e l He _ IH]; [reflexivity|].
  unfold manifest_of in *. cbn [flat_map]. rewrite IH.
  destruct e as [[| j |] cmd rc out | ]; try reflexivity. discriminate He.
Qed.

Section Pinned.
Context (PN : string).

Ltac gate_simpl :=
  cbn [gate Base.job_stage ProcessingStage.ge ProcessingStage.value Z.leb Z.compare
         Pos.compare Pos.compare_cont].

Ltac fold_methods :=
  change (Base.submit_get_data_jobs P PN) with (Base.submit_method P PN GetDataJob);
  change (Base.submit_process_data_jobs P PN) with (Base.submit_method P PN ProcessDataJob);
  change (Base.submit_clean_data_jobs P PN) with (Base.submit_method P PN CleanDataJob);
  change (Base.submit_put_data_jobs P PN) with (Base.submit_method P PN PutDataJob);
  change (Base.submit_check_jobs P PN) with (Base.submit_method P PN CheckDataJob);
  change (Base.submit_no_longer_running_jobs P PN) with (Base.submit_method P PN NoLongerRunningJob).

Ltac listed_leaf :=
  cbn [fst snd chain ret];
  let m := fresh "m" in
  let H := fresh "H" in
  intros m H;
  first [ discriminate H | inversion H; subst; reflexivity ].

Ltac listed_step Hp :=
  rewrite (bind_submit P PN _ _ _ _ _ _ Hp);
  lazymatch goal with
  | |- context [if gate ?j ?stage then _ else _] =>
      let b := eval cbv in (gate j stage) in
      lazymatch b with
      | false => gate_simpl; cbn [fst snd Py.truthy Py.list_truthy]
      | true =>
          gate_simpl; rewrite chain_cons; cbv zeta; cbn [trace log_event];
          let rc := fresh "rc" in
          let out := fresh "out" in
          let E := fresh "E" in
          destruct (shell P _ _) as [rc out];
          cbn [fst snd Py.list_truthy app];
          destruct (rc =? 0) eqn:E; [apply Z.eqb_eq in E; subst rc | listed_leaf]
      end
  end.

Lemma submissions_listed stage s w :
  is_pinned s ->
  forall m,
    fst (submissions P PN stage {| self := s; world := w |}) = Ok m ->
    m = manifest_of stage (fst (chain P PN s (plan stage) None (trace w))).
Proof.
  intros Hp. unfold submissions, Base.do_job_submissions.
  fold_methods. cbv zeta.
  do 2 (unfold bind at 1; cbn [ret]).
  destruct stage; cbn [plan all_jobs List.filter]; gate_simpl;
    do 6 listed_step Hp; listed_leaf.
Qed.
End Pinned.
End ManifestOfRun.

Section ManifestOfStructuralRun.
Context (P : Platform).

(** [listed stage tr0 res]: a returned list is the one of the submissions
    made since the trace was [tr0]. *)
Definition listed (stage : Stage) (tr0 : list Event) (res : Result Base.Manifest * State)
  : Prop :=
  forall m, fst res = Ok m ->
    m = manifest_of P stage (drop (length tr0) (trace (world (snd res)))).

Lemma submissions_listed_from stage st tr0 pre :
  trace (world st) = tr0 ++ pre ->
  Forall (fun e => is_submit e = false) pre ->
  listed stage tr0 (submissions P Structural.PIPELINE_NAME stage st).
Proof.
  intros Htr Hpre m Hm.
  destruct (submissions_chain P Structural.PIPELINE_NAME stage st) as (A1 & _).
  rewrite A1, Htr, <- app_assoc, drop_app_length, manifest_of_app,
    (manifest_of_none P _ _ Hpre).
  cbn [app]. revert m Hm. rewrite submissions_pin.
  rewrite (state_eta (pin Structural.PIPELINE_NAME st)
             (self (pin Structural.PIPELINE_NAME st)) (world st) eq_refl
             (world_pin Structural.PIPELINE_NAME st)).
  rewrite <- Htr. apply submissions_listed, is_pinned_pin.
Qed.

Lemma listed_quiet_bind {A : Type} (m : M A) (k : A -> M Base.Manifest) stage tr0 pre st :
  quiet m ->
  trace (world st) = tr0 ++ pre ->
  (forall a st1, trace (world st1) = tr0 ++ pre -> listed stage tr0 (k a st1)) ->
  listed stage tr0 (bind m k st).
Proof.
  intros Hq Htr Hk. destruct (Hq st) as [T _]. unfold bind.
  destruct (m st) as [[a|e] st1]; cbn [snd] in T.
  - apply Hk. congruence.
  - intros m' H. discriminate H.
Qed.

Lemma do_job_submissions_listed stage st tr0 pre :
  trace (world st) = tr0 ++ pre ->
  Forall (fun e => is_submit e = false) pre ->
  listed stage tr0 (Structural.do_job_submissions P stage st).
Proof.
  intros Htr Hpre. rewrite do_job_submissions_split.
  apply listed_quiet_bind with (pre := pre);
    [apply quiet_structural_create_scripts | exact Htr |]. intros _ st1 T1.
  unfold bind. rewrite mark_running_status_eq.
  destruct (ProcessingStage.gt _ _); cbv zeta.
  - destruct (_ =? 0); [|intros m H; discriminate H].
    apply submissions_listed_from
      with (pre := pre ++ [EvRun MarkQueued (mark_command P (self st1))
                             (shell P (trace (world st1)) (mark_command P (self st1))).1
                             (shell P (trace (world st1)) (mark_command P (self st1))).2]).
    + cbn [world trace log_event]. now rewrite T1, app_assoc.
    + apply Forall_app. split; [exact Hpre | repeat constructor].
  - now apply submissions_listed_from with (pre := pre).
Qed.

(** X5. The list a returning run of [submit_jobs] returns is read off the
    submissions it made, in their order: for each one the label of the job
    with the one job number the scheduler printed, stripped of its ending
    new lines; the only other entry is the one labelled CLEAN_DATA that holds
    no job numbers, which follows the PROCESS_DATA entry when the requested
    stage is PROCESS_DATA. *)
Theorem returned_list_holds_the_job_numbers stage st m :
  fst (Structural.submit_jobs P stage st) = Ok m ->
  m = manifest_of P stage (new_events st (snd (Structural.submit_jobs P stage st))).
Proof.
  revert m. change (listed stage (trace (world st)) (Structural.submit_jobs P stage st)).
  unfold Structural.submit_jobs, Base.submit_jobs.
  apply listed_quiet_bind with (pre := []);
    [apply quiet_get_self | now rewrite app_nil_r |]. intros s st1 T1.
  apply listed_quiet_bind with (pre := []); [apply quiet_sleep | assumption |].
  intros _ st2 T2.
  apply listed_quiet_bind with (pre := []);
    [apply (quiet_of_is_name Structural.PIPELINE_NAME), is_name_working_directory_name
    | assumption |].
  intros wd st3 T3.
  apply listed_quiet_bind with (pre := []); [apply quiet_makedirs | assumption |].
  intros _ st4 T4.
  apply listed_quiet_bind with (pre := []);
    [apply (quiet_of_is_name Structural.PIPELINE_NAME), is_name_check_data_directory_name
    | assumption |].
  intros cd st5 T5.
  apply listed_quiet_bind with (pre := []); [apply quiet_makedirs | assumption |].
  intros _ st6 T6.
  apply listed_quiet_bind with (pre := []);
    [apply (quiet_of_is_name Structural.PIPELINE_NAME), is_name_mark_completion_directory_name
    | assumption |].
  intros mc st7 T7.
  apply listed_quiet_bind with (pre := []); [apply quiet_makedirs | assumption |].
  intros _ st8 T8.
  destruct (_clean_output_resource_first s).
  - unfold bind at 1. rewrite delete_resource_eq. cbv zeta.
    destruct (delete_resource_ok P _ _ _ _ _ _); [|intros m H; discriminate H].
    eapply do_job_submissions_listed; cbn [world trace log_event].
    + rewrite T8, app_nil_r. reflexivity.
    + repeat constructor.
  - rewrite bind_ret. now apply do_job_submissions_listed with (pre := []).
Qed.
End ManifestOfStructuralRun.

(** ** The deletion of the output resource *)

(** [adds Q m]: the events [m] adds to the trace all satisfy [Q]. *)
Definition adds {A : Type} (Q : Event -> Prop) (m : M A) : Prop :=
  forall st, exists evs,
    trace (world (snd (m st))) = trace (world st) ++ evs /\ Forall Q evs.

Lemma adds_quiet {A : Type} Q (m : M A) : quiet m -> adds Q m.
Proof.
  intros Hq st. exists []. destruct (Hq st) as [T _]. rewrite T, app_nil_r. auto.
Qed.

Lemma adds_bind {A B : Type} Q (m : M A) (k : A -> M B) :
  adds Q m -> (forall a, adds Q (k a)) -> adds Q (bind m k).
Proof.
  intros Hm Hk st. destruct (Hm st) as (evs & T & F). unfold bind.
  destruct (m st) as [[a|e] st1]; cbn [snd] in *.
  - destruct (Hk a st1) as (evs' & T' & F'). exists (evs ++ evs').
    rewrite T', T, app_assoc. split; [reflexivity | now apply Forall_app].
  - exists evs. auto.
Qed.

Section Deletion.
Context (P : Platform).

Definition no_deletion (e : Event) : Prop := ~ is_delete e.

Lemma adds_mark_running_status stage :
  adds no_deletion (Structural.mark_running_status P stage).
Proof.
  intros st. rewrite mark_running_status_eq. destruct (ProcessingStage.gt _ _).
  - eexists [_]. cbn [snd world trace log_event]. split; [reflexivity|].
    repeat constructor. intros [].
  - exists []. rewrite app_nil_r. auto.
Qed.

Lemma adds_submissions stage :
  adds no_deletion (submissions P Structural.PIPELINE_NAME stage).
Proof.
  intros st. destruct (submissions_chain P Structural.PIPELINE_NAME stage st) as (A1 & _).
  eexists. split; [exact A1|].
  eapply Forall_impl; [apply chain_submits|].
  intros [site cmd rc out | ]; cbn; [intros _ [] | discriminate].
Qed.

Lemma adds_do_job_submissions stage :
  adds no_deletion (Structural.do_job_submissions P stage).
Proof.
  intros st. rewrite do_job_submissions_split. revert st.
  apply adds_bind; [apply adds_quiet, quiet_structural_create_scripts | intros _].
  apply adds_bind; [apply adds_mark_running_status | intros _].
  apply adds_submissions.
Qed.


(** What [submit_jobs] adds to the trace [tr0], read for the deletion of
    the output resource of the submitter [s]. *)
Definition deletion_first (s : Submitter) (tr0 : list Event) (st' : State) : Prop :=
  let evs := drop (length tr0) (trace (world st')) in
  if _clean_output_resource_first s
  then
    evs = [] \/
    exists ok rest,
      evs = EvDeleteResource (get_server_name P (_server s)) (_project s) (_subject s)
              (_session s) (Base.output_resource_name s) ok :: rest /\
      Forall no_deletion rest
  else Forall no_deletion evs.

Lemma deletion_first_nil s tr0 st' :
  trace (world st') = tr0 -> deletion_first s tr0 st'.
Proof.
  intros T. unfold deletion_first. rewrite T, drop_all.
  destruct (_clean_output_resource_first s); [now left | constructor].
Qed.

Lemma deletion_first_quiet_bind {A B : Type} s (m : M A) (k : A -> M B) st :
  quiet m ->
  (forall a st1, trace (world st1) = trace (world st) ->
     deletion_first s (trace (world st)) (snd (k a st1))) ->
  deletion_first s (trace (world st)) (snd (bind m k st)).
Proof.
  intros Hq Hk. unfold bind. destruct (Hq st) as [T _].
  destruct (m st) as [[a|e] st1]; cbn [snd] in *.
  - now apply Hk.
  - now apply deletion_first_nil.
Qed.

(** X6. A run of [submit_jobs] asks for the deletion of a resource only
    when the submitter is set to clean its output resource first; it then
    asks once, for the output resource of its own session, before any
    command is run (the run adds nothing before the request and no second
    request after it). Without that setting no deletion is asked for. *)
Theorem output_resource_is_deleted_first stage st :
  let evs := new_events st (snd (Structural.submit_jobs P stage st)) in
  let s := self st in
  if _clean_output_resource_first s
  then
    evs = [] \/
    exists ok rest,
      evs = EvDeleteResource (get_server_name P (_server s)) (_project s) (_subject s)
              (_session s) (Base.output_resource_name s) ok :: rest /\
      Forall no_deletion rest
  else Forall no_deletion evs.
Proof.
  change (deletion_first (self st) (trace (world st))
            (snd (Structural.submit_jobs P stage st))).
  unfold Structural.submit_jobs, Base.submit_jobs.
  unfold bind at 1, get_self. cbv beta iota.
  apply deletion_first_quiet_bind; [apply quiet_sleep |]. intros _ st2 T2.
  rewrite <- T2.
  apply deletion_first_quiet_bind;
    [apply (quiet_of_is_name Structural.PIPELINE_NAME), is_name_working_directory_name |].
  intros wd st3 T3. rewrite <- T3.
  apply deletion_first_quiet_bind; [apply quiet_makedirs |]. intros _ st4 T4.
  rewrite <- T4.
  apply deletion_first_quiet_bind;
    [apply (quiet_of_is_name Structural.PIPELINE_NAME), is_name_check_data_directory_name |].
  intros cd st5 T5. rewrite <- T5.
  apply deletion_first_quiet_bind; [apply quiet_makedirs |]. intros _ st6 T6.
  rewrite <- T6.
  apply deletion_first_quiet_bind;
    [apply (quiet_of_is_name Structural.PIPELINE_NAME),
       is_name_mark_completion_directory_name |].
  intros mc st7 T7. rewrite <- T7.
  apply deletion_first_quiet_bind; [apply quiet_makedirs |]. intros _ st8 T8.
  unfold deletion_first.
  destruct (_clean_output_resource_first (self st)).
  - right. unfold bind at 1. rewrite delete_resource_eq. cbv zeta.
    destruct (delete_resource_ok P _ _ _ _ _ _).
    + match goal with
      | |- context [Base.do_job_submissions ?a ?b ?c ?d ?e ?f ?x] =>
          destruct (adds_do_job_submissions f x) as (evs & T & F);
          change (Base.do_job_submissions a b c d e f x)
            with (Structural.do_job_submissions P f x)
      end.
      exists true, evs. rewrite T. cbn [world trace log_event].
      rewrite T8, <- app_assoc, drop_app_length. auto.
    + exists false, []. cbn [snd world trace log_event].
      rewrite T8, drop_app_length. auto.
  - rewrite bind_ret.
    destruct (adds_do_job_submissions stage st8) as (evs & T & F).
    change (Base.do_job_submissions P Structural.PIPELINE_NAME (Structural.create_scripts P)
              (Structural.submit_process_data_jobs P) (Structural.mark_running_status P)
              stage st8)
      with (Structural.do_job_submissions P stage st8).
    rewrite T, T8, drop_app_length. exact F.
Qed.
End Deletion.

(** * The scripts of a run *)

(** ** Their names *)

Lemma append_inv_head (p a b : string) : p +:+ a = p +:+ b -> a = b.
Proof.
  induction p as [|c p IH]; [exact id|].
  change (String c (p +:+ a) = String c (p +:+ b) -> a = b).
  intros [= H]. exact (IH H).
Qed.

Section Distinct.
Context (PN : string).

Lemma script_names_distinct s j j' :
  is_pinned s -> script_in PN s j = script_in PN s j' -> j = j'.
Proof.
  intros [p Hp].
  destruct s as [bh jh ld sc pre un pw sv pj sj ss cl cf ps wl vm ors upn].
  cbn in Hp. subst pre.
  unfold script_in, name_in.
  destruct j, j'; try reflexivity.
  all: cbn [Base.job_script_name].
  all: unfold Base.get_data_job_script_name, Base.process_data_job_script_name,
     Base.clean_data_script_name, Base.put_data_script_name, Base.check_data_job_script_name,
     Base.mark_no_longer_running_script_name, Base.scripts_start_name,
     Base.working_directory_name, Base.check_data_directory_name,
     Base.mark_completion_directory_name, Base.working_directory_name_prefix.
  all: cbv beta delta [bind get_self ret] iota zeta.
  all: cbn [fst snd self _working_directory_name_prefix _subject _classifier _scan].
  all: destruct (Py.truthy sc); intros H.
  all: first
    [ apply append_inv_head in H; discriminate H
    | rewrite !str_app_assoc in H; apply append_inv_head in H;
      cbn [String.append] in H; discriminate H ].
Qed.
End Distinct.

(** ** Their rendering *)

Definition script_mode : Z := Z.lor Py.S_IRWXU Py.S_IRWXG.

(** The file system [f] holds a script under the name [n]. *)
Definition in_place (f : gmap string Node) (n : string) : Prop :=
  exists text, f !! n = Some (File text script_mode).

(** [writes m n]: on an instance that holds its prefix, [m] renders some
    text into the file [n s]. *)
Definition writes (m : M unit) (n : Submitter -> string) : Prop :=
  forall s, is_pinned s -> exists text, forall w,
    m {| self := s; world := w |} = render_result (n s) text script_mode s w.

Section Writes.
Context (P : Platform) (PN : string).

Ltac render_script nm Hn Hp :=
  eexists; eapply (script_shape PN _ nm); [exact Hp | exact Hn | cbv beta; seal Hp].

Lemma writes_get_data_job_script :
  writes (Base.create_get_data_job_script P PN) (fun s => script_in PN s GetDataJob).
Proof.
  intros s Hp. unfold Base.create_get_data_job_script.
  render_script (Base.get_data_job_script_name PN) (is_name_job_script_name PN GetDataJob) Hp.
Qed.

Lemma writes_put_data_script :
  writes (Base.create_put_data_script P PN) (fun s => script_in PN s PutDataJob).
Proof.
  intros s Hp. unfold Base.create_put_data_script.
  render_script (Base.put_data_script_name PN) (is_name_job_script_name PN PutDataJob) Hp.
Qed.

Lemma writes_clean_data_script :
  writes (Base.create_clean_data_script P PN) (fun s => script_in PN s CleanDataJob).
Proof.
  intros s Hp. unfold Base.create_clean_data_script.
  render_script (Base.clean_data_script_name PN) (is_name_job_script_name PN CleanDataJob) Hp.
Qed.

Lemma writes_check_data_job_script :
  writes (Base.create_check_data_job_script P PN) (fun s => script_in PN s CheckDataJob).
Proof.
  intros s Hp. unfold Base.create_check_data_job_script.
  render_script (Base.check_data_job_script_name PN)
    (is_name_job_script_name PN CheckDataJob) Hp.
Qed.

Lemma writes_mark_no_longer_running_script :
  writes (Base.create_mark_no_longer_running_script P PN)
    (fun s => script_in PN s NoLongerRunningJob).
Proof.
  intros s Hp. unfold Base.create_mark_no_longer_running_script.
  render_script (Base.mark_no_longer_running_script_name PN)
    (is_name_job_script_name PN NoLongerRunningJob) Hp.
Qed.
End Writes.

Section StructuralWrites.
Context (P : Platform).

Lemma writes_structural_get_data_job_script :
  writes (Structural.create_get_data_job_script P)
    (fun s => script_in Structural.PIPELINE_NAME s GetDataJob).
Proof.
  intros s Hp. unfold Structural.create_get_data_job_script.
  eexists. eapply (script_shape Structural.PIPELINE_NAME _ Structural.get_data_job_script_name);
    [exact Hp | exact (is_name_job_script_name Structural.PIPELINE_NAME GetDataJob)
    | cbv beta; seal Hp].
Qed.
End StructuralWrites.

Lemma writes_step (m k : M unit) n s w st' :
  writes m n -> is_pinned s ->
  (m ;;; k) {| self := s; world := w |} = (Ok tt, st') ->
  exists text,
    k {| self := s; world := set_fs (<[n s := File text script_mode]> (fs w)) w |} = (Ok tt, st').
Proof.
  intros Hm Hp. destruct (Hm s Hp) as [text Ht]. unfold bind. rewrite Ht.
  destruct (render_result (n s) text script_mode s w) as [[[]|e] st1] eqn:E;
    [|discriminate].
  assert (Hok : fst (render_result (n s) text script_mode s w) = Ok tt) by now rewrite E.
  apply render_result_ok in Hok as [_ Hr]. rewrite Hr in E. injection E as <-.
  exists text. assumption.
Qed.

Lemma writes_last (m : M unit) n s w st' :
  writes m n -> is_pinned s ->
  m {| self := s; world := w |} = (Ok tt, st') ->
  exists text,
    st' = {| self := s; world := set_fs (<[n s := File text script_mode]> (fs w)) w |}.
Proof.
  intros Hm Hp. destruct (Hm s Hp) as [text Ht]. rewrite Ht. intros E.
  assert (Hok : fst (render_result (n s) text script_mode s w) = Ok tt) by now rewrite E.
  apply render_result_ok in Hok as [_ Hr]. rewrite Hr in E. injection E as <-.
  exists text. reflexivity.
Qed.

(** Making a directory that is not there keeps every entry of the file
    system. *)
Lemma prepared_keeps p w w' q x :
  prepared p w = (Ok tt, w') -> fs w !! q = Some x -> fs w' !! q = Some x.
Proof.
  intros H Hq. destruct (prepared_ok p w w' H) as [[_ ->] | (E & -> & _)]; [exact Hq|].
  cbn [fs set_fs]. rewrite lookup_insert_ne; [exact Hq|]. intros ->.
  unfold Os.path_exists in E. apply orb_false_iff in E as [_ E].
  apply bool_decide_eq_false in E. apply E. eauto.
Qed.

Section ProcessStep.
Context (P : Platform).

Lemma process_step (k : M unit) s w st' :
  is_pinned s ->
  (Structural.create_process_data_job_script P ;;; k) {| self := s; world := w |}
    = (Ok tt, st') ->
  exists text w',
    prepared (scratch_processing_dir P s) w = (Ok tt, w') /\
    k {| self := s;
         world := set_fs (<[script_in Structural.PIPELINE_NAME s ProcessDataJob
                            := File text script_mode]> (fs w')) w' |} = (Ok tt, st').
Proof.
  intros Hp. destruct (process_script_renders P s Hp) as [text Ht]. unfold bind. rewrite Ht.
  destruct (prepared (scratch_processing_dir P s) w) as [[[]|e] w'] eqn:Hprep; [|discriminate].
  match goal with
  | |- context [render_result ?n text ?md s w'] =>
      destruct (render_result n text md s w') as [[[]|e] st1] eqn:E; [|discriminate];
      assert (Hok : fst (render_result n text md s w') = Ok tt) by (now rewrite E);
      apply render_result_ok in Hok as [_ Hr]; rewrite Hr in E; injection E as <-
  end.
  exists text, w'. split; [reflexivity | assumption].
Qed.

Lemma base_create_scripts_pinned stage s w st' :
  is_pinned s ->
  Base.create_scripts P Structural.PIPELINE_NAME
    (Structural.create_get_data_job_script P)
    (Structural.create_process_data_job_script P) stage {| self := s; world := w |}
    = (Ok tt, st') ->
  self st' = s /\
  forall j, in_place (fs (world st')) (script_in Structural.PIPELINE_NAME s j).
Proof.
  intros Hp. unfold Base.create_scripts.
  replace (ProcessingStage.ge stage ProcessingStage.PREPARE_SCRIPTS) with true
    by (destruct stage; reflexivity).
  intros H.
  apply (writes_step _ _ _ _ _ _ (writes_structural_get_data_job_script P) Hp) in H
    as [t1 H].
  apply (process_step _ _ _ _ Hp) in H as (t2 & w2 & Hprep & H).
  apply (writes_step _ _ _ _ _ _ (writes_clean_data_script P _) Hp) in H as [t3 H].
  apply (writes_step _ _ _ _ _ _ (writes_put_data_script P _) Hp) in H as [t4 H].
  apply (writes_step _ _ _ _ _ _ (writes_check_data_job_script P _) Hp) in H as [t5 H].
  apply (writes_last _ _ _ _ _ (writes_mark_no_longer_running_script P _) Hp) in H
    as [t6 ->].
  cbn [self world fs set_fs]. split; [reflexivity|].
  assert (D : forall j j', j <> j' ->
            script_in Structural.PIPELINE_NAME s j <> script_in Structural.PIPELINE_NAME s j').
  { intros j j' Hne E. apply Hne. eapply script_names_distinct; eassumption. }
  assert (H1 : fs w2 !! script_in Structural.PIPELINE_NAME s GetDataJob
               = Some (File t1 script_mode)).
  { eapply prepared_keeps; [exact Hprep|]. cbn [fs set_fs]. apply lookup_insert_eq. }
  intros j. unfold in_place.
  destruct j;
    repeat first
      [ rewrite lookup_insert_eq; eexists; reflexivity
      | rewrite lookup_insert_ne by (apply D; discriminate) ].
  eexists. exact H1.
Qed.
End ProcessStep.

Section ScriptsOfRun.
Context (P : Platform).

Lemma structural_create_scripts_pin stage st :
  Structural.create_scripts P stage st =
  Structural.create_scripts P stage (pin Structural.PIPELINE_NAME st).
Proof.
  unfold Structural.create_scripts, Base.create_scripts.
  replace (ProcessingStage.ge stage ProcessingStage.PREPARE_SCRIPTS) with true
    by (destruct stage; reflexivity).
  assert (Hg : Structural.create_get_data_job_script P st =
               Structural.create_get_data_job_script P (pin Structural.PIPELINE_NAME st)).
  { unfold Structural.create_get_data_job_script.
    apply (script_pin_gen Structural.PIPELINE_NAME Structural.get_data_job_script_name).
    - exact (is_name_job_script_name Structural.PIPELINE_NAME GetDataJob).
    - intros s0 v n; reflexivity. }
  unfold bind at 1 2 8 9. now rewrite Hg.
Qed.

Lemma structural_create_scripts_result stage st st' :
  Structural.create_scripts P stage st = (Ok tt, st') ->
  self st' = self (pin Structural.PIPELINE_NAME st) /\
  forall j, in_place (fs (world st')) (script_in Structural.PIPELINE_NAME (self st') j).
Proof.
  rewrite structural_create_scripts_pin, (pin_eta Structural.PIPELINE_NAME st) at 1.
  unfold Structural.create_scripts, Structural._SUPPRESS_FREESURFER_ASSESSOR_JOB.
  intros H. apply bind_inv in H as [(e & _ & He) | (a & st1 & H & Hr)]; [discriminate He|].
  injection Hr as <-. destruct a.
  apply base_create_scripts_pinned in H as [Hs Hj]; [|apply is_pinned_pin].
  rewrite Hs. auto.
Qed.

(** X7. When [create_scripts] of the structural submitter returns, each
    of the six job scripts is in the file system under its own name, as a
    file with the permission bits [S_IRWXU | S_IRWXG]: the rendering of one
    script has not removed or replaced another. *)
Theorem create_scripts_leaves_the_scripts stage st st' :
  Structural.create_scripts P stage st = (Ok tt, st') ->
  forall j, exists text,
    fs (world st') !! script_at Structural.PIPELINE_NAME st' j
      = Some (File text (Z.lor Py.S_IRWXU Py.S_IRWXG)).
Proof.
  intros H j. apply structural_create_scripts_result in H as [Hs Hj].
  rewrite script_at_pinned; [apply Hj|]. rewrite Hs. apply is_pinned_pin.
Qed.

(** The script of every job submitted since the trace was [tr0] is in
    place. *)
Definition scripts_ready (tr0 : list Event) (st' : State) : Prop :=
  forall j cmd rc out,
    In (EvRun (Submit j) cmd rc out) (drop (length tr0) (trace (world st'))) ->
    in_place (fs (world st')) (script_at Structural.PIPELINE_NAME st' j).

Lemma ready_no_submit tr0 pre st' :
  trace (world st') = tr0 ++ pre ->
  Forall (fun e => is_submit e = false) pre ->
  scripts_ready tr0 st'.
Proof.
  intros T F j cmd rc out Hin. rewrite T, drop_app_length in Hin.
  apply (Forall_In _ _ _ F) in Hin. discriminate Hin.
Qed.

Lemma ready_quiet_bind {A B : Type} (m : M A) (k : A -> M B) tr0 pre st :
  quiet m ->
  trace (world st) = tr0 ++ pre ->
  Forall (fun e => is_submit e = false) pre ->
  (forall a st1, trace (world st1) = tr0 ++ pre -> scripts_ready tr0 (snd (k a st1))) ->
  scripts_ready tr0 (snd (bind m k st)).
Proof.
  intros Hq T F Hk. unfold bind. destruct (Hq st) as [T1 _].
  destruct (m st) as [[a|e] st1]; cbn [snd] in *.
  - apply Hk. congruence.
  - apply ready_no_submit with (pre := pre); congruence.
Qed.

Lemma ready_in_place tr0 st' s :
  self st' = s -> is_pinned s ->
  (forall j, in_place (fs (world st')) (script_in Structural.PIPELINE_NAME s j)) ->
  scripts_ready tr0 st'.
Proof.
  intros Hs Hp Hj j cmd rc out _. rewrite script_at_pinned by now rewrite Hs.
  rewrite Hs. apply Hj.
Qed.

Lemma do_job_submissions_ready stage st tr0 pre :
  trace (world st) = tr0 ++ pre ->
  Forall (fun e => is_submit e = false) pre ->
  scripts_ready tr0 (snd (Structural.do_job_submissions P stage st)).
Proof.
  intros T F. rewrite do_job_submissions_split. unfold bind at 1.
  destruct (quiet_structural_create_scripts P stage st) as [T1 _].
  destruct (Structural.create_scripts P stage st) as [[[]|e] st1] eqn:Hc; cbn [snd] in T1.
  2: { apply ready_no_submit with (pre := pre); [cbn [snd]; congruence | exact F]. }
  apply structural_create_scripts_result in Hc as [Hs Hj].
  assert (Hp : is_pinned (self st1)) by (rewrite Hs; apply is_pinned_pin).
  unfold bind. rewrite mark_running_status_eq.
  destruct (ProcessingStage.gt _ _); cbv zeta.
  - destruct (_ =? 0).
    + match goal with
      | |- context [submissions P ?PN stage ?s2] =>
          destruct (submissions_chain P PN stage s2) as (_ & A2 & A3 & _);
          rewrite (pin_pinned PN s2 Hp) in A2
      end.
      apply ready_in_place with (s := self st1); [exact A2 | exact Hp |].
      rewrite A3. exact Hj.
    + now apply ready_in_place with (s := self st1).
  - destruct (submissions_chain P Structural.PIPELINE_NAME stage st1) as (_ & A2 & A3 & _).
    rewrite (pin_pinned _ st1 Hp) in A2.
    apply ready_in_place with (s := self st1); [exact A2 | exact Hp |].
    rewrite A3. exact Hj.
Qed.

(** X8. The script of every job that a run of [submit_jobs] handed to the
    scheduler is in the file system when the run ends, under the name the
    submitter gives it, as a file with the permission bits
    [S_IRWXU | S_IRWXG]: all scripts are written before the first
    submission, and nothing removes them later in the run. *)
Theorem submitted_scripts_are_in_place stage st j cmd rc out :
  let run := Structural.submit_jobs P stage st in
  In (EvRun (Submit j) cmd rc out) (new_events st (snd run)) ->
  exists text,
    fs (world (snd run)) !! script_at Structural.PIPELINE_NAME (snd run) j
      = Some (File text (Z.lor Py.S_IRWXU Py.S_IRWXG)).
Proof.
  cbv zeta. revert j cmd rc out.
  change (scripts_ready (trace (world st)) (snd (Structural.submit_jobs P stage st))).
  unfold Structural.submit_jobs, Base.submit_jobs.
  apply ready_quiet_bind with (pre := []);
    [apply quiet_get_self | now rewrite app_nil_r | constructor |]. intros s st1 T1.
  apply ready_quiet_bind with (pre := []);
    [apply quiet_sleep | assumption | constructor |]. intros _ st2 T2.
  apply ready_quiet_bind with (pre := []);
    [apply (quiet_of_is_name Structural.PIPELINE_NAME), is_name_working_directory_name
    | assumption | constructor |].
  intros wd st3 T3.
  apply ready_quiet_bind with (pre := []);
    [apply quiet_makedirs | assumption | constructor |]. intros _ st4 T4.
  apply ready_quiet_bind with (pre := []);
    [apply (quiet_of_is_name Structural.PIPELINE_NAME), is_name_check_data_directory_name
    | assumption | constructor |].
  intros cd st5 T5.
  apply ready_quiet_bind with (pre := []);
    [apply quiet_makedirs | assumption | constructor |]. intros _ st6 T6.
  apply ready_quiet_bind with (pre := []);
    [apply (quiet_of_is_name Structural.PIPELINE_NAME), is_name_mark_completion_directory_name
    | assumption | constructor |].
  intros mc st7 T7.
  apply ready_quiet_bind with (pre := []);
    [apply quiet_makedirs | assumption | constructor |]. intros _ st8 T8.
  destruct (_clean_output_resource_first s).
  - unfold bind at 1. rewrite delete_resource_eq. cbv zeta.
    destruct (delete_resource_ok P _ _ _ _ _ _).
    + eapply do_job_submissions_ready; cbn [world trace log_event].
      * rewrite T8, app_nil_r. reflexivity.
      * repeat constructor.
    + cbn [snd]. eapply ready_no_submit; cbn [world trace log_event].
      * rewrite T8, app_nil_r. reflexivity.
      * repeat constructor.
  - rewrite bind_ret. now apply do_job_submissions_ready with (pre := []).
Qed.
End ScriptsOfRun.

Section NamesOfScripts.
Context (PN : string).

(** X9. The six job scripts of a submitter have six different names,
    whatever the attributes of the submitter are. *)
Theorem scripts_have_different_names st j j' :
  j <> j' -> script_at PN st j <> script_at PN st j'.
Proof.
  intros Hne E. apply Hne. rewrite !script_at_eq in E.
  exact (script_names_distinct PN _ j j' (is_pinned_pin PN st) E).
Qed.
End NamesOfScripts.

(** An error of the file system, as [os.makedirs], [os.remove] and [open]
    raise them. *)
Definition is_os_error (e : Exn) : Prop :=
  match e with
  | FileNotFoundError _ | FileExistsError _ | IsADirectoryError _ | NotADirectoryError _ => True
  | CalledProcessError _ _ | ResourceDeleteError _ => False
  end.

Section FileErrors.
Context (P : Platform).

Lemma chain_exn PN s jobs : forall prior tr e,
  snd (chain P PN s jobs prior tr) = Some e -> exists rc cmd, e = CalledProcessError rc cmd.
Proof.
  induction jobs as [|j jobs IH]; intros prior tr e; [discriminate|].
  rewrite chain_cons. cbv zeta. destruct (_ =? 0); cbn [snd].
  - apply IH.
  - intros [= <-]. eauto.
Qed.

(** X10. When [submit_jobs] raises an error of the file system, the run
    has executed no command at all: the running status has not been marked
    and no job has been handed to the scheduler. *)
Theorem file_errors_come_before_all_commands stage st e :
  fst (Structural.submit_jobs P stage st) = Raise e ->
  is_os_error e ->
  forall site cmd rc out,
    ~ In (EvRun site cmd rc out) (new_events st (snd (Structural.submit_jobs P stage st))).
Proof.
  destruct (submit_jobs_outcome P stage st)
    as [dels e' T D R | dels mrc mout G T D N R | dels marks T D S Hpin Mk X L];
    rewrite (new_events_app _ _ _ T); intros He Hos site cmd rc out.
  - apply in_deletes_not_run, D.
  - rewrite He in R. injection R as ->. destruct Hos.
  - rewrite He in X. cbn [exn_of] in X. symmetry in X.
    apply chain_exn in X as (rc' & cmd' & ->). destruct Hos.
Qed.
End FileErrors.

(** * The names of the first scans *)

Lemma strip_prefix_app sub r : Py.strip_prefix sub (sub +:+ r) = Some r.
Proof.
  induction sub as [|c sub IH]; [reflexivity|].
  change (Py.strip_prefix (String c sub) (String c (sub +:+ r)) = Some r).
  cbn [Py.strip_prefix]. now rewrite Ascii.eqb_refl.
Qed.

Lemma strip_prefix_Some sub : forall s r, Py.strip_prefix sub s = Some r -> s = sub +:+ r.
Proof.
  induction sub as [|c sub IH]; intros s r.
  - cbn. now intros [= ->].
  - destruct s as [|b s]; cbn [Py.strip_prefix]; [discriminate|].
    destruct (Ascii.eqb c b) eqn:E; [|discriminate].
    apply Ascii.eqb_eq in E as ->. intros H. apply IH in H as ->. reflexivity.
Qed.

Lemma length_append (a b : string) :
  String.length (a +:+ b) = (String.length a + String.length b)%nat.
Proof.
  induction a as [|c a IH]; [reflexivity|].
  change (S (String.length (a +:+ b)) = S (String.length a + String.length b)).
  now rewrite IH.
Qed.

(** ** The characters of a [str] *)

Lemma join_app us vs : PyStr.join (us ++ vs) = PyStr.join us +:+ PyStr.join vs.
Proof.
  induction us as [|u us IH]; [reflexivity|].
  cbn [app PyStr.join]. now rewrite IH, str_app_assoc.
Qed.

Lemma chars_from_join s : forall p,
  fst (PyStr.chars_from p s) +:+ PyStr.join (snd (PyStr.chars_from p s)) = s.
Proof.
  induction s as [|c r IH]; intros p; [reflexivity|].
  cbn [PyStr.chars_from]. destruct p as [|p].
  - specialize (IH (PyStr.following c r)).
    destruct (PyStr.chars_from (PyStr.following c r) r) as [u us].
    cbn [fst snd PyStr.join] in *.
    change (String c (u +:+ PyStr.join us) = String c r). now rewrite IH.
  - specialize (IH p). destruct (PyStr.chars_from p r) as [u us].
    cbn [fst snd] in *.
    change (String c (u +:+ PyStr.join us) = String c r). now rewrite IH.
Qed.

Lemma join_chars s : PyStr.join (PyStr.chars s) = s.
Proof.
  unfold PyStr.chars. pose proof (chars_from_join s 0) as H.
  destruct s as [|c r]; [reflexivity|].
  cbn [PyStr.chars_from] in *.
  destruct (PyStr.chars_from (PyStr.following c r) r) as [u us]. exact H.
Qed.

(** Every byte of [t] continues a character. *)
Fixpoint all_continuation (t : string) : bool :=
  match t with
  | EmptyString => true
  | String c r => PyStr.is_continuation c && all_continuation r
  end.

(** A character as [chars] groups its bytes: continuation bytes after the
    first byte, and none after a byte below 192. *)
Definition well_grouped (u : string) : Prop :=
  match u with
  | EmptyString => False
  | String c t => all_continuation t = true /\ ((nat_of_ascii c < 192)%nat -> t = EmptyString)
  end.

Lemma continued_following c r : PyStr.continued (PyStr.following c r) r = true.
Proof.
  unfold PyStr.following. cbv zeta.
  repeat match goal with
         | |- context [if ?b then _ else _] => destruct b eqn:?
         end; try reflexivity; assumption.
Qed.

Lemma following_low c r : (nat_of_ascii c < 192)%nat -> PyStr.following c r = 0%nat.
Proof.
  intros H. unfold PyStr.following. cbv zeta.
  apply Nat.ltb_lt in H. rewrite H. reflexivity.
Qed.

Lemma chars_from_grouped s : forall p,
  PyStr.continued p s = true ->
  String.length (fst (PyStr.chars_from p s)) = p /\
  all_continuation (fst (PyStr.chars_from p s)) = true /\
  Forall well_grouped (snd (PyStr.chars_from p s)).
Proof.
  induction s as [|c r IH]; intros p Hp.
  - destruct p; [|discriminate Hp]. cbn. auto.
  - cbn [PyStr.chars_from]. destruct p as [|p].
    + destruct (IH _ (continued_following c r)) as (Hl & Hc & Hf).
      pose proof (following_low c r) as Hlow.
      destruct (PyStr.chars_from (PyStr.following c r) r) as [u us].
      cbn [fst snd] in *. split; [reflexivity|]. split; [reflexivity|].
      constructor; [|exact Hf]. split; [exact Hc|].
      intros Hlt. rewrite (Hlow Hlt) in Hl. now destruct u.
    + cbn [PyStr.continued] in Hp. apply andb_prop in Hp as [Hc Hp].
      destruct (IH _ Hp) as (Hl & Hc' & Hf).
      destruct (PyStr.chars_from p r) as [u us]. cbn [fst snd] in *.
      split; [cbn; now rewrite Hl|]. split; [|exact Hf].
      cbn [all_continuation]. now rewrite Hc, Hc'.
Qed.

Lemma chars_grouped s : Forall well_grouped (PyStr.chars s).
Proof. apply (chars_from_grouped s 0 eq_refl). Qed.

Lemma low_not_continuation v : (nat_of_ascii v < 128)%nat -> PyStr.is_continuation v = false.
Proof.
  intros H. unfold PyStr.is_continuation. apply andb_false_iff. left.
  apply Nat.leb_gt. exact H.
Qed.

Lemma continuation_prefix t : forall z x v r,
  all_continuation t = true ->
  PyStr.is_continuation v = false ->
  t +:+ z = x +:+ String v r ->
  exists x', x = t +:+ x' /\ z = x' +:+ String v r.
Proof.
  induction t as [|d t IH]; intros z x v r Ht Hv E.
  - exists x. split; [reflexivity | exact E].
  - cbn [all_continuation] in Ht. apply andb_prop in Ht as [Hd Ht].
    destruct x as [|d' x].
    + change (String d (t +:+ z) = String v r) in E. injection E as -> _. congruence.
    + change (String d (t +:+ z) = String d' (x +:+ String v r)) in E. injection E as -> E.
      destruct (IH _ _ _ _ Ht Hv E) as (x' & -> & ->). exists x'. split; reflexivity.
Qed.

(** A byte below 128 begins a character, and is the whole of it. *)
Lemma split_at_low us : forall x v r,
  Forall well_grouped us ->
  (nat_of_ascii v < 128)%nat ->
  PyStr.join us = x +:+ String v r ->
  exists us1 us2, us = us1 ++ us2 /\ PyStr.join us1 = x /\ PyStr.join us2 = String v r.
Proof.
  induction us as [|u us IH]; intros x v r Hf Hv E.
  - destruct x; discriminate E.
  - inversion Hf as [|? ? Hu Hf']; subst. destruct u as [|c t]; [destruct Hu|].
    destruct Hu as [Hc Hlow]. cbn [PyStr.join] in E. destruct x as [|c' x].
    + exists [], (String c t :: us). split; [reflexivity|]. split; [reflexivity | exact E].
    + change (String c (t +:+ PyStr.join us) = String c' (x +:+ String v r)) in E.
      injection E as -> E.
      destruct (continuation_prefix _ _ _ _ _ Hc (low_not_continuation v Hv) E)
        as (x' & -> & E').
      destruct (IH _ _ _ Hf' Hv E') as (us1 & us2 & -> & H1 & H2).
      exists (String c' t :: us1), us2. split; [reflexivity|]. split; [|exact H2].
      cbn [PyStr.join]. rewrite H1. reflexivity.
Qed.

Lemma peel_low us v rest :
  Forall well_grouped us ->
  (nat_of_ascii v < 128)%nat ->
  PyStr.join us = String v rest ->
  exists us', us = String v EmptyString :: us' /\ Forall well_grouped us' /\
    PyStr.join us' = rest.
Proof.
  intros Hf Hv E. destruct us as [|u us]; [discriminate E|].
  inversion Hf as [|? ? Hu Hf']; subst. destruct u as [|c t]; [destruct Hu|].
  destruct Hu as [_ Hlow]. cbn [PyStr.join] in E.
  change (String c (t +:+ PyStr.join us) = String v rest) in E. injection E as Hc E.
  subst c. assert (Ht : t = EmptyString) by (apply Hlow; lia). subst t.
  exists us. auto.
Qed.

(** ** [str.find] *)

Lemma find_chars_here sub us r i :
  Py.strip_prefix sub (PyStr.join us) = Some r -> PyStr.find_chars sub us i = i.
Proof. intros H. destruct us; cbn [PyStr.find_chars]; now rewrite H. Qed.

(** The first occurrence is found: no occurrence lies before the index. *)
Lemma find_chars_le sub us1 : forall us2 r i,
  Py.strip_prefix sub (PyStr.join us2) = Some r ->
  i <= PyStr.find_chars sub (us1 ++ us2) i <= i + Z.of_nat (length us1).
Proof.
  induction us1 as [|u us1 IH]; intros us2 r i H.
  - cbn [app]. rewrite (find_chars_here _ _ _ _ H). cbn. lia.
  - cbn [app PyStr.find_chars length].
    destruct (Py.strip_prefix sub (PyStr.join (u :: us1 ++ us2))); [lia|].
    specialize (IH us2 r (i + 1) H). lia.
Qed.

(** What is found is an occurrence. *)
Lemma find_chars_split sub : forall us i,
  PyStr.find_chars sub us i = -1 \/
  exists us1 us2 r,
    us = us1 ++ us2 /\ Py.strip_prefix sub (PyStr.join us2) = Some r /\
    PyStr.find_chars sub us i = i + Z.of_nat (length us1).
Proof.
  induction us as [|u us IH]; intros i.
  - cbn [PyStr.find_chars]. destruct (Py.strip_prefix sub (PyStr.join [])) as [r|] eqn:E;
      [|now left].
    right. exists [], [], r. split; [reflexivity|]. split; [exact E | cbn; lia].
  - cbn [PyStr.find_chars].
    destruct (Py.strip_prefix sub (PyStr.join (u :: us))) as [r|] eqn:E.
    + right. exists [], (u :: us), r. split; [reflexivity|]. split; [exact E | cbn; lia].
    + destruct (IH (i + 1)) as [H | (us1 & us2 & r & -> & Hr & H)]; [now left|].
      right. exists (u :: us1), us2, r. split; [reflexivity|]. split; [exact Hr|].
      rewrite H. cbn [length]. lia.
Qed.

(** ** The prescan normalized names *)

Lemma bound_within (len i : nat) : (i <= len)%nat -> PyStr.bound len (Z.of_nat i) = i.
Proof.
  intros H. unfold PyStr.bound. destruct (Z.ltb_spec (Z.of_nat i) 0); lia.
Qed.

Lemma join_length_le us vs :
  (String.length (PyStr.join us) <= String.length (PyStr.join (us ++ vs)))%nat.
Proof. rewrite join_app, length_append. lia. Qed.

(** An occurrence of [vNav] begins with a character and ends with one. *)
Lemma occurrence_of_vNav name x y :
  name = x +:+ "vNav" +:+ y ->
  exists us1 us2,
    PyStr.chars name = us1 ++ us2 /\ PyStr.join us1 = x /\
    Py.strip_prefix "vNav" (PyStr.join us2) = Some y.
Proof.
  intros Hx.
  destruct (split_at_low (PyStr.chars name) x "v" ("Nav" +:+ y)) as (us1 & us2 & E & H1 & H2).
  - apply chars_grouped.
  - vm_compute. lia.
  - rewrite join_chars. exact Hx.
  - exists us1, us2. split; [exact E|]. split; [exact H1|].
    rewrite H2. apply (strip_prefix_app "vNav" y).
Qed.

(** The name built around the first occurrence of [vNav]. *)
Lemma norm_name_at name us1 us2 b :
  PyStr.chars name = us1 ++ us2 ->
  Py.strip_prefix "vNav" (PyStr.join us2) = Some b ->
  PyStr.find name "vNav" = Z.of_nat (length us1) ->
  ((PyStr.slice_to name (PyStr.find name "vNav") +:+ "vNav") +:+ "_Norm")
    +:+ PyStr.slice_from name (PyStr.find name "vNav" + 4)
  = PyStr.join us1 +:+ "vNav_Norm" +:+ b.
Proof.
  intros E Hb Hf. rewrite Hf.
  assert (Hg : Forall well_grouped us2).
  { pose proof (chars_grouped name) as G. rewrite E in G. now apply Forall_app in G. }
  apply strip_prefix_Some in Hb. change ("vNav" +:+ b) with (String "v" ("Nav" +:+ b)) in Hb.
  apply (peel_low _ _ _ Hg) in Hb as (us3 & -> & Hg3 & Hb); [|vm_compute; lia].
  change ("Nav" +:+ b) with (String "N" ("av" +:+ b)) in Hb.
  apply (peel_low _ _ _ Hg3) in Hb as (us4 & -> & Hg4 & Hb); [|vm_compute; lia].
  change ("av" +:+ b) with (String "a" ("v" +:+ b)) in Hb.
  apply (peel_low _ _ _ Hg4) in Hb as (us5 & -> & Hg5 & Hb); [|vm_compute; lia].
  change ("v" +:+ b) with (String "v" b) in Hb.
  apply (peel_low _ _ _ Hg5) in Hb as (us6 & -> & Hg6 & Hb); [|vm_compute; lia].
  unfold PyStr.slice_to, PyStr.slice_from. rewrite E.
  rewrite bound_within by (rewrite length_app; lia).
  replace (Z.of_nat (length us1) + 4) with (Z.of_nat (length us1 + 4)) by lia.
  rewrite bound_within by (rewrite length_app; cbn [length]; lia).
  rewrite take_app_length.
  change (us1 ++ "v" :: "N" :: "a" :: "v" :: us6)
    with (us1 ++ ["v"; "N"; "a"; "v"] ++ us6).
  rewrite app_assoc.
  replace (length us1 + 4)%nat with (length (us1 ++ ["v"; "N"; "a"; "v"]))
    by (rewrite length_app; reflexivity).
  rewrite drop_app_length, Hb, !str_app_assoc. reflexivity.
Qed.

Section ScanNames.
Context {SubjectInfo : Type} (archive : Archive SubjectInfo).

(** X11. For a first scan whose name holds [vNav], the prescan normalized
    name that [_get_first_t1w_norm_name] and [_get_first_t2w_norm_name]
    return is the name of the scan with [_Norm] put in after the first
    occurrence of [vNav]. *)
Theorem norm_names_mark_the_first_vNav (subject_info : SubjectInfo) (name x y : string) :
  name = x +:+ "vNav" +:+ y ->
  exists a b,
    name = a +:+ "vNav" +:+ b /\
    (forall x' y', name = x' +:+ "vNav" +:+ y' -> (String.length a <= String.length x')%nat) /\
    (forall rest,
       available_t1w_unproc_names archive subject_info = name :: rest ->
       StructuralScans._get_first_t1w_norm_name archive subject_info
         = inr (a +:+ "vNav_Norm" +:+ b)) /\
    (forall rest,
       available_t2w_unproc_names archive subject_info = name :: rest ->
       StructuralScans._get_first_t2w_norm_name archive subject_info
         = inr (a +:+ "vNav_Norm" +:+ b)).
Proof.
  intros Hx.
  assert (Hfirst : forall x' y', name = x' +:+ "vNav" +:+ y' ->
            exists us1' us2', PyStr.chars name = us1' ++ us2' /\ PyStr.join us1' = x' /\
              0 <= PyStr.find name "vNav" <= Z.of_nat (length us1')).
  { intros x' y' Hx'. destruct (occurrence_of_vNav name x' y' Hx') as (us1' & us2' & E & H1 & H2).
    exists us1', us2'. split; [exact E|]. split; [exact H1|].
    unfold PyStr.find. rewrite E. apply (find_chars_le "vNav" us1' us2' y' 0 H2). }
  destruct (find_chars_split "vNav" (PyStr.chars name) 0) as [H | (us1 & us2 & b & E & Hb & H)].
  { destruct (Hfirst x y Hx) as (? & ? & _ & _ & Hle). unfold PyStr.find in Hle. lia. }
  rewrite Z.add_0_l in H.
  exists (PyStr.join us1), b. split; [|split; [|split]].
  - rewrite <- (join_chars name) at 1. rewrite E, join_app.
    now rewrite (strip_prefix_Some _ _ _ Hb).
  - intros x' y' Hx'. destruct (Hfirst x' y' Hx') as (us1' & us2' & E' & <- & Hle).
    unfold PyStr.find in Hle. rewrite H in Hle.
    assert (Hpre : us1' = us1 ++ drop (length us1) us1').
    { rewrite <- (take_drop (length us1) us1') at 1. f_equal.
      assert (Ht : take (length us1) (us1' ++ us2') = take (length us1) (us1 ++ us2))
        by now rewrite <- E, <- E'.
      rewrite take_app_le in Ht by lia. rewrite take_app_length in Ht. exact Ht. }
    rewrite Hpre. apply join_length_le.
  - intros rest Hl. unfold StructuralScans._get_first_t1w_norm_name, StructuralScans._get_first_t1w_name.
    rewrite Hl. cbv zeta. now rewrite (norm_name_at name us1 us2 b E Hb H).
  - intros rest Hl. unfold StructuralScans._get_first_t2w_norm_name, StructuralScans._get_first_t2w_name.
    rewrite Hl. cbv zeta. now rewrite (norm_name_at name us1 us2 b E Hb H).
Qed.

(** X12. For a first scan whose name holds no [vNav], the two methods do
    not return the name of the scan, and raise no error: [str.find] answers
    -1, which the slices read as a position from the end, and the name
    returned is the name of the scan without its last character, then
    [vNav_Norm], then the name of the scan from its fourth character on,
    characters being counted as Python counts them, by code point. *)
Theorem norm_names_of_scans_without_vNav
  (subject_info : SubjectInfo) (name : string) (front : list string) (last : string) :
  PyStr.chars name = front ++ [last] ->
  (forall x y, name <> x +:+ "vNav" +:+ y) ->
  (forall rest,
     available_t1w_unproc_names archive subject_info = name :: rest ->
     StructuralScans._get_first_t1w_norm_name archive subject_info
       = inr (PyStr.join front +:+ "vNav_Norm" +:+ PyStr.join (drop 3 (PyStr.chars name)))) /\
  (forall rest,
     available_t2w_unproc_names archive subject_info = name :: rest ->
     StructuralScans._get_first_t2w_norm_name archive subject_info
       = inr (PyStr.join front +:+ "vNav_Norm" +:+ PyStr.join (drop 3 (PyStr.chars name)))).
Proof.
  intros Hc Habs.
  assert (Hf : PyStr.find name "vNav" = -1).
  { unfold PyStr.find.
    destruct (find_chars_split "vNav" (PyStr.chars name) 0)
      as [H | (us1 & us2 & b & E & Hb & _)]; [exact H|].
    destruct (Habs (PyStr.join us1) b).
    rewrite <- (join_chars name) at 1. rewrite E, join_app.
    now rewrite (strip_prefix_Some _ _ _ Hb). }
  assert (Hn : ((PyStr.slice_to name (PyStr.find name "vNav") +:+ "vNav") +:+ "_Norm")
                 +:+ PyStr.slice_from name (PyStr.find name "vNav" + 4)
               = PyStr.join front +:+ "vNav_Norm" +:+ PyStr.join (drop 3 (PyStr.chars name))).
  { rewrite Hf. change (-1 + 4) with 3.
    unfold PyStr.slice_to, PyStr.slice_from, PyStr.bound.
    change (-1 <? 0) with true. change (3 <? 0) with false. cbv iota.
    rewrite Hc, length_app. cbn [length].
    replace (Z.to_nat (Z.max 0 _)) with (length front) by lia.
    rewrite take_app_length.
    destruct (Nat.le_gt_cases 3 (length front + 1)) as [Hge | Hlt].
    - replace (Z.to_nat _) with 3%nat by lia. rewrite !str_app_assoc. reflexivity.
    - replace (Z.to_nat _) with (length front + 1)%nat by lia.
      rewrite !drop_ge by (rewrite length_app; cbn [length]; lia).
      rewrite !str_app_assoc. reflexivity. }
  split; intros rest Hl.
  - unfold StructuralScans._get_first_t1w_norm_name, StructuralScans._get_first_t1w_name.
    rewrite Hl. cbv zeta. now rewrite Hn.
  - unfold StructuralScans._get_first_t2w_norm_name, StructuralScans._get_first_t2w_name.
    rewrite Hl. cbv zeta. now rewrite Hn.
Qed.
End ScanNames.

(** * Worked examples

    A small installation, on which the theorems above are applied and the
    behaviours they describe can be run. *)

(** An installation whose scheduler answers are given by [sh]. *)
Definition example_platform_with (sh : list Event -> string -> Z * string) : Platform := {|
  XNAT_PBS_JOBS_CONTROL := "/ctl";
  REQUESTED_XNAT_SERVER := "db";
  SINGULARITY_CONTAINER_VERSION := "singularity-3";
  SINGULARITY_CONTAINER_PATH := "/c/q.sif";
  SINGULARITY_CONTAINER_XNAT_PATH := "/c/x.sif";
  SINGULARITY_BIND_PATH := "/b";
  SINGULARITY_QUNEXRUN_PATH := "/q/run.sh";
  SINGULARITY_QUNEXPARAMETER_PATH := "/q/par";
  GRADIENT_COEFFICIENT_PATH := "/g";
  FREESURFER_LICENSE_PATH := "/f";
  XNAT_PBS_JOBS_ARCHIVE_ROOT := "/arch";
  SCRATCH_PROCESSING_DIR := "/scratch";
  get_server_name := fun s => s;
  remove_ending_new_lines := fun s => s;
  wl_text := fun l => l +:+ Py.os_linesep;
  shell := sh;
  delete_resource_ok := fun _ _ _ _ _ _ => true
|}.

(** Every command succeeds; a job number counts the commands run so far. *)
Definition example_platform : Platform :=
  example_platform_with (fun tr cmd => (0, Py.str_of_int (100 + Z.of_nat (length tr)))).

(** The third command of a run fails with exit status 1: for a stage above
    PREPARE_SCRIPTS that is the submission of the PROCESS_DATA job, after the
    marking of the running status and the submission of the GET_DATA job. *)
Definition failing_platform : Platform :=
  example_platform_with
    (fun tr cmd =>
       if (length tr =? 2)%nat then (1, EmptyString)
       else (0, Py.str_of_int (100 + Z.of_nat (length tr)))).

(** As [example_platform], but the third command prints nothing. *)
Definition silent_platform : Platform :=
  example_platform_with
    (fun tr cmd =>
       if (length tr =? 2)%nat then (0, EmptyString)
       else (0, Py.str_of_int (100 + Z.of_nat (length tr)))).

(** A submitter as the batch submitter sets one up, before any method runs. *)
Definition example_submitter : Submitter := {|
  _build_home := "/build";
  _xnat_pbs_jobs_home := "/jobs";
  _log_dir := "/log";
  _scan := None;
  _working_directory_name_prefix := None;
  _username := "u";
  _password := "p";
  _server := "srv";
  _project := "proj";
  _subject := "S1";
  _session := "S1_V1";
  _classifier := "V1";
  _clean_output_resource_first := false;
  _put_server := "put";
  _walltime_limit_hours := "24";
  _vmem_limit_gbs := "32";
  _output_resource_suffix := "Structural_preproc";
  _use_prescan_normalized := false
|}.

Definition example_world : World :=
  {| fs := {[ "/scratch" := Dir ]}; trace := []; clock := 1700000000; umask := 18 |}.
Definition example_state : State := {| self := example_submitter; world := example_world |}.


(** The prefix [submit_jobs] builds for [example_state], five seconds
    later. *)
Definition example_prefix : string := "/build/proj/StructuralPreprocessing.S1_V1.1700000005".

(** The state [do_job_submissions] starts from: the prefix is stored and
    the three working directories are made. *)
Definition ready_state : State :=
  {| self := set_working_directory_name_prefix (Some example_prefix) example_submitter;
     world :=
       {| fs := {[ "/scratch" := Dir;
                   example_prefix +:+ ".XNAT_PROCESS_DATA" := Dir;
                   example_prefix +:+ ".XNAT_CHECK_DATA" := Dir;
                   example_prefix +:+ ".XNAT_MARK_COMPLETE_RUNNING_STATUS" := Dir ]};
          trace := []; clock := 1700000005; umask := 18 |} |}.

Definition example_scripts : string :=
  example_prefix +:+ ".XNAT_PROCESS_DATA/S1_V1.StructuralPreprocessing".

Definition example_mark_command : string :=
  "/jobs/StructuralPreprocessing/StructuralPreprocessing.XNAT_MARK_RUNNING_STATUS --user=u --password=p --server=put --project=proj --subject=S1 --classifier=V1 --resource=RunningStatus --queued".

Definition example_mark_complete_script : string :=
  example_prefix +:+ ".XNAT_MARK_COMPLETE_RUNNING_STATUS/S1_V1.StructuralPreprocessing.MARK_COMPLETE_RUNNING_STATUS_job.sh".


(** ** The theorems at work *)

Lemma result_of_run {A : Type} (p : Result A * State) (r : Result A) :
  fst p = r -> p = (r, snd p).
Proof. destruct p as [r0 s]. simpl. intros ->. reflexivity. Qed.

(** The list returned for a request of PROCESS_DATA. *)
Lemma manifest_labels_at_process_data :
  let run := Structural.do_job_submissions example_platform ProcessingStage.PROCESS_DATA ready_state in
  let m := [("GET_DATA", Some ["101"]); ("PROCESS_DATA", Some ["102"]);
            ("CLEAN_DATA", None); ("Complete Running Status", Some ["103"])] in
  run = (Ok m, snd run) /\
  (forall x, x <> ProcessingStage.PREPARE_SCRIPTS ->
     (In (ProcessingStage.name x) (map fst m) <->
      ProcessingStage.ge ProcessingStage.PROCESS_DATA x = true \/
      (ProcessingStage.PROCESS_DATA = ProcessingStage.PROCESS_DATA /\ x = ProcessingStage.CLEAN_DATA))) /\
  In "Complete Running Status" (map fst m) /\
  (ProcessingStage.PROCESS_DATA = ProcessingStage.PROCESS_DATA -> In ("CLEAN_DATA", None) m).
Proof.
  cbv zeta.
  assert (H : Structural.do_job_submissions example_platform ProcessingStage.PROCESS_DATA ready_state =
              (Ok [("GET_DATA", Some ["101"]); ("PROCESS_DATA", Some ["102"]);
                   ("CLEAN_DATA", None); ("Complete Running Status", Some ["103"])],
               snd (Structural.do_job_submissions example_platform ProcessingStage.PROCESS_DATA ready_state))).
  { apply result_of_run. vm_compute. reflexivity. }
  split; [exact H|].
  exact (manifest_labels example_platform ProcessingStage.PROCESS_DATA ready_state _ _ H).
Defined.

(** The request of PROCESS_DATA, which is below CLEAN_DATA, yields an entry
    labelled CLEAN_DATA. *)
Lemma process_data_request_lists_clean_data :
  fst (Structural.do_job_submissions example_platform ProcessingStage.PROCESS_DATA ready_state) =
    Ok [("GET_DATA", Some ["101"]); ("PROCESS_DATA", Some ["102"]);
        ("CLEAN_DATA", None); ("Complete Running Status", Some ["103"])] /\
  ProcessingStage.ge ProcessingStage.PROCESS_DATA ProcessingStage.CLEAN_DATA = false.
Proof. split; vm_compute; reflexivity. Qed.

(** The submissions of a request of CLEAN_DATA are wired in sequence. *)
Lemma dependencies_follow_submissions_at_clean_data :
  let run := Structural.do_job_submissions example_platform ProcessingStage.CLEAN_DATA ready_state in
  forallb (job_id_nonempty example_platform) (new_events ready_state (snd run)) = true /\
  wired example_platform (script_at Structural.PIPELINE_NAME (snd run)) None
    (List.filter is_submit (new_events ready_state (snd run))) /\
  forall m, fst run = Ok m -> submitted_jobs (new_events ready_state (snd run)) = plan ProcessingStage.CLEAN_DATA.
Proof.
  cbv zeta.
  assert (H : forallb (job_id_nonempty example_platform)
                (new_events ready_state
                   (snd (Structural.do_job_submissions example_platform ProcessingStage.CLEAN_DATA ready_state)))
              = true).
  { vm_compute. reflexivity. }
  split; [exact H|].
  exact (dependencies_follow_submissions example_platform ProcessingStage.CLEAN_DATA ready_state H).
Defined.

(** A submission that prints no job number leaves the job before it as
    the one the next submission depends on. *)
Lemma wired_first_inv P script j cmd rc out evs :
  wired P script None (EvRun (Submit j) cmd rc out :: evs) ->
  cmd = "qsub " +:+ script j /\ wired P script (Some (remove_ending_new_lines P out)) evs.
Proof. intros H. inversion H; subst. split; [reflexivity | assumption]. Qed.

Lemma wired_next_inv P script id j cmd rc out evs :
  wired P script (Some id) (EvRun (Submit j) cmd rc out :: evs) ->
  cmd = "qsub -W depend=" +:+ depend_mode j +:+ ":" +:+ id +:+ " " +:+ script j /\
  wired P script (Some (remove_ending_new_lines P out)) evs.
Proof. intros H. inversion H; subst. split; [reflexivity | assumption]. Qed.

Lemma empty_job_number_is_not_carried :
  let run := Structural.do_job_submissions silent_platform ProcessingStage.CLEAN_DATA ready_state in
  List.filter is_submit (new_events ready_state (snd run)) =
    [EvRun (Submit GetDataJob)
       ("qsub " +:+ example_scripts +:+ ".XNAT_GET_DATA_job.sh") 0 "101";
     EvRun (Submit ProcessDataJob)
       ("qsub -W depend=afterok:101 " +:+ example_scripts +:+ ".PROCESS_DATA_job.sh") 0 EmptyString;
     EvRun (Submit CleanDataJob)
       ("qsub -W depend=afterok:101 " +:+ example_scripts +:+ ".CLEAN_DATA_job.sh") 0 "103";
     EvRun (Submit NoLongerRunningJob)
       ("qsub -W depend=afterany:103 " +:+ example_mark_complete_script) 0 "104"] /\
  ~ wired silent_platform (script_at Structural.PIPELINE_NAME (snd run)) None
      (List.filter is_submit (new_events ready_state (snd run))).
Proof.
  cbv zeta.
  assert (Hev : List.filter is_submit
                  (new_events ready_state
                     (snd (Structural.do_job_submissions silent_platform ProcessingStage.CLEAN_DATA ready_state))) =
    [EvRun (Submit GetDataJob)
       ("qsub " +:+ example_scripts +:+ ".XNAT_GET_DATA_job.sh") 0 "101";
     EvRun (Submit ProcessDataJob)
       ("qsub -W depend=afterok:101 " +:+ example_scripts +:+ ".PROCESS_DATA_job.sh") 0 EmptyString;
     EvRun (Submit CleanDataJob)
       ("qsub -W depend=afterok:101 " +:+ example_scripts +:+ ".CLEAN_DATA_job.sh") 0 "103";
     EvRun (Submit NoLongerRunningJob)
       ("qsub -W depend=afterany:103 " +:+ example_mark_complete_script) 0 "104"]).
  { vm_compute. reflexivity. }
  split; [exact Hev|].
  rewrite Hev. intros H.
  apply wired_first_inv in H as [_ H].
  apply wired_next_inv in H as [_ H].
  apply wired_next_inv in H as [E _].
  revert E. apply String.eqb_neq. vm_compute. reflexivity.
Qed.

(** A run whose PROCESS_DATA submission fails. *)
Lemma failed_submission_aborts_run_at_process_data :
  let run := Structural.submit_jobs failing_platform ProcessingStage.CHECK_DATA example_state in
  let cmd := "qsub -W depend=afterok:101 " +:+ example_scripts +:+ ".PROCESS_DATA_job.sh" in
  let pre := [EvRun MarkQueued example_mark_command 0 "100";
              EvRun (Submit GetDataJob)
                ("qsub " +:+ example_scripts +:+ ".XNAT_GET_DATA_job.sh") 0 "101"] in
  new_events example_state (snd run) = pre ++ EvRun (Submit ProcessDataJob) cmd 1 EmptyString :: [] /\
  1 <> 0 /\
  @nil Event = [] /\
  fst run = Raise (CalledProcessError 1 cmd).
Proof.
  cbv zeta.
  assert (H : new_events example_state
                (snd (Structural.submit_jobs failing_platform ProcessingStage.CHECK_DATA example_state)) =
              [EvRun MarkQueued example_mark_command 0 "100";
               EvRun (Submit GetDataJob)
                 ("qsub " +:+ example_scripts +:+ ".XNAT_GET_DATA_job.sh") 0 "101"]
              ++ EvRun (Submit ProcessDataJob)
                   ("qsub -W depend=afterok:101 " +:+ example_scripts +:+ ".PROCESS_DATA_job.sh")
                   1 EmptyString :: []).
  { vm_compute. reflexivity. }
  assert (Hrc : 1 <> 0) by discriminate.
  split; [exact H|]. split; [exact Hrc|].
  exact (failed_submission_aborts_run failing_platform ProcessingStage.CHECK_DATA example_state _ _ _ _ _ _ H Hrc).
Defined.

(** The same run, seen from the failed command. *)
Lemma failed_process_submission_at_check_data :
  let run := Structural.submit_jobs failing_platform ProcessingStage.CHECK_DATA example_state in
  let cmd := "qsub -W depend=afterok:101 " +:+ example_scripts +:+ ".PROCESS_DATA_job.sh" in
  In (EvRun (Submit ProcessDataJob) cmd 1 EmptyString) (new_events example_state (snd run)) /\
  fst run = Raise (CalledProcessError 1 cmd) /\
  ~ In CleanDataJob (submitted_jobs (new_events example_state (snd run))) /\
  ~ In PutDataJob (submitted_jobs (new_events example_state (snd run))) /\
  ~ In CheckDataJob (submitted_jobs (new_events example_state (snd run))) /\
  ~ In NoLongerRunningJob (submitted_jobs (new_events example_state (snd run))).
Proof.
  cbv zeta.
  assert (H : In (EvRun (Submit ProcessDataJob)
                    ("qsub -W depend=afterok:101 " +:+ example_scripts +:+ ".PROCESS_DATA_job.sh")
                    1 EmptyString)
                 (new_events example_state
                    (snd (Structural.submit_jobs failing_platform ProcessingStage.CHECK_DATA example_state)))).
  { vm_compute. right. right. left. reflexivity. }
  split; [exact H|].
  exact (failed_process_submission_submits_nothing_more
           failing_platform ProcessingStage.CHECK_DATA example_state _ _ H).
Defined.

(** After the failed PROCESS_DATA submission the job that marks the run as
    no longer running is not submitted. *)
Lemma no_cleanup_job_after_failed_process_submission :
  let run := Structural.submit_jobs failing_platform ProcessingStage.CHECK_DATA example_state in
  In (EvRun (Submit ProcessDataJob)
        ("qsub -W depend=afterok:101 " +:+ example_scripts +:+ ".PROCESS_DATA_job.sh")
        1 EmptyString)
     (new_events example_state (snd run)) /\
  submitted_jobs (new_events example_state (snd run)) = [GetDataJob; ProcessDataJob] /\
  ~ In NoLongerRunningJob (submitted_jobs (new_events example_state (snd run))).
Proof.
  cbv zeta. split; [vm_compute; right; right; left; reflexivity|].
  split; [vm_compute; reflexivity|].
  vm_compute. intros [H | [H | []]]; discriminate H.
Qed.

(** The command that submits the PUT_DATA job after job 103. *)
Lemma dependency_modes_of_put_data :
  gate PutDataJob ProcessingStage.CHECK_DATA = true /\
  exists rc out,
    new_events ready_state
      (snd (Base.submit_method example_platform Structural.PIPELINE_NAME
              PutDataJob ProcessingStage.CHECK_DATA (Some "103") ready_state)) =
      [EvRun (Submit PutDataJob)
         (if Py.truthy (Some "103")
          then
            match PutDataJob with
            | NoLongerRunningJob => "qsub -W depend=afterany:"
            | _ => "qsub -W depend=afterok:"
            end +:+ Py.str_value (Some "103") +:+ " "
                +:+ script_at Structural.PIPELINE_NAME ready_state PutDataJob
          else "qsub " +:+ script_at Structural.PIPELINE_NAME ready_state PutDataJob)
         rc out].
Proof.
  assert (G : gate PutDataJob ProcessingStage.CHECK_DATA = true) by reflexivity.
  split; [exact G|].
  exact (dependency_modes example_platform Structural.PIPELINE_NAME
           PutDataJob ProcessingStage.CHECK_DATA (Some "103") ready_state G).
Defined.

(** A request of PREPARE_SCRIPTS returns, submits the job that marks the
    run as no longer running, and never marks the running status as
    queued. *)
Lemma prepare_scripts_run_marks_nothing :
  let run := Structural.submit_jobs example_platform ProcessingStage.PREPARE_SCRIPTS example_state in
  fst run = Ok [("Complete Running Status", Some ["100"])] /\
  new_events example_state (snd run) =
    [EvRun (Submit NoLongerRunningJob) ("qsub " +:+ example_mark_complete_script) 0 "100"] /\
  ~ marked_queued_first (mark_command example_platform (self (snd run)))
      (new_events example_state (snd run)).
Proof.
  cbv zeta.
  assert (Hev : new_events example_state
                  (snd (Structural.submit_jobs example_platform ProcessingStage.PREPARE_SCRIPTS example_state)) =
                [] ++ EvRun (Submit NoLongerRunningJob)
                        ("qsub " +:+ example_mark_complete_script) 0 "100" :: []).
  { vm_compute. reflexivity. }
  split; [vm_compute; reflexivity|]. split; [exact Hev|].
  intros H. destruct (H _ _ _ _ _ _ Hev) as [mout []].
Qed.


(** Rendering the CLEAN_DATA script. *)
Lemma script_rendering_of_clean_data :
  let render := create_script example_platform Structural.PIPELINE_NAME CleanDataScript in
  let path := script_file Structural.PIPELINE_NAME CleanDataScript ready_state in
  fst (render ready_state) = Ok tt /\
  (exists text,
     fs (world (snd (render ready_state))) !! path =
       Some (File text (Z.lor Py.S_IRWXU Py.S_IRWXG))) /\
  (forall c0 mode0,
     render {| self := self ready_state;
               world := set_fs (<[path := File c0 mode0]> (fs (world ready_state)))
                          (world ready_state) |}
     = render ready_state) /\
  render (snd (render ready_state)) = render ready_state.
Proof.
  cbv zeta.
  assert (H : fst (create_script example_platform Structural.PIPELINE_NAME CleanDataScript
                     ready_state) = Ok tt).
  { vm_compute. reflexivity. }
  split; [exact H|].
  exact (script_rendering_replaces_the_file example_platform Structural.PIPELINE_NAME
           CleanDataScript ready_state H).
Defined.

(** The PUT script of one instance, rendered without a scan and with the
    scan rfMRI_REST1. *)
Lemma put_data_script_with_and_without_scan :
  let case (value : option string) :=
    let st := {| self := set_scan value (self ready_state); world := world ready_state |} in
    let s := self st in
    let run := Base.create_put_data_script example_platform Structural.PIPELINE_NAME st in
    fst run = Ok tt /\
    exists wd : string,
      fst (Base.working_directory_name Structural.PIPELINE_NAME st) = Ok wd /\
      fs (world (snd run)) !! script_at Structural.PIPELINE_NAME st PutDataJob =
        Some (File
                (script_text
                   (put_data_script_head example_platform Structural.PIPELINE_NAME s wd ++
                    (if Py.truthy (_scan s)
                     then
                       [ "  --scan=" +:+ Py.dq +:+ Py.str_value (_scan s) +:+ Py.dq +:+ " \"
                           +:+ Py.os_linesep;
                         "  --resource-suffix=" +:+ Py.dq +:+ _output_resource_suffix s
                           +:+ Py.dq +:+ " \" +:+ Py.os_linesep ]
                     else
                       [ "  --resource-suffix=" +:+ Py.dq +:+ Base.output_resource_name s
                           +:+ Py.dq +:+ " \" +:+ Py.os_linesep ]) ++
                    put_data_script_tail Structural.PIPELINE_NAME))
                (Z.lor Py.S_IRWXU Py.S_IRWXG)) /\
      Forall (fun piece =>
                starts_with "  --scan=" piece = false /\
                starts_with "  --resource-suffix=" piece = false)
        (put_data_script_head example_platform Structural.PIPELINE_NAME s wd ++
         put_data_script_tail Structural.PIPELINE_NAME) /\
      (forall value',
         put_data_script_head example_platform Structural.PIPELINE_NAME (set_scan value' s) wd =
         put_data_script_head example_platform Structural.PIPELINE_NAME s wd) in
  case None /\ case (Some "rfMRI_REST1").
Proof.
  cbv zeta.
  assert (H0 : fst (Base.create_put_data_script example_platform Structural.PIPELINE_NAME
                      {| self := set_scan None (self ready_state);
                         world := world ready_state |}) = Ok tt).
  { vm_compute. reflexivity. }
  assert (H1 : fst (Base.create_put_data_script example_platform Structural.PIPELINE_NAME
                      {| self := set_scan (Some "rfMRI_REST1") (self ready_state);
                         world := world ready_state |}) = Ok tt).
  { vm_compute. reflexivity. }
  split.
  - split; [exact H0|].
    exact (put_data_script_scan_lines example_platform Structural.PIPELINE_NAME _ H0).
  - split; [exact H1|].
    exact (put_data_script_scan_lines example_platform Structural.PIPELINE_NAME _ H1).
Defined.

(** The name read again an hour later is the name read first; an instance
    that builds its name at that later time gets another one. *)
Lemma working_directory_name_is_read_once :
  let first := Base.working_directory_name Structural.PIPELINE_NAME example_state in
  let later := {| self := self (snd first); world := set_clock 1700003600 example_world |} in
  let fresh := {| self := example_submitter; world := set_clock 1700003600 example_world |} in
  fst first = Ok "/build/proj/StructuralPreprocessing.S1_V1.1700000000.XNAT_PROCESS_DATA" /\
  fst (Base.working_directory_name Structural.PIPELINE_NAME later) = fst first /\
  fst (Base.working_directory_name Structural.PIPELINE_NAME fresh) =
    Ok "/build/proj/StructuralPreprocessing.S1_V1.1700003600.XNAT_PROCESS_DATA".
Proof. cbv zeta. repeat split; vm_compute; reflexivity. Qed.

(** ** Further properties at work *)

(** The first command of a run, the marking of the running status, fails
    with exit status 2. *)
Definition unmarked_platform : Platform :=
  example_platform_with
    (fun tr cmd =>
       if (length tr =? 0)%nat then (2, EmptyString)
       else (0, Py.str_of_int (100 + Z.of_nat (length tr)))).

(** A run whose marking fails. *)
Lemma failed_marking_aborts_run_at_get_data :
  let run := Structural.submit_jobs unmarked_platform ProcessingStage.GET_DATA example_state in
  new_events example_state (snd run) = [EvRun MarkQueued example_mark_command 2 EmptyString] /\
  fst run = Raise (CalledProcessError 2 example_mark_command) /\
  submitted_jobs (new_events example_state (snd run)) = [].
Proof.
  cbv zeta.
  assert (H : new_events example_state
                (snd (Structural.submit_jobs unmarked_platform ProcessingStage.GET_DATA
                        example_state))
              = [EvRun MarkQueued example_mark_command 2 EmptyString]).
  { vm_compute. reflexivity. }
  split; [exact H|].
  apply (failed_marking_aborts_run unmarked_platform ProcessingStage.GET_DATA example_state
           example_mark_command 2 EmptyString).
  - rewrite H. left. reflexivity.
  - discriminate.
Defined.

(** The last command of a request of GET_DATA. *)
Lemma commands_of_a_run_at_get_data :
  let run := Structural.submit_jobs example_platform ProcessingStage.GET_DATA example_state in
  let cmd := "qsub -W depend=afterany:101 " +:+ example_mark_complete_script in
  In (EvRun (Submit NoLongerRunningJob) cmd 0 "102") (new_events example_state (snd run)) /\
  ((Submit NoLongerRunningJob = MarkQueued /\
    cmd = mark_command example_platform (self (snd run))) \/
   (exists j,
      Submit NoLongerRunningJob = Submit j /\ gate j ProcessingStage.GET_DATA = true /\
      (cmd = "qsub " +:+ script_at Structural.PIPELINE_NAME (snd run) j \/
       exists id, id <> EmptyString /\
         cmd = "qsub -W depend=" +:+ depend_mode j +:+ ":" +:+ id +:+ " "
                 +:+ script_at Structural.PIPELINE_NAME (snd run) j))).
Proof.
  cbv zeta.
  assert (H : In (EvRun (Submit NoLongerRunningJob)
                    ("qsub -W depend=afterany:101 " +:+ example_mark_complete_script) 0 "102")
                (new_events example_state
                   (snd (Structural.submit_jobs example_platform ProcessingStage.GET_DATA
                           example_state)))).
  { vm_compute. right. right. left. reflexivity. }
  split; [exact H|].
  exact (commands_of_a_run example_platform ProcessingStage.GET_DATA example_state _ _ _ _ H).
Defined.

(** The list a request of PROCESS_DATA returns. *)
Lemma returned_list_at_process_data :
  let run := Structural.submit_jobs example_platform ProcessingStage.PROCESS_DATA example_state in
  let m := [("GET_DATA", Some ["101"]); ("PROCESS_DATA", Some ["102"]);
            ("CLEAN_DATA", None); ("Complete Running Status", Some ["103"])] in
  fst run = Ok m /\
  m = manifest_of example_platform ProcessingStage.PROCESS_DATA
        (new_events example_state (snd run)).
Proof.
  cbv zeta.
  assert (H : fst (Structural.submit_jobs example_platform ProcessingStage.PROCESS_DATA
                     example_state)
              = Ok [("GET_DATA", Some ["101"]); ("PROCESS_DATA", Some ["102"]);
                    ("CLEAN_DATA", None); ("Complete Running Status", Some ["103"])]).
  { vm_compute. reflexivity. }
  split; [exact H|].
  exact (returned_list_holds_the_job_numbers example_platform ProcessingStage.PROCESS_DATA
           example_state _ H).
Defined.

(** The scripts of [ready_state], once they are created. *)
Lemma create_scripts_leaves_the_scripts_of_ready_state :
  let run := Structural.create_scripts example_platform ProcessingStage.GET_DATA ready_state in
  run = (Ok tt, snd run) /\
  forall j, exists text,
    fs (world (snd run)) !! script_at Structural.PIPELINE_NAME (snd run) j
      = Some (File text (Z.lor Py.S_IRWXU Py.S_IRWXG)).
Proof.
  cbv zeta.
  assert (H : Structural.create_scripts example_platform ProcessingStage.GET_DATA ready_state =
              (Ok tt, snd (Structural.create_scripts example_platform ProcessingStage.GET_DATA
                             ready_state))).
  { apply result_of_run. vm_compute. reflexivity. }
  split; [exact H|].
  exact (create_scripts_leaves_the_scripts example_platform ProcessingStage.GET_DATA
           ready_state _ H).
Defined.

(** The script of the job that a request of GET_DATA submits first. *)
Lemma submitted_scripts_are_in_place_at_get_data :
  let run := Structural.submit_jobs example_platform ProcessingStage.GET_DATA example_state in
  In (EvRun (Submit GetDataJob)
        ("qsub " +:+ example_scripts +:+ ".XNAT_GET_DATA_job.sh") 0 "101")
     (new_events example_state (snd run)) /\
  exists text,
    fs (world (snd run)) !! script_at Structural.PIPELINE_NAME (snd run) GetDataJob
      = Some (File text (Z.lor Py.S_IRWXU Py.S_IRWXG)).
Proof.
  cbv zeta.
  assert (H : In (EvRun (Submit GetDataJob)
                    ("qsub " +:+ example_scripts +:+ ".XNAT_GET_DATA_job.sh") 0 "101")
                (new_events example_state
                   (snd (Structural.submit_jobs example_platform ProcessingStage.GET_DATA
                           example_state)))).
  { vm_compute. right. left. reflexivity. }
  split; [exact H|].
  exact (submitted_scripts_are_in_place example_platform ProcessingStage.GET_DATA
           example_state _ _ _ _ H).
Defined.

(** Two of the scripts of [example_state]. *)
Lemma get_and_put_scripts_have_different_names :
  GetDataJob <> PutDataJob /\
  script_at Structural.PIPELINE_NAME example_state GetDataJob
    <> script_at Structural.PIPELINE_NAME example_state PutDataJob.
Proof.
  assert (H : GetDataJob <> PutDataJob) by discriminate.
  split; [exact H|].
  exact (scripts_have_different_names Structural.PIPELINE_NAME example_state _ _ H).
Defined.

(** A file stands where the build directory should be. *)
Definition blocked_state : State :=
  {| self := example_submitter;
     world := {| fs := {[ "/build" := File EmptyString 420 ]}; trace := [];
                 clock := 1700000000; umask := 18 |} |}.

(** The run that cannot make its working directory. *)
Lemma file_errors_come_before_all_commands_at_blocked_state :
  let run := Structural.submit_jobs example_platform ProcessingStage.GET_DATA blocked_state in
  fst run = Raise (NotADirectoryError "/build/proj") /\
  is_os_error (NotADirectoryError "/build/proj") /\
  forall site cmd rc out, ~ In (EvRun site cmd rc out) (new_events blocked_state (snd run)).
Proof.
  cbv zeta.
  assert (H : fst (Structural.submit_jobs example_platform ProcessingStage.GET_DATA
                     blocked_state) = Raise (NotADirectoryError "/build/proj")).
  { vm_compute. reflexivity. }
  split; [exact H|]. split; [exact I|].
  exact (file_errors_come_before_all_commands example_platform ProcessingStage.GET_DATA
           blocked_state _ H I).
Defined.

(** The two bytes of the UTF-8 encoding of U+00E9, e with an acute
    accent. *)
Definition e_acute : string := String "195" (String "169" EmptyString).

(** An archive with one session, whose first scans are a T1w scan with
    [vNav] in its name and a T2w scan without, which ends with a character
    of two bytes. *)
Definition example_archive : Archive unit := {|
  available_t1w_unproc_names := fun _ => ["T1w_MPR_vNav_4e_RMS"; "T1w_MPR_vNav_4e_RMS_2"];
  available_t2w_unproc_names := fun _ => ["T2w_" +:+ e_acute]
|}.

(** The T1w scan of [example_archive]. *)
Lemma norm_name_of_a_vNav_scan :
  "T1w_MPR_vNav_4e_RMS" = "T1w_MPR_" +:+ "vNav" +:+ "_4e_RMS" /\
  exists a b,
    "T1w_MPR_vNav_4e_RMS" = a +:+ "vNav" +:+ b /\
    (forall x' y', "T1w_MPR_vNav_4e_RMS" = x' +:+ "vNav" +:+ y' ->
       (String.length a <= String.length x')%nat) /\
    (forall rest,
       available_t1w_unproc_names example_archive tt = "T1w_MPR_vNav_4e_RMS" :: rest ->
       StructuralScans._get_first_t1w_norm_name example_archive tt
         = inr (a +:+ "vNav_Norm" +:+ b)) /\
    (forall rest,
       available_t2w_unproc_names example_archive tt = "T1w_MPR_vNav_4e_RMS" :: rest ->
       StructuralScans._get_first_t2w_norm_name example_archive tt
         = inr (a +:+ "vNav_Norm" +:+ b)).
Proof.
  assert (H : "T1w_MPR_vNav_4e_RMS" = "T1w_MPR_" +:+ "vNav" +:+ "_4e_RMS") by reflexivity.
  split; [exact H|].
  exact (norm_names_mark_the_first_vNav example_archive tt _ _ _ H).
Defined.

(** The T2w scan of [example_archive]. *)
Lemma norm_name_of_a_scan_without_vNav :
  let name := "T2w_" +:+ e_acute in
  let front := ["T"; "2"; "w"; "_"] in
  PyStr.chars name = front ++ [e_acute] /\
  (forall x y, name <> x +:+ "vNav" +:+ y) /\
  (forall rest,
     available_t1w_unproc_names example_archive tt = name :: rest ->
     StructuralScans._get_first_t1w_norm_name example_archive tt
       = inr (PyStr.join front +:+ "vNav_Norm" +:+ PyStr.join (drop 3 (PyStr.chars name)))) /\
  (forall rest,
     available_t2w_unproc_names example_archive tt = name :: rest ->
     StructuralScans._get_first_t2w_norm_name example_archive tt
       = inr (PyStr.join front +:+ "vNav_Norm" +:+ PyStr.join (drop 3 (PyStr.chars name)))).
Proof.
  cbv zeta.
  assert (Hc : PyStr.chars ("T2w_" +:+ e_acute) = ["T"; "2"; "w"; "_"] ++ [e_acute])
    by (vm_compute; reflexivity).
  assert (H : forall x y, "T2w_" +:+ e_acute <> x +:+ "vNav" +:+ y).
  { intros x y E. destruct (occurrence_of_vNav _ x y E) as (us1 & us2 & Ec & _ & Hs).
    pose proof (find_chars_le "vNav" us1 us2 y 0 Hs) as L. rewrite <- Ec in L.
    vm_compute in L. destruct L as [L _]. apply L. reflexivity. }
  split; [exact Hc|]. split; [exact H|].
  exact (norm_names_of_scans_without_vNav example_archive tt _ _ _ Hc H).
Defined.

(** What the two methods return for [example_archive]: the last character
    of the T2w scan is dropped whole. *)
Lemma norm_names_of_example_archive :
  StructuralScans._get_first_t1w_norm_name example_archive tt = inr "T1w_MPR_vNav_Norm_4e_RMS" /\
  StructuralScans._get_first_t2w_norm_name example_archive tt
    = inr ("T2w_vNav_Norm_" +:+ e_acute).
Proof. split; vm_compute; reflexivity. Qed.
